(** * hahm-mqtt: the control unit of the adapter, embedded and verified

    A shallow embedding of [hahmmqtt/const.py], [hahmmqtt/control_unit.py]
    and the topic of [hahmmqtt/__init__.py].
    Python values that the code handles dynamically (the configuration
    mapping) are values of [Py.val]; the classes are records; a method is a
    function of the receiver's state that returns the events it emitted, the
    receiver's new state and either a result or the exception it raised. *)

From Stdlib Require Import ZArith String Ascii List Bool Lia DecimalString.
From stdpp Require Import base option list gmap strings.

Local Open Scope string_scope.
Local Open Scope Z_scope.
Local Open Scope list_scope.

(** ** Python values *)

Module Py.

(** What the backend library raises: the adapter never inspects it. *)
Record BackendExn := { exn_class : string; exn_message : string }.

(** The exceptions that can leave a method of the adapter. The adapter
    defines no exception class: besides what the backend raises there are
    only Python's own. *)
Inductive exn :=
| KeyError (key : string)
| TypeError (what : string)
| AttributeError (what : string)
| Exception_ (message : string)
| BackendError (e : BackendExn).

Inductive res (A : Type) :=
| Ok (a : A)
| Raise (e : exn).
Arguments Ok {A} a.
Arguments Raise {A} e.

(** A value of the configuration mapping ([Any] in the annotations). A
    dict keeps its items in insertion order. *)
#[warnings="-register-all"]
Inductive val :=
| None_
| Bool_ (b : bool)
| Int_ (z : Z)
| Str_ (s : string)
| Dict_ (items : list (string * val)).

(** [Mapping[str, Any]] *)
Definition mapping := list (string * val).

Fixpoint lookup (m : mapping) (key : string) : option val :=
  match m with
  | [] => None
  | (k, v) :: m' => if String.eqb k key then Some v else lookup m' key
  end.

(** [m[key]] *)
Definition getitem (m : mapping) (key : string) : res val :=
  match lookup m key with
  | Some v => Ok v
  | None => Raise (KeyError key)
  end.

(** [m.get(key)] *)
Definition get (m : mapping) (key : string) : val :=
  match lookup m key with
  | Some v => v
  | None => None_
  end.

(** [v[key]] for a value of unknown type and a string key. *)
Definition val_getitem (v : val) (key : string) : res val :=
  match v with
  | Dict_ items => getitem items key
  | Str_ _ => Raise (TypeError "string indices must be integers")
  | _ => Raise (TypeError "object is not subscriptable")
  end.

(** [v.get(key)] for a value of unknown type. *)
Definition val_get (v : val) (key : string) : res val :=
  match v with
  | Dict_ items => Ok (get items key)
  | _ => Raise (AttributeError "get")
  end.

(** [for key in v]: the keys of a dict, the characters of a string. *)
Definition iter (v : val) : res (list string) :=
  match v with
  | Dict_ items => Ok (map fst items)
  | Str_ s => Ok (map (fun c => String c EmptyString) (list_ascii_of_string s))
  | _ => Raise (TypeError "object is not iterable")
  end.

(** [v == s] for a string [s]. *)
Definition eq_str (v : val) (s : string) : bool :=
  match v with
  | Str_ s' => String.eqb s' s
  | _ => false
  end.

(** [v == z] for an integer [z]; [True == 1] and [False == 0] hold. *)
Definition eq_int (v : val) (z : Z) : bool :=
  match v with
  | Int_ z' => Z.eqb z' z
  | Bool_ b => Z.eqb (if b then 1 else 0) z
  | _ => false
  end.

(** [s[-n:]] for a string of ASCII characters and [n > 0]: a character of
    the model is a byte, so the last [n] bytes are the last [n] characters
    of Python only when every character is one byte. *)
Definition last_chars (n : nat) (s : string) : string :=
  substring (String.length s - n)%nat n s.

End Py.

(** ** [datetime.timedelta], as far as [const.py] uses it *)

Module datetime.

(** A normalised duration: [0 <= seconds < 86400], [0 <= microseconds < 10^6]. *)
Record timedelta := mk_timedelta { days : Z; seconds : Z; microseconds : Z }.

(** [timedelta(seconds=s)] *)
Definition timedelta_of_seconds (s : Z) : timedelta :=
  {| days := s / 86400; seconds := s mod 86400; microseconds := 0 |}.

Definition total_microseconds (d : timedelta) : Z :=
  (days d * 86400 + seconds d) * 1000000 + microseconds d.

(** [d1 < d2]: the triples compared in order. *)
Definition timedelta_lt (d1 d2 : timedelta) : bool :=
  ((days d1 <? days d2)
   || ((days d1 =? days d2)
       && ((seconds d1 <? seconds d2)
           || ((seconds d1 =? seconds d2) && (microseconds d1 <? microseconds d2))))).

(** [datetime.datetime], a point in time; the adapter only passes it on. *)
Definition datetime := Z.

End datetime.

(** ** [hahmmqtt/const.py] *)

Module const.

Definition DOMAIN := "hahm-mqtt".
Definition MANUFACTURER_EQ3 := "eQ-3".
Definition HMIP_LOCAL_MIN_VERSION := "2022.11".
Definition IDENTIFIER_SEPARATOR := "@".

Definition ATTR_INSTANCE_NAME := "instance_name".
Definition ATTR_INTERFACE := "interface".
Definition ATTR_PATH := "path".

Definition SYSVAR_SCAN_INTERVAL := datetime.timedelta_of_seconds 30.
Definition MASTER_SCAN_INTERVAL := datetime.timedelta_of_seconds 300.

(** [class Platform(StrEnum)] *)
Inductive Platform :=
| AIR_QUALITY | ALARM_CONTROL_PANEL | BINARY_SENSOR | BUTTON | CALENDAR
| CAMERA | CLIMATE | COVER | DEVICE_TRACKER | FAN | GEO_LOCATION
| HUMIDIFIER | IMAGE_PROCESSING | LIGHT | LOCK | MAILBOX | MEDIA_PLAYER
| NOTIFY | NUMBER | REMOTE | SCENE | SELECT | SENSOR | SIREN | STT
| SWITCH | TTS | VACUUM | UPDATE | WATER_HEATER | WEATHER.

Definition value (p : Platform) : string :=
  match p with
  | AIR_QUALITY => "air_quality"
  | ALARM_CONTROL_PANEL => "alarm_control_panel"
  | BINARY_SENSOR => "binary_sensor"
  | BUTTON => "button"
  | CALENDAR => "calendar"
  | CAMERA => "camera"
  | CLIMATE => "climate"
  | COVER => "cover"
  | DEVICE_TRACKER => "device_tracker"
  | FAN => "fan"
  | GEO_LOCATION => "geo_location"
  | HUMIDIFIER => "humidifier"
  | IMAGE_PROCESSING => "image_processing"
  | LIGHT => "light"
  | LOCK => "lock"
  | MAILBOX => "mailbox"
  | MEDIA_PLAYER => "media_player"
  | NOTIFY => "notify"
  | NUMBER => "number"
  | REMOTE => "remote"
  | SCENE => "scene"
  | SELECT => "select"
  | SENSOR => "sensor"
  | SIREN => "siren"
  | STT => "stt"
  | SWITCH => "switch"
  | TTS => "tts"
  | VACUUM => "vacuum"
  | UPDATE => "update"
  | WATER_HEATER => "water_heater"
  | WEATHER => "weather"
  end.

(** The members in definition order: what [for entry in Platform] yields. *)
Definition Platform_members : list Platform :=
  [ AIR_QUALITY; ALARM_CONTROL_PANEL; BINARY_SENSOR; BUTTON; CALENDAR;
    CAMERA; CLIMATE; COVER; DEVICE_TRACKER; FAN; GEO_LOCATION;
    HUMIDIFIER; IMAGE_PROCESSING; LIGHT; LOCK; MAILBOX; MEDIA_PLAYER;
    NOTIFY; NUMBER; REMOTE; SCENE; SELECT; SENSOR; SIREN; STT;
    SWITCH; TTS; VACUUM; UPDATE; WATER_HEATER; WEATHER ].

(** [x in l] for a list of strings. *)
Definition str_in (x : string) (l : list string) : bool :=
  existsb (String.eqb x) l.

(** [_get_hmip_local_platforms], with the backend's
    [AVAILABLE_HM_PLATFORMS] (values of a [StrEnum]) as its argument. *)
Definition _get_hmip_local_platforms (AVAILABLE_HM_PLATFORMS : list string)
  : list string :=
  let platforms := map value Platform_members in
  let hm_platforms := AVAILABLE_HM_PLATFORMS in
  fold_left
    (fun hmip_local_platforms hm_platform =>
       if str_in hm_platform platforms
       then hmip_local_platforms ++ [hm_platform]
       else hmip_local_platforms)
    hm_platforms [].

End const.

(** ** The backend library (hahomematic), as the adapter sees it

    The library is not part of this repository. Its classes are records of
    the attributes the adapter reads or writes, its constructors are the
    records of their arguments, and what its calls answer is a parameter of
    the development ([Backend]). *)

Module hahomematic_const.

(** Modelled from the spec: the keys of the configuration mapping (section 6);
    the backend's [ATTR_*] names that spell them are not under src/, and
    [example.py] builds its mapping with the same keys. *)
Definition ATTR_HOST := "host".
Definition ATTR_USERNAME := "username".
Definition ATTR_PASSWORD := "password".
Definition ATTR_TLS := "tls".
Definition ATTR_VERIFY_TLS := "verify_tls".
Definition ATTR_CALLBACK_HOST := "callback_host".
Definition ATTR_CALLBACK_PORT := "callback_port".
Definition ATTR_JSON_PORT := "json_port".
Definition ATTR_PORT := "port".

(** A member of a [StrEnum] is a string and hashes and compares as one: a
    member is represented by its value. *)
Abbreviation HmPlatform := string (only parsing).
Abbreviation HmEntityUsage := string (only parsing).

End hahomematic_const.

Module InterfaceConfig.
(** The arguments of [InterfaceConfig(...)]. *)
Record t := {
  central_name : Py.val;
  interface : string;
  port : Py.val;
  path : Py.val
}.
End InterfaceConfig.

Module CentralConfig.
(** The arguments of [CentralConfig(...)]. [interface_configs] is a set of
    objects that were built one per interface name; it is listed in the order
    they were added, and the order has no meaning. *)
Record t := {
  name : Py.val;
  storage_folder : string;
  host : Py.val;
  username : Py.val;
  password : Py.val;
  central_id : string;
  tls : Py.val;
  verify_tls : Py.val;
  json_port : Py.val;
  callback_host : Py.val;
  callback_port : Py.val;
  default_callback_port : Z;
  interface_configs : list InterfaceConfig.t
}.
End CentralConfig.

(** What a callback attribute of the central unit can hold: one of the
    control unit's three callback methods, or something the backend put
    there. *)
Inductive Callable :=
| _async_callback_entity_event
| _async_callback_system_event
| _async_callback_ha_event
| backend_callable (tag : nat).

Module CentralUnit.
(** The adapter's view of the object: the attributes it reads or assigns.
    [handle] stands for everything else the backend keeps in the object;
    what a call of the backend does to it is part of the backend's state. *)
Record t := {
  name : string;
  callback_entity_event : option Callable;
  callback_system_event : option Callable;
  callback_ha_event : option Callable;
  handle : nat
}.
End CentralUnit.

Module HmHub.
Record t := { handle : nat }.
End HmHub.

Module BaseEntity.
Record t := {
  usage : hahomematic_const.HmEntityUsage;
  unique_identifier : string;
  platform : hahomematic_const.HmPlatform
}.
End BaseEntity.

Module HubEntity.
(** [HmBaseHubEntity] *)
Record t := {
  unique_identifier : string;
  platform : hahomematic_const.HmPlatform
}.
End HubEntity.

(** ** Events: what a method does to the world outside the adapter *)

Inductive LogLevel := DEBUG | INFO | EXCEPTION.

(** The coroutines of the backend that the adapter awaits, with receiver and
    arguments. *)
Inductive BackendCall :=
| get_central (config : CentralConfig.t)
| start (central : CentralUnit.t)
| stop (central : CentralUnit.t)
| fetch_sysvar_data (hub : HmHub.t)
| fetch_program_data (hub : HmHub.t)
| refresh_entity_data (central : CentralUnit.t) (paramset_key : string).

(** The two periodic actions of the scheduler. *)
Inductive SchedulerAction := _async_fetch_data | _async_fetch_master_data.

(** How an awaited call ended. *)
Inductive Reply := Returned | Raised (e : Py.BackendExn).

Inductive Event :=
| Log (level : LogLevel) (msg : string) (args : list Py.val)
| Await (call : BackendCall) (reply : Reply)
  (** [async_track_time_interval(hass, action, interval)], the host's
      registration of a periodic listener. The source mentions it only in
      lines that are comments, so no definition below emits it. *)
| TrackTimeInterval (action : SchedulerAction) (interval : datetime.timedelta).

(** The backend: its constants that are not under src/, and for each of its
    coroutines what awaiting it changes in the backend and whether it returns
    or raises. *)
Class Backend := {
  IP_ANY_V4 : string;
  PORT_ANY : Z;
  PARAMSET_KEY_MASTER : string;
  AVAILABLE_HM_PLATFORMS : list hahomematic_const.HmPlatform;
  ENTITY_NO_CREATE : hahomematic_const.HmEntityUsage;
  (** the state of the backend and of whatever it talks to *)
  BState : Type;
  CentralConfig_get_central :
    CentralConfig.t -> BState -> BState * (Py.BackendExn + CentralUnit.t);
  CentralUnit_start : CentralUnit.t -> BState -> BState * option Py.BackendExn;
  CentralUnit_stop : CentralUnit.t -> BState -> BState * option Py.BackendExn;
  HmHub_fetch_sysvar_data : HmHub.t -> BState -> BState * option Py.BackendExn;
  HmHub_fetch_program_data : HmHub.t -> BState -> BState * option Py.BackendExn;
  DeviceData_refresh_entity_data :
    CentralUnit.t -> string -> BState -> BState * option Py.BackendExn
}.

(** [HMIP_LOCAL_PLATFORMS: list[str] = _get_hmip_local_platforms()] *)
Definition HMIP_LOCAL_PLATFORMS `{Backend} : list string :=
  const._get_hmip_local_platforms AVAILABLE_HM_PLATFORMS.

(** More of the backend, for the queries of the control unit: its constant
    [AVAILABLE_HM_HUB_PLATFORMS], and the attributes of its objects that the
    queries read. These attributes change while the backend runs, so they are
    read in a state of the backend. A dict of the backend is given by its
    [values()], in the dict's order. [central.hub] is [None] or a hub, an
    object that is true. *)
Class BackendData `{Backend} := {
  AVAILABLE_HM_HUB_PLATFORMS : list hahomematic_const.HmPlatform;
  (** [central.hm_entities.values()] *)
  CentralUnit_hm_entities : CentralUnit.t -> BState -> list BaseEntity.t;
  (** [central.hub] *)
  CentralUnit_hub : CentralUnit.t -> BState -> option HmHub.t;
  (** [hub.program_entities.values()] *)
  HmHub_program_entities : HmHub.t -> BState -> list HubEntity.t;
  (** [hub.sysvar_entities.values()] *)
  HmHub_sysvar_entities : HmHub.t -> BState -> list HubEntity.t
}.

(** The rest of the backend that the callback for device related events
    reads: the event types (members of an enum, compared with [==]), the keys
    of the event data, the two parameters for an unreachable device, the test
    whether a value of the event data equals a member of
    [HmInterfaceEventType], and [CHECK_INTERVAL]. *)
Class BackendEvents := {
  HmEventType : Type;
  HmEventType_eq_dec :: EqDecision HmEventType;
  HmEventType_IMPULSE : HmEventType;
  HmEventType_KEYPRESS : HmEventType;
  HmEventType_DEVICE : HmEventType;
  HmEventType_INTERFACE : HmEventType;
  ATTR_ADDRESS : string;
  ATTR_INTERFACE_ID : string;
  ATTR_PARAMETER : string;
  ATTR_TYPE : string;
  ATTR_VALUE : string;
  EVENT_STICKY_UN_REACH : string;
  EVENT_UN_REACH : string;
  (** [v == HmInterfaceEventType.PROXY] *)
  eq_HmInterfaceEventType_PROXY : Py.val -> bool;
  (** [v == HmInterfaceEventType.CALLBACK] *)
  eq_HmInterfaceEventType_CALLBACK : Py.val -> bool;
  CHECK_INTERVAL : Z
}.

(** Builtins of Python that the callback uses. *)
Module Builtins.

(** [bool(v)] *)
Definition truthy (v : Py.val) : bool :=
  match v with
  | Py.None_ => false
  | Py.Bool_ b => b
  | Py.Int_ z => negb (Z.eqb z 0)
  | Py.Str_ s => negb (String.eqb s EmptyString)
  | Py.Dict_ items => match items with [] => false | _ => true end
  end.

(** [s.upper()] for a string of ASCII characters. *)
Definition upper (s : string) : string :=
  string_of_list_ascii
    (map (fun c =>
            let n := nat_of_ascii c in
            if (97 <=? n)%nat && (n <=? 122)%nat then ascii_of_nat (n - 32) else c)
         (list_ascii_of_string s)).

End Builtins.

(** The text an f-string puts for a value, [format(v, "")]: it is used for
    texts that no one reads, so it is a variable of the development. *)
Class Formatting := { format_value : Py.val -> string }.

(** ** [hahmmqtt/__init__.py] *)

Module GenericEntity.
(** The attributes of the backend's [GenericEntity] that the topic is made
    of; [device_address] is [self.device.device_address]. *)
Record t := {
  device_address : Py.val;
  channel_no : Py.val;
  parameter : Py.val
}.
End GenericEntity.

Section topic.
Context `{Formatting}.

(** The property assigned to [GenericEntity.topic]. *)
Definition generticEntityTopic (self : GenericEntity.t) : string :=
  String.append "hahm/"
    (String.append (format_value (GenericEntity.device_address self))
       (String.append "/"
          (String.append (format_value (GenericEntity.channel_no self))
             (String.append "/" (format_value (GenericEntity.parameter self)))))).

End topic.

(** ** Methods as state transformers with a trace *)

Section Effects.
Context `{Backend}.

#[projections(primitive)]
Record outcome (S A : Type) := mk_outcome {
  trace : list Event;
  backend : BState;
  state : S;
  result : Py.res A
}.

(** A method with receiver state [S] and result [A]. *)
Definition M (S A : Type) : Type := BState -> S -> outcome S A.

Definition ret {S A} (a : A) : M S A :=
  fun b s => mk_outcome S A [] b s (Py.Ok a).

Definition raise {S A} (e : Py.exn) : M S A :=
  fun b s => mk_outcome S A [] b s (Py.Raise e).

(** What was done before an exception stays done. *)
Definition bind {S A B} (m : M S A) (k : A -> M S B) : M S B :=
  fun b s =>
    let o := m b s in
    match result _ _ o with
    | Py.Ok a =>
        let o' := k a (backend _ _ o) (state _ _ o) in
        mk_outcome S B (trace _ _ o ++ trace _ _ o') (backend _ _ o')
                   (state _ _ o') (result _ _ o')
    | Py.Raise e =>
        mk_outcome S B (trace _ _ o) (backend _ _ o) (state _ _ o) (Py.Raise e)
    end.

Definition get_self {S} : M S S :=
  fun b s => mk_outcome S S [] b s (Py.Ok s).

Definition set_self {S} (s' : S) : M S unit :=
  fun b _ => mk_outcome S unit [] b s' (Py.Ok tt).

Definition lift {S A} (r : Py.res A) : M S A :=
  fun b s => mk_outcome S A [] b s r.

Definition emit {S} (e : Event) : M S unit :=
  fun b s => mk_outcome S unit [e] b s (Py.Ok tt).

(** [_LOGGER.<level>(msg, *args)] *)
Definition log {S} (level : LogLevel) (msg : string) (args : list Py.val) : M S unit :=
  emit (Log level msg args).

(** [await call] for a backend coroutine that returns [None]. *)
Definition await {S} (call : BackendCall)
    (answer : BState -> BState * option Py.BackendExn) : M S unit :=
  fun b s =>
    let '(b', r) := answer b in
    match r with
    | Some e => mk_outcome S unit [Await call (Raised e)] b' s
                           (Py.Raise (Py.BackendError e))
    | None => mk_outcome S unit [Await call Returned] b' s (Py.Ok tt)
    end.

(** [await CentralConfig(...).get_central()] *)
Definition await_get_central {S} (config : CentralConfig.t) : M S CentralUnit.t :=
  fun b s =>
    let '(b', r) := CentralConfig_get_central config b in
    match r with
    | inl e => mk_outcome S CentralUnit.t [Await (get_central config) (Raised e)] b' s
                          (Py.Raise (Py.BackendError e))
    | inr central => mk_outcome S CentralUnit.t [Await (get_central config) Returned] b' s
                                (Py.Ok central)
    end.

(** Run a method of a part of the receiver (a base class, an attribute that
    holds an object). *)
Definition zoom {S T A} (proj : S -> T) (inj : T -> S -> S) (m : M T A) : M S A :=
  fun b s =>
    let o := m b (proj s) in
    mk_outcome S A (trace _ _ o) (backend _ _ o) (inj (state _ _ o) s) (result _ _ o).

(** Run a method on another object [obj]; the receiver stays as it is. The
    other object's new state is dropped: [m] only reads it, or returns it. *)
Definition on_object {S T A} (obj : T) (m : M T A) : M S A :=
  fun b s =>
    let o := m b obj in
    mk_outcome S A (trace _ _ o) (backend _ _ o) s (result _ _ o).

End Effects.

Arguments trace {_ S A} o.
Arguments backend {_ S A} o.
Arguments state {_ S A} o.
Arguments result {_ S A} o.

Declare Scope method_scope.
Delimit Scope method_scope with M.
Notation "x <- m ;; k" := (bind m (fun x => k))
  (at level 100, m at level 99, k at level 200, only parsing,
   right associativity) : method_scope.
Notation "m ;; k" := (bind m (fun _ => k))
  (at level 100, k at level 200, only parsing, right associativity) : method_scope.

Section Loops.
Context `{Backend}.

(** [for x in xs: acc = body(acc, x)] *)
Fixpoint for_in {S A X} (xs : list X) (acc : A) (body : A -> X -> M S A) : M S A :=
  match xs with
  | [] => ret acc
  | x :: xs' => (acc' <- body acc x ;; for_in xs' acc' body)%M
  end.

End Loops.

Section BackendState.
Context `{Backend}.

(** The state the backend is in, for reading an attribute of one of its
    objects. *)
Definition get_backend {S} : M S BState :=
  fun b s => mk_outcome S BState [] b s (Py.Ok b).

End BackendState.

(** ** [hahmmqtt/control_unit.py] *)

Import hahomematic_const const.

(** A constructor has no receiver yet: its state is [unit] and the new
    object is its result. *)

Module ControlConfig.

Record t := {
  entry_id : string;
  data : Py.mapping;
  default_callback_port : Z
}.

Section methods.
Context `{Backend}.

(** [default_port: int = PORT_ANY] *)
Definition __init__ (entry_id : string) (data : Py.mapping)
    (default_port : option Z) : M unit t :=
  ret {| entry_id := entry_id;
         data := data;
         default_callback_port := default PORT_ANY default_port |}.

End methods.
End ControlConfig.

Module BaseControlUnit.

Record t := {
  _entry_id : string;
  _config_data : Py.mapping;
  _default_callback_port : Z;
  _instance_name : Py.val;
  _central : option CentralUnit.t
}.

Definition set__central (central : option CentralUnit.t) (self : t) : t :=
  {| _entry_id := _entry_id self;
     _config_data := _config_data self;
     _default_callback_port := _default_callback_port self;
     _instance_name := _instance_name self;
     _central := central |}.

Section methods.
Context `{Backend}.

Definition __init__ (control_config : ControlConfig.t) : M unit t :=
  (instance_name <- lift (Py.getitem (ControlConfig.data control_config)
                                     ATTR_INSTANCE_NAME) ;;
   ret {| _entry_id := ControlConfig.entry_id control_config;
          _config_data := ControlConfig.data control_config;
          _default_callback_port := ControlConfig.default_callback_port control_config;
          _instance_name := instance_name;
          _central := None |})%M.

(** [x if not x == ANY else None] *)
Definition unless (is_any : bool) (x : Py.val) : Py.val :=
  if negb is_any then x else Py.None_.

Definition _async_create_central : M t CentralUnit.t :=
  (self <- get_self ;;
   interfaces <- lift (Py.getitem (_config_data self) ATTR_INTERFACE) ;;
   interface_names <- lift (Py.iter interfaces) ;;
   interface_configs <-
     for_in interface_names []
       (fun interface_configs interface_name =>
          interfaces <- lift (Py.getitem (_config_data self) ATTR_INTERFACE) ;;
          interface <- lift (Py.val_getitem interfaces interface_name) ;;
          port <- lift (Py.val_getitem interface ATTR_PORT) ;;
          path <- lift (Py.val_get interface ATTR_PATH) ;;
          ret (interface_configs ++
               [ {| InterfaceConfig.central_name := _instance_name self;
                    InterfaceConfig.interface := interface_name;
                    InterfaceConfig.port := port;
                    InterfaceConfig.path := path |} ])) ;;
   (* use last 10 chars of entry_id for central_id uniqueness *)
   let central_id := Py.last_chars 10 (_entry_id self) in
   host <- lift (Py.getitem (_config_data self) ATTR_HOST) ;;
   username <- lift (Py.getitem (_config_data self) ATTR_USERNAME) ;;
   password <- lift (Py.getitem (_config_data self) ATTR_PASSWORD) ;;
   tls <- lift (Py.getitem (_config_data self) ATTR_TLS) ;;
   verify_tls <- lift (Py.getitem (_config_data self) ATTR_VERIFY_TLS) ;;
   json_port <- lift (Py.getitem (_config_data self) ATTR_JSON_PORT) ;;
   let callback_host :=
     unless (Py.eq_str (Py.get (_config_data self) ATTR_CALLBACK_HOST) IP_ANY_V4)
            (Py.get (_config_data self) ATTR_CALLBACK_HOST) in
   let callback_port :=
     unless (Py.eq_int (Py.get (_config_data self) ATTR_CALLBACK_PORT) PORT_ANY)
            (Py.get (_config_data self) ATTR_CALLBACK_PORT) in
   await_get_central
     {| CentralConfig.name := _instance_name self;
        CentralConfig.storage_folder := "hahm-mqtt";
        CentralConfig.host := host;
        CentralConfig.username := username;
        CentralConfig.password := password;
        CentralConfig.central_id := central_id;
        CentralConfig.tls := tls;
        CentralConfig.verify_tls := verify_tls;
        CentralConfig.json_port := json_port;
        CentralConfig.callback_host := callback_host;
        CentralConfig.callback_port := callback_port;
        CentralConfig.default_callback_port := _default_callback_port self;
        CentralConfig.interface_configs := interface_configs |})%M.

Definition async_init_central : M t unit :=
  (self <- get_self ;;
   log DEBUG "Init central unit %s" [_instance_name self] ;;
   central <- _async_create_central ;;
   self <- get_self ;;
   set_self (set__central (Some central) self))%M.

(** [if self._central:] and [if self._central is not None:] are the same
    test: the attribute holds [None] or a central unit of the backend, an
    object of a class with neither [__bool__] nor [__len__], which is true. *)
Definition async_start_central : M t unit :=
  (self <- get_self ;;
   log DEBUG "Starting central unit %s" [_instance_name self] ;;
   match _central self with
   | Some central => await (start central) (CentralUnit_start central)
   | None => log EXCEPTION "Starting central unit %s not possible"
                 [_instance_name self]
   end ;;
   log INFO "Started central unit for %s" [_instance_name self])%M.

(** The body is a docstring and two comments. *)
Definition stop_central (args : list Py.val) : M t unit :=
  ret tt.

Definition async_stop_central : M t unit :=
  (self <- get_self ;;
   log DEBUG "Stopping central unit %s" [_instance_name self] ;;
   match _central self with
   | Some central => await (stop central) (CentralUnit_stop central)
   | None => ret tt
   end)%M.

(** The property [central]. *)
Definition central : M t CentralUnit.t :=
  (self <- get_self ;;
   match _central self with
   | Some central => ret central
   | None => raise (Py.Exception_ "homematicip_local.central not initialized")
   end)%M.

End methods.
End BaseControlUnit.

Module HmScheduler.

(** The scheduler holds a reference to a control unit, which in turn may hold
    the scheduler. A reference is a name; a [store] tells which state the
    object so named is in when a method runs. *)
Definition ControlRef := nat.
Definition store := ControlRef -> BaseControlUnit.t.

Record t := {
  _control : ControlRef;
  _hm_hub : HmHub.t
}.

Section methods.
Context `{Backend}.

(** The two calls of [async_track_time_interval] are comments. *)
Definition __init__ (control_unit : ControlRef) (hm_hub : HmHub.t) : M unit t :=
  ret {| _control := control_unit; _hm_hub := hm_hub |}.

(** The body is a docstring and four comments. *)
Definition de_init : M t unit :=
  ret tt.

Definition _async_fetch_data (σ : store) (now : datetime.datetime) : M t unit :=
  (self <- get_self ;;
   central <- on_object (σ (_control self)) BaseControlUnit.central ;;
   log DEBUG "Scheduled fetching of programs and sysvars for %s"
       [Py.Str_ (CentralUnit.name central)] ;;
   await (fetch_sysvar_data (_hm_hub self)) (HmHub_fetch_sysvar_data (_hm_hub self)) ;;
   await (fetch_program_data (_hm_hub self)) (HmHub_fetch_program_data (_hm_hub self)))%M.

Definition async_fetch_sysvars (σ : store) : M t unit :=
  (self <- get_self ;;
   central <- on_object (σ (_control self)) BaseControlUnit.central ;;
   log DEBUG "Manually fetching of sysvars for %s"
       [Py.Str_ (CentralUnit.name central)] ;;
   await (fetch_sysvar_data (_hm_hub self)) (HmHub_fetch_sysvar_data (_hm_hub self)))%M.

Definition _async_fetch_master_data (σ : store) (now : datetime.datetime) : M t unit :=
  (self <- get_self ;;
   central <- on_object (σ (_control self)) BaseControlUnit.central ;;
   log DEBUG "Scheduled fetching of master entities for %s"
       [Py.Str_ (CentralUnit.name central)] ;;
   central <- on_object (σ (_control self)) BaseControlUnit.central ;;
   await (refresh_entity_data central PARAMSET_KEY_MASTER)
         (DeviceData_refresh_entity_data central PARAMSET_KEY_MASTER))%M.

End methods.
End HmScheduler.

Module ControlUnit.

Record t := {
  base : BaseControlUnit.t;
  (* {entity_id, entity} *)
  _active_hm_entities : gmap string BaseEntity.t;
  (* {entity_id, sysvar_entity} *)
  _active_hm_hub_entities : gmap string HubEntity.t;
  _scheduler : option HmScheduler.t
}.

Definition set_base (b : BaseControlUnit.t) (self : t) : t :=
  {| base := b;
     _active_hm_entities := _active_hm_entities self;
     _active_hm_hub_entities := _active_hm_hub_entities self;
     _scheduler := _scheduler self |}.

Definition set__active_hm_entities (d : gmap string BaseEntity.t) (self : t) : t :=
  {| base := base self;
     _active_hm_entities := d;
     _active_hm_hub_entities := _active_hm_hub_entities self;
     _scheduler := _scheduler self |}.

Definition set__active_hm_hub_entities (d : gmap string HubEntity.t) (self : t) : t :=
  {| base := base self;
     _active_hm_entities := _active_hm_entities self;
     _active_hm_hub_entities := d;
     _scheduler := _scheduler self |}.

Definition set__scheduler (s : option HmScheduler.t) (self : t) : t :=
  {| base := base self;
     _active_hm_entities := _active_hm_entities self;
     _active_hm_hub_entities := _active_hm_hub_entities self;
     _scheduler := s |}.

(** The attributes of the central unit that the control unit assigns. *)
Definition set_callback_entity_event (f : Callable) (c : CentralUnit.t) : CentralUnit.t :=
  {| CentralUnit.name := CentralUnit.name c;
     CentralUnit.callback_entity_event := Some f;
     CentralUnit.callback_system_event := CentralUnit.callback_system_event c;
     CentralUnit.callback_ha_event := CentralUnit.callback_ha_event c;
     CentralUnit.handle := CentralUnit.handle c |}.

Definition set_callback_system_event (f : Callable) (c : CentralUnit.t) : CentralUnit.t :=
  {| CentralUnit.name := CentralUnit.name c;
     CentralUnit.callback_entity_event := CentralUnit.callback_entity_event c;
     CentralUnit.callback_system_event := Some f;
     CentralUnit.callback_ha_event := CentralUnit.callback_ha_event c;
     CentralUnit.handle := CentralUnit.handle c |}.

Definition set_callback_ha_event (f : Callable) (c : CentralUnit.t) : CentralUnit.t :=
  {| CentralUnit.name := CentralUnit.name c;
     CentralUnit.callback_entity_event := CentralUnit.callback_entity_event c;
     CentralUnit.callback_system_event := CentralUnit.callback_system_event c;
     CentralUnit.callback_ha_event := Some f;
     CentralUnit.handle := CentralUnit.handle c |}.

Section methods.
Context `{Backend}.

(** A method of the base class, run on the receiver. *)
Definition super {A} (m : M BaseControlUnit.t A) : M t A :=
  zoom base set_base m.

(** A method of the scheduler, run on the scheduler [s] that the receiver
    holds. *)
Definition on_scheduler {A} (s : HmScheduler.t) (m : M HmScheduler.t A) : M t A :=
  zoom (fun _ => s) (fun s' => set__scheduler (Some s')) m.

(** [self._central.<attribute> = ...]: the assignment [assign] on the
    central unit [self._central] refers to. *)
Definition on_central (assign : CentralUnit.t -> CentralUnit.t) : M t unit :=
  (self <- get_self ;;
   match BaseControlUnit._central (base self) with
   | Some central =>
       set_self (set_base (BaseControlUnit.set__central (Some (assign central))
                                                        (base self)) self)
   | None => raise (Py.AttributeError "'NoneType' object has no such attribute")
   end)%M.

Definition __init__ (control_config : ControlConfig.t) : M unit t :=
  (b <- BaseControlUnit.__init__ control_config ;;
   ret {| base := b;
          _active_hm_entities := ∅;
          _active_hm_hub_entities := ∅;
          _scheduler := None |})%M.

Definition async_init_central : M t unit :=
  (super BaseControlUnit.async_init_central ;;
   (* register callback *)
   self <- get_self ;;
   match BaseControlUnit._central (base self) with
   | Some _ =>
       on_central (set_callback_entity_event _async_callback_entity_event) ;;
       on_central (set_callback_system_event _async_callback_system_event) ;;
       on_central (set_callback_ha_event _async_callback_ha_event)
   | None => ret tt
   end)%M.

(** [if self._scheduler:] tests for [None]: [HmScheduler] defines neither
    [__bool__] nor [__len__]. *)
Definition async_stop_central : M t unit :=
  (self <- get_self ;;
   match _scheduler self with
   | Some s => on_scheduler s HmScheduler.de_init
   | None => ret tt
   end ;;
   super BaseControlUnit.async_stop_central)%M.

(** Inherited. *)
Definition async_start_central : M t unit := super BaseControlUnit.async_start_central.
Definition stop_central (args : list Py.val) : M t unit :=
  super (BaseControlUnit.stop_central args).
Definition central : M t CentralUnit.t := super BaseControlUnit.central.

Definition async_get_hm_entity (entity_id : string) : M t (option BaseEntity.t) :=
  (self <- get_self ;;
   ret (_active_hm_entities self !! entity_id))%M.

Definition async_get_new_hm_entities (new_entities : list BaseEntity.t)
  : M t (gmap HmPlatform (list BaseEntity.t)) :=
  (self <- get_self ;;
   let active_unique_ids :=
     map BaseEntity.unique_identifier (map snd (map_to_list (_active_hm_entities self))) in
   (* init dict *)
   hm_entities <-
     for_in AVAILABLE_HM_PLATFORMS (∅ : gmap HmPlatform (list BaseEntity.t))
       (fun hm_entities hm_platform => ret (<[hm_platform := []]> hm_entities)) ;;
   hm_entities <-
     for_in new_entities hm_entities
       (fun hm_entities entity =>
          if negb (String.eqb (BaseEntity.usage entity) ENTITY_NO_CREATE)
             && negb (str_in (BaseEntity.unique_identifier entity) active_unique_ids)
             && str_in (BaseEntity.platform entity) HMIP_LOCAL_PLATFORMS
          then
            match hm_entities !! BaseEntity.platform entity with
            | Some entities =>
                ret (<[BaseEntity.platform entity := entities ++ [entity]]> hm_entities)
            | None => raise (Py.KeyError (BaseEntity.platform entity))
            end
          else ret hm_entities) ;;
   ret hm_entities)%M.

Definition async_add_hm_entity (entity_id : string) (hm_entity : BaseEntity.t)
  : M t unit :=
  (self <- get_self ;;
   set_self (set__active_hm_entities
               (<[entity_id := hm_entity]> (_active_hm_entities self)) self))%M.

Definition async_add_hm_hub_entity (entity_id : string) (hm_hub_entity : HubEntity.t)
  : M t unit :=
  (self <- get_self ;;
   set_self (set__active_hm_hub_entities
               (<[entity_id := hm_hub_entity]> (_active_hm_hub_entities self)) self))%M.

Definition async_remove_hm_entity (entity_id : string) : M t unit :=
  (self <- get_self ;;
   match _active_hm_entities self !! entity_id with
   | Some _ =>
       set_self (set__active_hm_entities
                   (delete entity_id (_active_hm_entities self)) self)
   | None => raise (Py.KeyError entity_id)
   end)%M.

Definition async_remove_hm_hub_entity (entity_id : string) : M t unit :=
  (self <- get_self ;;
   match _active_hm_hub_entities self !! entity_id with
   | Some _ =>
       set_self (set__active_hm_hub_entities
                   (delete entity_id (_active_hm_hub_entities self)) self)
   | None => raise (Py.KeyError entity_id)
   end)%M.

Definition async_fetch_all_system_variables (σ : HmScheduler.store) : M t unit :=
  (self <- get_self ;;
   match _scheduler self with
   | None =>
       log DEBUG "Hub scheduler for %s is not initialized"
           [BaseControlUnit._instance_name (base self)]
   | Some s => on_scheduler s (HmScheduler.async_fetch_sysvars σ)
   end)%M.

End methods.

Section queries.
Context `{Backend} `{!BackendData}.

(** [self.central.hub] *)
Definition central_hub : M t (option HmHub.t) :=
  (central <- central ;;
   b <- get_backend ;;
   ret (CentralUnit_hub central b))%M.

(** [self.central.hub.<attribute>], where the hub is not [None]. *)
Definition central_hub_attribute {A} (attribute : HmHub.t -> BState -> A) : M t A :=
  (hub <- central_hub ;;
   match hub with
   | Some hub => (b <- get_backend ;; ret (attribute hub b))
   | None => raise (Py.AttributeError "'NoneType' object has no such attribute")
   end)%M.

Definition async_get_new_hm_hub_entities (new_hub_entities : list HubEntity.t)
  : M t (gmap HmPlatform (list HubEntity.t)) :=
  (self <- get_self ;;
   let active_unique_ids :=
     map HubEntity.unique_identifier
         (map snd (map_to_list (_active_hm_hub_entities self))) in
   (* init dict *)
   hm_hub_entities <-
     for_in AVAILABLE_HM_HUB_PLATFORMS (∅ : gmap HmPlatform (list HubEntity.t))
       (fun hm_hub_entities hm_hub_platform =>
          ret (<[hm_hub_platform := []]> hm_hub_entities)) ;;
   hm_hub_entities <-
     for_in new_hub_entities hm_hub_entities
       (fun hm_hub_entities hub_entity =>
          if negb (str_in (HubEntity.unique_identifier hub_entity) active_unique_ids)
          then
            match hm_hub_entities !! HubEntity.platform hub_entity with
            | Some entities =>
                ret (<[HubEntity.platform hub_entity := entities ++ [hub_entity]]>
                       hm_hub_entities)
            | None => raise (Py.KeyError (HubEntity.platform hub_entity))
            end
          else ret hm_hub_entities) ;;
   ret hm_hub_entities)%M.

Definition async_get_new_hm_hub_entities_by_platform (platform : HmPlatform)
  : M t (list HubEntity.t) :=
  (self <- get_self ;;
   let active_unique_ids :=
     map HubEntity.unique_identifier
         (map snd (map_to_list (_active_hm_hub_entities self))) in
   let hm_hub_entities : list HubEntity.t := [] in
   hub <- central_hub ;;
   match hub with
   | None =>
       central <- central ;;
       log DEBUG
           "async_get_new_hm_sysvar_entities_by_platform: central.hub is not ready for %s"
           [Py.Str_ (CentralUnit.name central)] ;;
       ret []
   | Some _ =>
       program_entities <- central_hub_attribute HmHub_program_entities ;;
       hm_hub_entities <-
         for_in program_entities hm_hub_entities
           (fun hm_hub_entities program_entity =>
              if negb (str_in (HubEntity.unique_identifier program_entity)
                              active_unique_ids)
                 && String.eqb (HubEntity.platform program_entity) platform
              then ret (hm_hub_entities ++ [program_entity])
              else ret hm_hub_entities) ;;
       sysvar_entities <- central_hub_attribute HmHub_sysvar_entities ;;
       hm_hub_entities <-
         for_in sysvar_entities hm_hub_entities
           (fun hm_hub_entities sysvar_entity =>
              if negb (str_in (HubEntity.unique_identifier sysvar_entity)
                              active_unique_ids)
                 && String.eqb (HubEntity.platform sysvar_entity) platform
              then ret (hm_hub_entities ++ [sysvar_entity])
              else ret hm_hub_entities) ;;
       ret hm_hub_entities
   end)%M.

Definition async_get_new_hm_entities_by_platform (platform : HmPlatform)
  : M t (list BaseEntity.t) :=
  (self <- get_self ;;
   let active_unique_ids :=
     map BaseEntity.unique_identifier
         (map snd (map_to_list (_active_hm_entities self))) in
   let hm_entities : list BaseEntity.t := [] in
   central <- central ;;
   b <- get_backend ;;
   hm_entities <-
     for_in (CentralUnit_hm_entities central b) hm_entities
       (fun hm_entities entity =>
          if negb (String.eqb (BaseEntity.usage entity) ENTITY_NO_CREATE)
             && negb (str_in (BaseEntity.unique_identifier entity) active_unique_ids)
             && String.eqb (BaseEntity.platform entity) platform
          then ret (hm_entities ++ [entity])
          else ret hm_entities) ;;
   ret hm_entities)%M.

Definition async_get_hm_entities_by_platform (platform : HmPlatform)
  : M t (list BaseEntity.t) :=
  (let hm_entities : list BaseEntity.t := [] in
   central <- central ;;
   b <- get_backend ;;
   hm_entities <-
     for_in (CentralUnit_hm_entities central b) hm_entities
       (fun hm_entities entity =>
          if negb (String.eqb (BaseEntity.usage entity) ENTITY_NO_CREATE)
             && String.eqb (BaseEntity.platform entity) platform
          then ret (hm_entities ++ [entity])
          else ret hm_entities) ;;
   ret hm_entities)%M.

End queries.

Section callbacks.
Context `{Backend} `{!BackendEvents} `{!Formatting}.

(** The body is a docstring and a comment. *)
Definition _async_create_persistent_notification (identifier title message : string)
  : M t unit :=
  ret tt.

(** The body is a docstring and a comment. *)
Definition _async_dismiss_persistent_notification (identifier : string) : M t unit :=
  ret tt.

(** The commented-out statements are left out; the names bound and not
    used are bound here as well. *)
Definition _async_callback_ha_event (hm_event_type : HmEventType)
    (event_data : Py.mapping) : M t unit :=
  (if bool_decide (hm_event_type = HmEventType_IMPULSE)
      || bool_decide (hm_event_type = HmEventType_KEYPRESS)
   then
     device_address <- lift (Py.getitem event_data ATTR_ADDRESS) ;;
     ret tt
   else if bool_decide (hm_event_type = HmEventType_DEVICE)
   then
     device_address <- lift (Py.getitem event_data ATTR_ADDRESS) ;;
     let name := Py.None_ in
     interface_id <- lift (Py.getitem event_data ATTR_INTERFACE_ID) ;;
     parameter <- lift (Py.getitem event_data ATTR_PARAMETER) ;;
     unavailable <- lift (Py.getitem event_data ATTR_VALUE) ;;
     if Py.eq_str parameter EVENT_STICKY_UN_REACH || Py.eq_str parameter EVENT_UN_REACH
     then
       let title := String.append (Builtins.upper DOMAIN) "-Device not reachable" in
       let message :=
         String.append (format_value name)
           (String.append " / "
              (String.append (format_value device_address)
                 (String.append " on interface " (format_value interface_id)))) in
       ret tt
     else ret tt
   else if bool_decide (hm_event_type = HmEventType_INTERFACE)
   then
     interface_id <- lift (Py.getitem event_data ATTR_INTERFACE_ID) ;;
     interface_event_type <- lift (Py.getitem event_data ATTR_TYPE) ;;
     available <- lift (Py.getitem event_data ATTR_VALUE) ;;
     (if eq_HmInterfaceEventType_PROXY interface_event_type
      then
        let title := String.append (Builtins.upper DOMAIN) "-Interface not reachable" in
        let message :=
          String.append "No connection to interface " (format_value interface_id) in
        if Builtins.truthy available
        then
          _async_dismiss_persistent_notification
            (String.append "proxy-" (format_value interface_id))
        else
          _async_create_persistent_notification
            (String.append "proxy-" (format_value interface_id)) title message
      else ret tt) ;;
     if eq_HmInterfaceEventType_CALLBACK interface_event_type
     then
       let title :=
         String.append (Builtins.upper DOMAIN) "-XmlRPC-Server received no events." in
       let message :=
         String.append "No callback events received for interface "
           (String.append (format_value interface_id)
              (String.append " "
                 (String.append (format_value (Py.Int_ CHECK_INTERVAL)) "s."))) in
       if Builtins.truthy available
       then
         _async_dismiss_persistent_notification
           (String.append "callback-" (format_value interface_id))
       else
         _async_create_persistent_notification
           (String.append "callback-" (format_value interface_id)) title message
     else ret tt
   else ret tt)%M.

End callbacks.
End ControlUnit.

Section ControlConfig_methods.
Context `{Backend}.

(** [ControlConfig.async_get_control_unit]; it is defined here because it
    builds a [ControlUnit]. *)
Definition ControlConfig_async_get_control_unit : M ControlConfig.t ControlUnit.t :=
  (self <- get_self ;;
   control_unit <- on_object tt (ControlUnit.__init__ self) ;;
   on_object control_unit
        (ControlUnit.async_init_central ;;
         get_self))%M.

End ControlConfig_methods.

(** ** The operations of the adapter

    Every coroutine ([async def]) of [control_unit.py] and these plain
    methods, each with its receiver and arguments: the constructors,
    [stop_central], [central], [de_init], [async_get_hm_entity],
    [async_get_new_hm_entities] and the four methods that add or remove an
    active entity. The methods left out ([device_info], the
    [..._by_platform] queries, [async_get_new_hm_hub_entities], the three
    callbacks, the two notification stubs and
    [_get_active_entities_by_device_address]) are plain [def]s. *)

Module Op.

Inductive t :=
| ControlConfig___init__ (entry_id : string) (data : Py.mapping) (default_port : option Z)
| ControlConfig_async_get_control_unit (self : ControlConfig.t)
| BaseControlUnit___init__ (control_config : ControlConfig.t)
| BaseControlUnit_async_init_central (self : BaseControlUnit.t)
| BaseControlUnit_async_start_central (self : BaseControlUnit.t)
| BaseControlUnit_stop_central (self : BaseControlUnit.t) (args : list Py.val)
| BaseControlUnit_async_stop_central (self : BaseControlUnit.t)
| BaseControlUnit_central (self : BaseControlUnit.t)
| BaseControlUnit__async_create_central (self : BaseControlUnit.t)
| ControlUnit___init__ (control_config : ControlConfig.t)
| ControlUnit_async_init_central (self : ControlUnit.t)
| ControlUnit_async_start_central (self : ControlUnit.t)
| ControlUnit_stop_central (self : ControlUnit.t) (args : list Py.val)
| ControlUnit_async_stop_central (self : ControlUnit.t)
| ControlUnit_central (self : ControlUnit.t)
| ControlUnit_async_get_hm_entity (self : ControlUnit.t) (entity_id : string)
| ControlUnit_async_get_new_hm_entities (self : ControlUnit.t)
    (new_entities : list BaseEntity.t)
| ControlUnit_async_add_hm_entity (self : ControlUnit.t) (entity_id : string)
    (hm_entity : BaseEntity.t)
| ControlUnit_async_add_hm_hub_entity (self : ControlUnit.t) (entity_id : string)
    (hm_hub_entity : HubEntity.t)
| ControlUnit_async_remove_hm_entity (self : ControlUnit.t) (entity_id : string)
| ControlUnit_async_remove_hm_hub_entity (self : ControlUnit.t) (entity_id : string)
| ControlUnit_async_fetch_all_system_variables (σ : HmScheduler.store)
    (self : ControlUnit.t)
| HmScheduler___init__ (control_unit : HmScheduler.ControlRef) (hm_hub : HmHub.t)
| HmScheduler_de_init (self : HmScheduler.t)
| HmScheduler__async_fetch_data (σ : HmScheduler.store) (self : HmScheduler.t)
    (now : datetime.datetime)
| HmScheduler_async_fetch_sysvars (σ : HmScheduler.store) (self : HmScheduler.t)
| HmScheduler__async_fetch_master_data (σ : HmScheduler.store) (self : HmScheduler.t)
    (now : datetime.datetime).

End Op.

Section Operations.
Context `{Backend}.

(** What the caller observes: the events, and the exception if one was
    raised. *)
Definition observed {S A} (o : outcome S A) : list Event * option Py.exn :=
  (trace o,
   match result o with
   | Py.Ok _ => None
   | Py.Raise e => Some e
   end).

Definition run (op : Op.t) (b : BState) : list Event * option Py.exn :=
  match op with
  | Op.ControlConfig___init__ entry_id data default_port =>
      observed (ControlConfig.__init__ entry_id data default_port b tt)
  | Op.ControlConfig_async_get_control_unit self =>
      observed (ControlConfig_async_get_control_unit b self)
  | Op.BaseControlUnit___init__ control_config =>
      observed (BaseControlUnit.__init__ control_config b tt)
  | Op.BaseControlUnit_async_init_central self =>
      observed (BaseControlUnit.async_init_central b self)
  | Op.BaseControlUnit_async_start_central self =>
      observed (BaseControlUnit.async_start_central b self)
  | Op.BaseControlUnit_stop_central self args =>
      observed (BaseControlUnit.stop_central args b self)
  | Op.BaseControlUnit_async_stop_central self =>
      observed (BaseControlUnit.async_stop_central b self)
  | Op.BaseControlUnit_central self =>
      observed (BaseControlUnit.central b self)
  | Op.BaseControlUnit__async_create_central self =>
      observed (BaseControlUnit._async_create_central b self)
  | Op.ControlUnit___init__ control_config =>
      observed (ControlUnit.__init__ control_config b tt)
  | Op.ControlUnit_async_init_central self =>
      observed (ControlUnit.async_init_central b self)
  | Op.ControlUnit_async_start_central self =>
      observed (ControlUnit.async_start_central b self)
  | Op.ControlUnit_stop_central self args =>
      observed (ControlUnit.stop_central args b self)
  | Op.ControlUnit_async_stop_central self =>
      observed (ControlUnit.async_stop_central b self)
  | Op.ControlUnit_central self =>
      observed (ControlUnit.central b self)
  | Op.ControlUnit_async_get_hm_entity self entity_id =>
      observed (ControlUnit.async_get_hm_entity entity_id b self)
  | Op.ControlUnit_async_get_new_hm_entities self new_entities =>
      observed (ControlUnit.async_get_new_hm_entities new_entities b self)
  | Op.ControlUnit_async_add_hm_entity self entity_id hm_entity =>
      observed (ControlUnit.async_add_hm_entity entity_id hm_entity b self)
  | Op.ControlUnit_async_add_hm_hub_entity self entity_id hm_hub_entity =>
      observed (ControlUnit.async_add_hm_hub_entity entity_id hm_hub_entity b self)
  | Op.ControlUnit_async_remove_hm_entity self entity_id =>
      observed (ControlUnit.async_remove_hm_entity entity_id b self)
  | Op.ControlUnit_async_remove_hm_hub_entity self entity_id =>
      observed (ControlUnit.async_remove_hm_hub_entity entity_id b self)
  | Op.ControlUnit_async_fetch_all_system_variables σ self =>
      observed (ControlUnit.async_fetch_all_system_variables σ b self)
  | Op.HmScheduler___init__ control_unit hm_hub =>
      observed (HmScheduler.__init__ control_unit hm_hub b tt)
  | Op.HmScheduler_de_init self =>
      observed (HmScheduler.de_init b self)
  | Op.HmScheduler__async_fetch_data σ self now =>
      observed (HmScheduler._async_fetch_data σ now b self)
  | Op.HmScheduler_async_fetch_sysvars σ self =>
      observed (HmScheduler.async_fetch_sysvars σ b self)
  | Op.HmScheduler__async_fetch_master_data σ self now =>
      observed (HmScheduler._async_fetch_master_data σ now b self)
  end.

End Operations.

(** ** A backend to run the adapter against

    [fails] tells which awaited calls raise and what; the state of the
    backend counts the calls it has answered. The constants are sample
    values. *)

Module sample.

Definition new_central (config : CentralConfig.t) : CentralUnit.t :=
  {| CentralUnit.name :=
       match CentralConfig.name config with
       | Py.Str_ s => s
       | _ => "central"
       end;
     CentralUnit.callback_entity_event := None;
     CentralUnit.callback_system_event := None;
     CentralUnit.callback_ha_event := None;
     CentralUnit.handle := 1 |}.

Definition answer (fails : BackendCall -> option Py.BackendExn) (call : BackendCall)
    (n : nat) : nat * option Py.BackendExn :=
  (S n, fails call).

Definition backend (fails : BackendCall -> option Py.BackendExn) : Backend :=
  {| IP_ANY_V4 := "0.0.0.0";
     PORT_ANY := 0;
     PARAMSET_KEY_MASTER := "MASTER";
     AVAILABLE_HM_PLATFORMS :=
       [ "action"; "binary_sensor"; "button"; "climate"; "cover"; "light";
         "lock"; "number"; "select"; "sensor"; "siren"; "switch"; "text" ];
     ENTITY_NO_CREATE := "entity_no_create";
     BState := nat;
     CentralConfig_get_central := fun config n =>
       (S n,
        match fails (get_central config) with
        | Some e => inl e
        | None => inr (new_central config)
        end);
     CentralUnit_start := fun c => answer fails (start c);
     CentralUnit_stop := fun c => answer fails (stop c);
     HmHub_fetch_sysvar_data := fun h => answer fails (fetch_sysvar_data h);
     HmHub_fetch_program_data := fun h => answer fails (fetch_program_data h);
     DeviceData_refresh_entity_data := fun c k =>
       answer fails (refresh_entity_data c k) |}.

(** No call fails. *)
Definition reliable : Backend := backend (fun _ => None).

Definition connection_lost : Py.BackendExn :=
  {| Py.exn_class := "NoConnection"; Py.exn_message := "connection lost" |}.

(** Every call fails. *)
Definition unreachable : Backend := backend (fun _ => Some connection_lost).

(** [config_data] of [example.py], with the two callback entries to choose. *)
Definition config_data_with (callback_host callback_port : Py.val) : Py.mapping :=
  [ ("instance_name", Py.Str_ "xxx");
    ("host", Py.Str_ "xxx");
    ("username", Py.Str_ "xxx");
    ("password", Py.Str_ "xxx");
    ("tls", Py.Bool_ false);
    ("verify_tls", Py.Bool_ false);
    ("callback_host", callback_host);
    ("callback_port", callback_port);
    ("json_port", Py.None_);
    ("interface",
     Py.Dict_ [ ("HmIP-RF", Py.Dict_ [ ("port", Py.Int_ 2010) ]);
                ("BidCos-RF", Py.Dict_ [ ("port", Py.Int_ 2001) ]) ]) ].

(** [config_data] of [example.py]. *)
Definition config_data : Py.mapping := config_data_with Py.None_ Py.None_.

Definition entry_id := "1234567890".
Definition default_callback_port := 56345.

Definition control_config : ControlConfig.t :=
  {| ControlConfig.entry_id := entry_id;
     ControlConfig.data := config_data;
     ControlConfig.default_callback_port := default_callback_port |}.

(** [BaseControlUnit(ControlConfig(entry_id, data, default_callback_port))] *)
Definition base_unit_of (data : Py.mapping) : BaseControlUnit.t :=
  {| BaseControlUnit._entry_id := entry_id;
     BaseControlUnit._config_data := data;
     BaseControlUnit._default_callback_port := default_callback_port;
     BaseControlUnit._instance_name := Py.Str_ "xxx";
     BaseControlUnit._central := None |}.

Definition base_unit : BaseControlUnit.t := base_unit_of config_data.

(** The arguments of [CentralConfig] for [config_data] with the two callback
    arguments to choose. *)
Definition central_config_with (callback_host callback_port : Py.val)
  : CentralConfig.t :=
  {| CentralConfig.name := Py.Str_ "xxx";
     CentralConfig.storage_folder := "hahm-mqtt";
     CentralConfig.host := Py.Str_ "xxx";
     CentralConfig.username := Py.Str_ "xxx";
     CentralConfig.password := Py.Str_ "xxx";
     CentralConfig.central_id := "1234567890";
     CentralConfig.tls := Py.Bool_ false;
     CentralConfig.verify_tls := Py.Bool_ false;
     CentralConfig.json_port := Py.None_;
     CentralConfig.callback_host := callback_host;
     CentralConfig.callback_port := callback_port;
     CentralConfig.default_callback_port := default_callback_port;
     CentralConfig.interface_configs :=
       [ {| InterfaceConfig.central_name := Py.Str_ "xxx";
            InterfaceConfig.interface := "HmIP-RF";
            InterfaceConfig.port := Py.Int_ 2010;
            InterfaceConfig.path := Py.None_ |};
         {| InterfaceConfig.central_name := Py.Str_ "xxx";
            InterfaceConfig.interface := "BidCos-RF";
            InterfaceConfig.port := Py.Int_ 2001;
            InterfaceConfig.path := Py.None_ |} ] |}.

Definition central_config : CentralConfig.t := central_config_with Py.None_ Py.None_.

Definition central : CentralUnit.t :=
  {| CentralUnit.name := "xxx";
     CentralUnit.callback_entity_event := None;
     CentralUnit.callback_system_event := None;
     CentralUnit.callback_ha_event := None;
     CentralUnit.handle := 1 |}.

(** The same after [async_init_central]. *)
Definition connected_base_unit : BaseControlUnit.t :=
  BaseControlUnit.set__central (Some central) base_unit.

(** [ControlUnit(control_config)] *)
Definition control_unit : ControlUnit.t :=
  {| ControlUnit.base := base_unit;
     ControlUnit._active_hm_entities := ∅;
     ControlUnit._active_hm_hub_entities := ∅;
     ControlUnit._scheduler := None |}.

Definition hub : HmHub.t := {| HmHub.handle := 2 |}.

(** [HmScheduler(control_unit, hub)], the control unit being the object
    named 0. *)
Definition scheduler : HmScheduler.t :=
  {| HmScheduler._control := 0%nat; HmScheduler._hm_hub := hub |}.

(** The control unit with that scheduler assigned to [_scheduler], its
    central unit not initialised. *)
Definition scheduled_unit : ControlUnit.t :=
  ControlUnit.set__scheduler (Some scheduler) control_unit.

(** The store in which every reference names that control unit. *)
Definition store : HmScheduler.store := fun _ => base_unit.

(** The store in which every reference names the control unit after
    [async_init_central]. *)
Definition connected_store : HmScheduler.store := fun _ => connected_base_unit.

End sample.

(** * The vocabulary of the properties *)

Section Vocabulary.
Context `{Backend}.

(** ** The mappings of active entities and the new entities (C9, C10) *)

(** Every entry but the one at [key] is as before. *)
Definition only_entry_changed {V} (key : string) (before after : gmap string V) : Prop :=
  forall other, other <> key -> after !! other = before !! other.

(** [active_unique_ids] of [async_get_new_hm_entities]. *)
Definition active_unique_ids (self : ControlUnit.t) : list string :=
  map BaseEntity.unique_identifier
      (map snd (map_to_list (ControlUnit._active_hm_entities self))).

(** An entity that [async_get_new_hm_entities] keeps. *)
Definition is_new (self : ControlUnit.t) (entity : BaseEntity.t) : Prop :=
  BaseEntity.usage entity <> ENTITY_NO_CREATE
  /\ (BaseEntity.unique_identifier entity ∉ active_unique_ids self)
  /\ (BaseEntity.platform entity ∈ HMIP_LOCAL_PLATFORMS).

#[export] Instance is_new_dec self entity : Decision (is_new self entity).
Proof. unfold is_new. apply _. Defined.

(** The test of the loop, as the source writes it. *)
Definition keeps (ids : list string) (entity : BaseEntity.t) : bool :=
  negb (String.eqb (BaseEntity.usage entity) ENTITY_NO_CREATE)
  && negb (str_in (BaseEntity.unique_identifier entity) ids)
  && str_in (BaseEntity.platform entity) HMIP_LOCAL_PLATFORMS.

(** ** Events, awaited calls and failures (C2, C3, C4, C6) *)

(** The coroutines of the backend, without receiver and arguments. *)
Inductive CallKind :=
| K_get_central | K_start | K_stop
| K_fetch_sysvar_data | K_fetch_program_data | K_refresh_entity_data.

Definition kind (call : BackendCall) : CallKind :=
  match call with
  | get_central _ => K_get_central
  | start _ => K_start
  | stop _ => K_stop
  | fetch_sysvar_data _ => K_fetch_sysvar_data
  | fetch_program_data _ => K_fetch_program_data
  | refresh_entity_data _ _ => K_refresh_entity_data
  end.

(** An event a method is entitled to when it may await [kinds]: a log
    record or a call of one of these kinds. *)
Definition event_ok (kinds : list CallKind) (ev : Event) : Prop :=
  match ev with
  | Log _ _ _ => True
  | Await call _ => In (kind call) kinds
  | TrackTimeInterval _ _ => False
  end.

(** An event that is not a failed call. *)
Definition returned (ev : Event) : Prop :=
  match ev with
  | Await _ (Raised _) => False
  | _ => True
  end.

(** The discipline of a run with events [tr] and exception [raised]: only
    entitled events; when it returns every call returned; when it raises
    either every call returned (the exception is Python's own), or the last
    event is the one failed call and the exception is the backend's. *)
Definition disciplined (kinds : list CallKind) (tr : list Event)
    (raised : option Py.exn) : Prop :=
  Forall (event_ok kinds) tr
  /\ match raised with
     | None => Forall returned tr
     | Some x =>
         Forall returned tr
         \/ exists pre call e,
              tr = pre ++ [Await call (Raised e)]
              /\ Forall returned pre
              /\ x = Py.BackendError e
     end.

(** Every run of the method [m] keeps the discipline. *)
Definition obeys {S A} (kinds : list CallKind) (m : M S A) : Prop :=
  forall b s, disciplined kinds (fst (observed (m b s))) (snd (observed (m b s))).

(** The backend coroutines each operation may await. *)
Definition may_await (op : Op.t) : list CallKind :=
  match op with
  | Op.ControlConfig_async_get_control_unit _
  | Op.BaseControlUnit_async_init_central _
  | Op.BaseControlUnit__async_create_central _
  | Op.ControlUnit_async_init_central _ => [K_get_central]
  | Op.BaseControlUnit_async_start_central _
  | Op.ControlUnit_async_start_central _ => [K_start]
  | Op.BaseControlUnit_async_stop_central _
  | Op.ControlUnit_async_stop_central _ => [K_stop]
  | Op.ControlUnit_async_fetch_all_system_variables _ _
  | Op.HmScheduler_async_fetch_sysvars _ _ => [K_fetch_sysvar_data]
  | Op.HmScheduler__async_fetch_data _ _ _ => [K_fetch_sysvar_data; K_fetch_program_data]
  | Op.HmScheduler__async_fetch_master_data _ _ _ => [K_refresh_entity_data]
  | _ => []
  end.

(** [tr] holds the registration of [action] as a periodic listener. *)
Definition registers (action : SchedulerAction) (tr : list Event) : Prop :=
  exists interval, In (TrackTimeInterval action interval) tr.

(** C2 as the specification states it: constructing the scheduler registers
    the system-variable fetch and the master fetch as periodic listeners. *)
Definition registers_both_listeners (tr : list Event) : Prop :=
  registers _async_fetch_data tr /\ registers _async_fetch_master_data tr.

(** C3 as the specification states it, for one run: a failure of a backend
    call is logged afterwards, or swallowed (the operation returns). *)
Definition logged_or_swallowed (observation : list Event * option Py.exn) : Prop :=
  forall pre call e post,
    fst observation = pre ++ Await call (Raised e) :: post ->
    (exists level msg args, In (Log level msg args) post)
    \/ snd observation = None.

(** ** The configuration mapping and the central unit (C1, C5, C8) *)

(** The [InterfaceConfig] built for the interface [name] of [interfaces]. *)
Definition interface_built (self : BaseControlUnit.t) (interfaces : Py.val)
    (name : string) (ic : InterfaceConfig.t) : Prop :=
  InterfaceConfig.central_name ic = BaseControlUnit._instance_name self
  /\ InterfaceConfig.interface ic = name
  /\ exists entry,
       Py.val_getitem interfaces name = Py.Ok entry
       /\ Py.val_getitem entry ATTR_PORT = Py.Ok (InterfaceConfig.port ic)
       /\ Py.val_get entry ATTR_PATH = Py.Ok (InterfaceConfig.path ic).

(** The arguments [_async_create_central] gives to [CentralConfig]. *)
Definition builds (self : BaseControlUnit.t) (config : CentralConfig.t) : Prop :=
  let data := BaseControlUnit._config_data self in
  CentralConfig.name config = BaseControlUnit._instance_name self
  /\ CentralConfig.storage_folder config = "hahm-mqtt"
  /\ Py.getitem data ATTR_HOST = Py.Ok (CentralConfig.host config)
  /\ Py.getitem data ATTR_USERNAME = Py.Ok (CentralConfig.username config)
  /\ Py.getitem data ATTR_PASSWORD = Py.Ok (CentralConfig.password config)
  /\ CentralConfig.central_id config = Py.last_chars 10 (BaseControlUnit._entry_id self)
  /\ Py.getitem data ATTR_TLS = Py.Ok (CentralConfig.tls config)
  /\ Py.getitem data ATTR_VERIFY_TLS = Py.Ok (CentralConfig.verify_tls config)
  /\ Py.getitem data ATTR_JSON_PORT = Py.Ok (CentralConfig.json_port config)
  /\ CentralConfig.callback_host config
     = (if Py.eq_str (Py.get data ATTR_CALLBACK_HOST) IP_ANY_V4
        then Py.None_ else Py.get data ATTR_CALLBACK_HOST)
  /\ CentralConfig.callback_port config
     = (if Py.eq_int (Py.get data ATTR_CALLBACK_PORT) PORT_ANY
        then Py.None_ else Py.get data ATTR_CALLBACK_PORT)
  /\ CentralConfig.default_callback_port config
     = BaseControlUnit._default_callback_port self
  /\ exists interfaces names,
       Py.getitem data ATTR_INTERFACE = Py.Ok interfaces
       /\ Py.iter interfaces = Py.Ok names
       /\ Forall2 (interface_built self interfaces) names
                  (CentralConfig.interface_configs config).

(** The [InterfaceConfig] [ic] carries the port and the path of the entry
    [name] of [interfaces]. *)
Definition interface_forwarded (interfaces : Py.val) (name : string)
    (ic : InterfaceConfig.t) : Prop :=
  InterfaceConfig.interface ic = name
  /\ exists entry,
       Py.val_getitem interfaces name = Py.Ok entry
       /\ Py.val_getitem entry ATTR_PORT = Py.Ok (InterfaceConfig.port ic)
       /\ Py.val_get entry ATTR_PATH = Py.Ok (InterfaceConfig.path ic).

(** The fields of [data] are the arguments [config]; the callback host and
    port go through [host_arg] and [port_arg]. There is one interface
    configuration for each interface entry. *)
Definition forwarded (host_arg port_arg : Py.val -> Py.val) (data : Py.mapping)
    (config : CentralConfig.t) : Prop :=
  Py.getitem data ATTR_INSTANCE_NAME = Py.Ok (CentralConfig.name config)
  /\ Py.getitem data ATTR_HOST = Py.Ok (CentralConfig.host config)
  /\ Py.getitem data ATTR_USERNAME = Py.Ok (CentralConfig.username config)
  /\ Py.getitem data ATTR_PASSWORD = Py.Ok (CentralConfig.password config)
  /\ Py.getitem data ATTR_TLS = Py.Ok (CentralConfig.tls config)
  /\ Py.getitem data ATTR_VERIFY_TLS = Py.Ok (CentralConfig.verify_tls config)
  /\ CentralConfig.callback_host config = host_arg (Py.get data ATTR_CALLBACK_HOST)
  /\ CentralConfig.callback_port config = port_arg (Py.get data ATTR_CALLBACK_PORT)
  /\ Py.getitem data ATTR_JSON_PORT = Py.Ok (CentralConfig.json_port config)
  /\ exists interfaces names,
       Py.getitem data ATTR_INTERFACE = Py.Ok interfaces
       /\ Py.iter interfaces = Py.Ok names
       /\ Forall2 (interface_forwarded interfaces) names
                  (CentralConfig.interface_configs config).

(** C1 as the specification states it: every field is passed unchanged. *)
Definition forwarded_unchanged : Py.mapping -> CentralConfig.t -> Prop :=
  forwarded (fun v => v) (fun v => v).

(** What the code does with the callback host: the backend's "any address"
    becomes [None]. *)
Definition None_if_any_host (v : Py.val) : Py.val :=
  if Py.eq_str v IP_ANY_V4 then Py.None_ else v.

(** What the code does with the callback port: the backend's "any port"
    becomes [None]. *)
Definition None_if_any_port (v : Py.val) : Py.val :=
  if Py.eq_int v PORT_ANY then Py.None_ else v.

(** The central unit [central] with the three callbacks of the control unit
    assigned. *)
Definition with_callbacks (central : CentralUnit.t) : CentralUnit.t :=
  ControlUnit.set_callback_ha_event _async_callback_ha_event
    (ControlUnit.set_callback_system_event _async_callback_system_event
       (ControlUnit.set_callback_entity_event _async_callback_entity_event central)).

(** The backend coroutines awaited in [tr], in order. *)
Fixpoint awaited (tr : list Event) : list CallKind :=
  match tr with
  | [] => []
  | Await call _ :: tr' => kind call :: awaited tr'
  | _ :: tr' => awaited tr'
  end.

(** C4 as the specification states it: what is awaited is [start], [stop] or
    a fetch. *)
Definition start_stop_or_fetch (k : CallKind) : Prop :=
  k = K_start \/ k = K_stop
  \/ k = K_fetch_sysvar_data \/ k = K_fetch_program_data \/ k = K_refresh_entity_data.

(** Every call awaited in [tr] is one of these. *)
Definition awaits_only_start_stop_fetch (tr : list Event) : Prop :=
  Forall start_stop_or_fetch (awaited tr).

(** C6 as the specification states it: the backend's system-variable fetch
    is awaited, once, exactly when the scheduler is set. *)
Definition fetches_when_scheduler_set (self : ControlUnit.t) (tr : list Event) : Prop :=
  awaited tr = match ControlUnit._scheduler self with
               | Some _ => [K_fetch_sysvar_data]
               | None => []
               end.

(** A scheduler that has been initialised belongs to a control unit whose
    central unit is initialised: the one place that was to create the
    scheduler (a comment in [_async_callback_system_event]) reads
    [self.central.hub] first, and the constructor leaves [_scheduler] at
    [None]. *)
Definition scheduler_ready (σ : HmScheduler.store) (self : ControlUnit.t) : Prop :=
  match ControlUnit._scheduler self with
  | Some s => is_Some (BaseControlUnit._central (σ (HmScheduler._control s)))
  | None => True
  end.

End Vocabulary.

(** * The vocabulary of the further properties *)

Section FurtherVocabulary.
Context `{Backend}.

(** ** Accepted configuration mappings *)

(** The keys [_async_create_central] reads with [data[key]]. *)
Definition required_keys : list string :=
  [ ATTR_INTERFACE; ATTR_HOST; ATTR_USERNAME; ATTR_PASSWORD; ATTR_TLS;
    ATTR_VERIFY_TLS; ATTR_JSON_PORT ].

Definition has_key (data : Py.mapping) (key : string) : bool :=
  match Py.lookup data key with
  | Some _ => true
  | None => false
  end.

(** The entry [name] of [interfaces] is a dict with a port. *)
Definition interface_entry_ok (interfaces : Py.val) (name : string) : bool :=
  match Py.val_getitem interfaces name with
  | Py.Ok (Py.Dict_ entry) => has_key entry ATTR_PORT
  | _ => false
  end.

(** The value under [interface] can be iterated and each of its entries is
    a dict with a port. *)
Definition interfaces_ok (data : Py.mapping) : bool :=
  match Py.lookup data ATTR_INTERFACE with
  | Some interfaces =>
      match Py.iter interfaces with
      | Py.Ok names => forallb (interface_entry_ok interfaces) names
      | Py.Raise _ => false
      end
  | None => false
  end.

Definition acceptable (data : Py.mapping) : bool :=
  forallb (has_key data) required_keys && interfaces_ok data.

(** Every character of [s] is an ASCII character: then the characters of
    the Python string are the bytes of [s]. *)
Definition is_ascii (s : string) : bool :=
  forallb (fun c => (nat_of_ascii c <? 128)%nat) (list_ascii_of_string s).

End FurtherVocabulary.

(** A control unit whose entry id is longer than 10 characters, for
    instances. *)
Module sample_long_id.

Definition entry_id := "01HF3ZK8Q2W7N5VXR4T6B9YCDE".

Definition base_unit : BaseControlUnit.t :=
  {| BaseControlUnit._entry_id := entry_id;
     BaseControlUnit._config_data := sample.config_data;
     BaseControlUnit._default_callback_port := sample.default_callback_port;
     BaseControlUnit._instance_name := Py.Str_ "xxx";
     BaseControlUnit._central := None |}.

Definition central_config : CentralConfig.t :=
  {| CentralConfig.name := Py.Str_ "xxx";
     CentralConfig.storage_folder := "hahm-mqtt";
     CentralConfig.host := Py.Str_ "xxx";
     CentralConfig.username := Py.Str_ "xxx";
     CentralConfig.password := Py.Str_ "xxx";
     CentralConfig.central_id := "R4T6B9YCDE";
     CentralConfig.tls := Py.Bool_ false;
     CentralConfig.verify_tls := Py.Bool_ false;
     CentralConfig.json_port := Py.None_;
     CentralConfig.callback_host := Py.None_;
     CentralConfig.callback_port := Py.None_;
     CentralConfig.default_callback_port := sample.default_callback_port;
     CentralConfig.interface_configs :=
       CentralConfig.interface_configs sample.central_config |}.

End sample_long_id.

Section QueryVocabulary.
Context `{Backend} `{!BackendData}.

(** ** The queries for entities *)

(** [active_unique_ids] of the two queries for hub entities. *)
Definition active_hub_unique_ids (self : ControlUnit.t) : list string :=
  map HubEntity.unique_identifier
      (map snd (map_to_list (ControlUnit._active_hm_hub_entities self))).

(** A hub entity whose unique identifier is that of no active hub entity. *)
Definition is_new_hub (self : ControlUnit.t) (hub_entity : HubEntity.t) : Prop :=
  HubEntity.unique_identifier hub_entity ∉ active_hub_unique_ids self.

(** A hub entity that [async_get_new_hm_hub_entities] can file: it is
    skipped, or its platform is a key of the dict. *)
Definition can_file (self : ControlUnit.t) (hub_entity : HubEntity.t) : Prop :=
  is_new_hub self hub_entity ->
  HubEntity.platform hub_entity ∈ AVAILABLE_HM_HUB_PLATFORMS.

(** An entity that [async_get_hm_entities_by_platform] keeps. *)
Definition is_listed (platform : HmPlatform) (entity : BaseEntity.t) : Prop :=
  BaseEntity.usage entity <> ENTITY_NO_CREATE
  /\ BaseEntity.platform entity = platform.

(** An entity that [async_get_new_hm_entities_by_platform] keeps. *)
Definition is_new_listed (self : ControlUnit.t) (platform : HmPlatform)
    (entity : BaseEntity.t) : Prop :=
  BaseEntity.usage entity <> ENTITY_NO_CREATE
  /\ (BaseEntity.unique_identifier entity ∉ active_unique_ids self)
  /\ BaseEntity.platform entity = platform.

(** A hub entity that [async_get_new_hm_hub_entities_by_platform] keeps. *)
Definition is_new_hub_listed (self : ControlUnit.t) (platform : HmPlatform)
    (hub_entity : HubEntity.t) : Prop :=
  is_new_hub self hub_entity /\ HubEntity.platform hub_entity = platform.

(** The exception of the property [central]. *)
Definition not_initialized : Py.exn :=
  Py.Exception_ "homematicip_local.central not initialized".

End QueryVocabulary.

Section CallbackVocabulary.
Context `{BackendEvents}.

(** ** The callback for device related events *)

(** The keys of the event data that [_async_callback_ha_event] reads for an
    event type, in the order it reads them. *)
Definition keys_read (hm_event_type : HmEventType) : list string :=
  if bool_decide (hm_event_type = HmEventType_IMPULSE)
     || bool_decide (hm_event_type = HmEventType_KEYPRESS)
  then [ ATTR_ADDRESS ]
  else if bool_decide (hm_event_type = HmEventType_DEVICE)
  then [ ATTR_ADDRESS; ATTR_INTERFACE_ID; ATTR_PARAMETER; ATTR_VALUE ]
  else if bool_decide (hm_event_type = HmEventType_INTERFACE)
  then [ ATTR_INTERFACE_ID; ATTR_TYPE; ATTR_VALUE ]
  else [].

(** The first of [keys] that [event_data] does not have. *)
Definition first_missing (event_data : Py.mapping) (keys : list string)
  : option string :=
  List.find (fun key => negb (has_key event_data key)) keys.

End CallbackVocabulary.

(** ** The topic of an entity *)

(** [s] has the character that separates the parts of a topic. *)
Fixpoint has_slash (s : string) : bool :=
  match s with
  | EmptyString => false
  | String c s' => Ascii.eqb c "/" || has_slash s'
  end.

(** [s.split("/")]: the parts of [s] between the separators. *)
Fixpoint split_slash (s : string) : list string :=
  match s with
  | EmptyString => [ EmptyString ]
  | String c s' =>
      if Ascii.eqb c "/" then EmptyString :: split_slash s'
      else match split_slash s' with
           | part :: parts => String c part :: parts
           | [] => [ String c EmptyString ]
           end
  end.

(** A way to format the values of an entity, for instances: a string as it
    is, an integer in decimal. *)
Module sample_format.

Definition formatting : Formatting :=
  {| format_value := fun v =>
       match v with
       | Py.None_ => "None"
       | Py.Bool_ true => "True"
       | Py.Bool_ false => "False"
       | Py.Int_ z => DecimalString.NilZero.string_of_int (Z.to_int z)
       | Py.Str_ s => s
       | Py.Dict_ _ => "{...}"
       end |}.

Definition state_of_channel_1 : GenericEntity.t :=
  {| GenericEntity.device_address := Py.Str_ "VCU0000001";
     GenericEntity.channel_no := Py.Int_ 1;
     GenericEntity.parameter := Py.Str_ "STATE" |}.

Definition state_of_channel_2 : GenericEntity.t :=
  {| GenericEntity.device_address := Py.Str_ "VCU0000001";
     GenericEntity.channel_no := Py.Int_ 2;
     GenericEntity.parameter := Py.Str_ "STATE" |}.

End sample_format.

(** ** A series of calls on one control unit *)

(** The methods of [ControlUnit] a series is made of, each with its
    arguments: the methods for the central unit, the queries and the four
    methods that add or remove an active entity. [device_info], the
    callbacks and the private helpers are not among them. The receiver is
    the control unit the series runs on. *)
Module Call.

Inductive t :=
| async_init_central
| async_start_central
| stop_central (args : list Py.val)
| async_stop_central
| central
| async_get_hm_entity (entity_id : string)
| async_get_new_hm_entities (new_entities : list BaseEntity.t)
| async_get_new_hm_hub_entities (new_hub_entities : list HubEntity.t)
| async_get_new_hm_hub_entities_by_platform (platform : HmPlatform)
| async_get_new_hm_entities_by_platform (platform : HmPlatform)
| async_get_hm_entities_by_platform (platform : HmPlatform)
| async_add_hm_entity (entity_id : string) (hm_entity : BaseEntity.t)
| async_add_hm_hub_entity (entity_id : string) (hm_hub_entity : HubEntity.t)
| async_remove_hm_entity (entity_id : string)
| async_remove_hm_hub_entity (entity_id : string)
| async_fetch_all_system_variables (σ : HmScheduler.store).

End Call.

Section Series.
Context `{Backend} `{!BackendData}.

(** The value a call returns is dropped. *)
Definition discard {S A} (m : M S A) : M S unit :=
  fun b s =>
    let o := m b s in
    mk_outcome S unit (trace o) (backend o) (state o)
      match result o with
      | Py.Ok _ => Py.Ok tt
      | Py.Raise e => Py.Raise e
      end.

Definition perform (call : Call.t) : M ControlUnit.t unit :=
  match call with
  | Call.async_init_central => ControlUnit.async_init_central
  | Call.async_start_central => ControlUnit.async_start_central
  | Call.stop_central args => ControlUnit.stop_central args
  | Call.async_stop_central => ControlUnit.async_stop_central
  | Call.central => discard ControlUnit.central
  | Call.async_get_hm_entity entity_id =>
      discard (ControlUnit.async_get_hm_entity entity_id)
  | Call.async_get_new_hm_entities new_entities =>
      discard (ControlUnit.async_get_new_hm_entities new_entities)
  | Call.async_get_new_hm_hub_entities new_hub_entities =>
      discard (ControlUnit.async_get_new_hm_hub_entities new_hub_entities)
  | Call.async_get_new_hm_hub_entities_by_platform platform =>
      discard (ControlUnit.async_get_new_hm_hub_entities_by_platform platform)
  | Call.async_get_new_hm_entities_by_platform platform =>
      discard (ControlUnit.async_get_new_hm_entities_by_platform platform)
  | Call.async_get_hm_entities_by_platform platform =>
      discard (ControlUnit.async_get_hm_entities_by_platform platform)
  | Call.async_add_hm_entity entity_id hm_entity =>
      ControlUnit.async_add_hm_entity entity_id hm_entity
  | Call.async_add_hm_hub_entity entity_id hm_hub_entity =>
      ControlUnit.async_add_hm_hub_entity entity_id hm_hub_entity
  | Call.async_remove_hm_entity entity_id =>
      ControlUnit.async_remove_hm_entity entity_id
  | Call.async_remove_hm_hub_entity entity_id =>
      ControlUnit.async_remove_hm_hub_entity entity_id
  | Call.async_fetch_all_system_variables σ =>
      ControlUnit.async_fetch_all_system_variables σ
  end.

(** The calls one after the other on the same control unit, by a caller
    that catches whatever a call raises and goes on: the events of all
    calls, and the backend and the control unit after the last one. *)
Fixpoint series (calls : list Call.t) (b : BState) (self : ControlUnit.t)
  : list Event * BState * ControlUnit.t :=
  match calls with
  | [] => ([], b, self)
  | call :: calls' =>
      let o := perform call b self in
      let '(tr, b', self') := series calls' (backend o) (state o) in
      (trace o ++ tr, b', self')
  end.

(** What no call changes: the scheduler the control unit holds, the four
    attributes its constructor copies from the configuration, and that a
    central unit is initialised. *)
Definition kept (self self' : ControlUnit.t) : Prop :=
  ControlUnit._scheduler self' = ControlUnit._scheduler self
  /\ BaseControlUnit._entry_id (ControlUnit.base self')
     = BaseControlUnit._entry_id (ControlUnit.base self)
  /\ BaseControlUnit._config_data (ControlUnit.base self')
     = BaseControlUnit._config_data (ControlUnit.base self)
  /\ BaseControlUnit._default_callback_port (ControlUnit.base self')
     = BaseControlUnit._default_callback_port (ControlUnit.base self)
  /\ BaseControlUnit._instance_name (ControlUnit.base self')
     = BaseControlUnit._instance_name (ControlUnit.base self)
  /\ (is_Some (BaseControlUnit._central (ControlUnit.base self)) ->
      is_Some (BaseControlUnit._central (ControlUnit.base self'))).

(** The coroutines of the backend a call on [self] may await: the fetch of
    the system variables only when [self] holds a scheduler. *)
Definition await_allowed (self : ControlUnit.t) (k : CallKind) : Prop :=
  k = K_get_central \/ k = K_start \/ k = K_stop
  \/ (k = K_fetch_sysvar_data /\ is_Some (ControlUnit._scheduler self)).

(** The calls that assign to or delete from [_active_hm_entities]. *)
Definition changes_entities (call : Call.t) : bool :=
  match call with
  | Call.async_add_hm_entity _ _ | Call.async_remove_hm_entity _ => true
  | _ => false
  end.

(** The calls that assign to or delete from [_active_hm_hub_entities]. *)
Definition changes_hub_entities (call : Call.t) : bool :=
  match call with
  | Call.async_add_hm_hub_entity _ _ | Call.async_remove_hm_hub_entity _ => true
  | _ => false
  end.

End Series.

(** Entities of a central unit, for instances. *)
Module sample_entities.

Definition switch : BaseEntity.t :=
  {| BaseEntity.usage := "entity";
     BaseEntity.unique_identifier := "hahm_switch_1";
     BaseEntity.platform := "switch" |}.

Definition hidden_switch : BaseEntity.t :=
  {| BaseEntity.usage := "entity_no_create";
     BaseEntity.unique_identifier := "hahm_switch_2";
     BaseEntity.platform := "switch" |}.

Definition sensor : BaseEntity.t :=
  {| BaseEntity.usage := "entity";
     BaseEntity.unique_identifier := "hahm_sensor_1";
     BaseEntity.platform := "sensor" |}.

Definition program : HubEntity.t :=
  {| HubEntity.unique_identifier := "hahm_program_1";
     HubEntity.platform := "hub_button" |}.

Definition sysvar : HubEntity.t :=
  {| HubEntity.unique_identifier := "hahm_sysvar_1";
     HubEntity.platform := "hub_sensor" |}.

(** A backend whose central units all have these entities and the hub
    [sample.hub]. *)
Definition data : @BackendData sample.reliable :=
  {| AVAILABLE_HM_HUB_PLATFORMS := [ "hub_button"; "hub_sensor" ];
     CentralUnit_hm_entities := fun _ _ => [ switch; hidden_switch; sensor ];
     CentralUnit_hub := fun _ _ => Some sample.hub;
     HmHub_program_entities := fun _ _ => [ program ];
     HmHub_sysvar_entities := fun _ _ => [ sysvar ] |}.

(** The control unit of [sample] after [async_init_central]. *)
Definition connected_unit : ControlUnit.t :=
  ControlUnit.set_base sample.connected_base_unit sample.control_unit.

End sample_entities.

(** * Properties *)

(** ** Lists of strings and the platform tables *)

Lemma str_in_spec (x : string) (l : list string) : str_in x l = true <-> x ∈ l.
Proof.
  unfold str_in. rewrite existsb_exists, list_elem_of_In. split.
  - intros (y & Hy & Heq). apply String.eqb_eq in Heq. by subst.
  - intros Hx. exists x. split; [done | apply String.eqb_refl].
Qed.

Lemma str_in_false (x : string) (l : list string) : str_in x l = false <-> x ∉ l.
Proof.
  rewrite <- str_in_spec. destruct (str_in x l); split; congruence.
Qed.

Lemma fold_left_select {A} (keep : A -> bool) (l acc : list A) :
  fold_left (fun acc x => if keep x then acc ++ [x] else acc) l acc
  = acc ++ List.filter keep l.
Proof.
  revert acc. induction l as [|x l IH]; intros acc; simpl.
  - by rewrite app_nil_r.
  - rewrite IH. destruct (keep x); [|done]. by rewrite <- app_assoc.
Qed.

(** [HMIP_LOCAL_PLATFORMS] holds the backend's platforms that [Platform]
    names, in the backend's order. *)
Lemma hmip_local_platforms_spec `{Backend} (p : string) :
  p ∈ HMIP_LOCAL_PLATFORMS
  <-> p ∈ AVAILABLE_HM_PLATFORMS /\ p ∈ map value Platform_members.
Proof.
  unfold HMIP_LOCAL_PLATFORMS, _get_hmip_local_platforms.
  set (platforms := map value Platform_members).
  rewrite fold_left_select, app_nil_l.
  rewrite list_elem_of_In, filter_In, <- list_elem_of_In.
  by rewrite (str_in_spec p).
Qed.

(** ** Steps of a method *)

Section Steps.
Context `{Backend}.

Lemma bind_lift_Ok {S A B} (a : A) (k : A -> M S B) b s :
  bind (lift (Py.Ok a)) k b s = k a b s.
Proof. reflexivity. Qed.

(** A step that returns without an effect hands over to the rest. *)
Lemma bind_silent {S A B} (m : M S A) (k : A -> M S B) b s (a : A) :
  m b s = mk_outcome S A [] b s (Py.Ok a) ->
  bind m k b s = k a b s.
Proof. intros Hm. unfold bind. rewrite Hm. reflexivity. Qed.

(** A step that returns is followed by the rest. *)
Lemma bind_step {S A B} (m : M S A) (k : A -> M S B) b s tr b' s' (a : A) :
  m b s = mk_outcome S A tr b' s' (Py.Ok a) ->
  bind m k b s
  = mk_outcome S B (tr ++ trace (k a b' s')) (backend (k a b' s'))
               (state (k a b' s')) (result (k a b' s')).
Proof. intros Hm. unfold bind. rewrite Hm. reflexivity. Qed.

(** A step that raises ends the method. *)
Lemma bind_raises {S A B} (m : M S A) (k : A -> M S B) b s tr b' s' e :
  m b s = mk_outcome S A tr b' s' (Py.Raise e) ->
  bind m k b s = mk_outcome S B tr b' s' (Py.Raise e).
Proof. intros Hm. unfold bind. rewrite Hm. reflexivity. Qed.

(** An awaited call that fails. *)
Lemma await_raised {S} call answer (b : BState) (s : S) b' e :
  answer b = (b', Some e) ->
  await call answer b s
  = mk_outcome S unit [Await call (Raised e)] b' s (Py.Raise (Py.BackendError e)).
Proof. intros Hanswer. unfold await. by rewrite Hanswer. Qed.

(** An awaited call that returns. *)
Lemma await_returned {S} call answer (b : BState) (s : S) b' :
  answer b = (b', None) ->
  await call answer b s = mk_outcome S unit [Await call Returned] b' s (Py.Ok tt).
Proof. intros Hanswer. unfold await. by rewrite Hanswer. Qed.

(** Reading the property [central] of another object. *)
Lemma read_central {S} (obj : BaseControlUnit.t) (b : BState) (s : S) :
  on_object obj BaseControlUnit.central b s
  = match BaseControlUnit._central obj with
    | Some central => mk_outcome S _ [] b s (Py.Ok central)
    | None =>
        mk_outcome S _ [] b s
          (Py.Raise (Py.Exception_ "homematicip_local.central not initialized"))
    end.
Proof.
  unfold on_object, BaseControlUnit.central.
  erewrite bind_silent; [|reflexivity].
  by destruct (BaseControlUnit._central obj).
Qed.

(** A loop whose body neither raises nor has an effect is a fold. *)
Lemma for_in_ret {S A X} (f : A -> X -> A) (xs : list X) (acc : A) b (s : S) :
  for_in xs acc (fun acc x => ret (f acc x)) b s
  = mk_outcome S A [] b s (Py.Ok (fold_left f xs acc)).
Proof.
  revert acc. induction xs as [|x xs IH]; intros acc; [done|].
  simpl. unfold bind at 1. simpl. by rewrite IH.
Qed.

End Steps.

(** ** C7: the two scan intervals *)

(** C7: the master-paramset refresh interval is strictly longer than the
    system-variable fetch interval: [MASTER_SCAN_INTERVAL] is 300 seconds,
    [SYSVAR_SCAN_INTERVAL] is 30 seconds, and 30 < 300 both as [timedelta]s
    compare and as integers. *)
Theorem C7_master_interval_longer :
  datetime.timedelta_lt SYSVAR_SCAN_INTERVAL MASTER_SCAN_INTERVAL = true
  /\ datetime.total_microseconds SYSVAR_SCAN_INTERVAL = 30 * 1000000
  /\ datetime.total_microseconds MASTER_SCAN_INTERVAL = 300 * 1000000
  /\ datetime.total_microseconds SYSVAR_SCAN_INTERVAL
     < datetime.total_microseconds MASTER_SCAN_INTERVAL.
Proof. repeat split. Qed.

(** ** C10: the two mappings of active entities *)

Ltac frame_goal :=
  simpl; try done;
  try (intros;
       first [ apply lookup_insert_eq | apply lookup_delete_eq
             | by apply lookup_insert_ne | by apply lookup_delete_ne ]);
  try (split; intros;
       first [ done | by eauto | discriminate
             | match goal with H : is_Some None |- _ => by destruct H end ]);
  try match goal with |- is_Some None -> _ => by intros [? ?] end.

Section ActiveEntities.
Context `{Backend}.

Lemma add_hm_entity_outcome entity_id hm_entity b self :
  ControlUnit.async_add_hm_entity entity_id hm_entity b self
  = mk_outcome _ _ [] b
      (ControlUnit.set__active_hm_entities
         (<[entity_id := hm_entity]> (ControlUnit._active_hm_entities self)) self)
      (Py.Ok tt).
Proof. reflexivity. Qed.

Lemma add_hm_hub_entity_outcome entity_id hm_hub_entity b self :
  ControlUnit.async_add_hm_hub_entity entity_id hm_hub_entity b self
  = mk_outcome _ _ [] b
      (ControlUnit.set__active_hm_hub_entities
         (<[entity_id := hm_hub_entity]> (ControlUnit._active_hm_hub_entities self)) self)
      (Py.Ok tt).
Proof. reflexivity. Qed.

Lemma remove_hm_entity_outcome entity_id b self :
  ControlUnit.async_remove_hm_entity entity_id b self
  = match ControlUnit._active_hm_entities self !! entity_id with
    | Some _ =>
        mk_outcome _ _ [] b
          (ControlUnit.set__active_hm_entities
             (delete entity_id (ControlUnit._active_hm_entities self)) self)
          (Py.Ok tt)
    | None => mk_outcome _ _ [] b self (Py.Raise (Py.KeyError entity_id))
    end.
Proof.
  unfold ControlUnit.async_remove_hm_entity, bind, get_self; simpl.
  by destruct (ControlUnit._active_hm_entities self !! entity_id).
Qed.

Lemma remove_hm_hub_entity_outcome entity_id b self :
  ControlUnit.async_remove_hm_hub_entity entity_id b self
  = match ControlUnit._active_hm_hub_entities self !! entity_id with
    | Some _ =>
        mk_outcome _ _ [] b
          (ControlUnit.set__active_hm_hub_entities
             (delete entity_id (ControlUnit._active_hm_hub_entities self)) self)
          (Py.Ok tt)
    | None => mk_outcome _ _ [] b self (Py.Raise (Py.KeyError entity_id))
    end.
Proof.
  unfold ControlUnit.async_remove_hm_hub_entity, bind, get_self; simpl.
  by destruct (ControlUnit._active_hm_hub_entities self !! entity_id).
Qed.

(** C10: the device-entity mapping and the hub-entity mapping are
    independent. [async_add_hm_entity] and [async_remove_hm_entity] change
    only the entry for [entity_id] of the device-entity mapping and leave the
    hub-entity mapping as it is; [async_add_hm_hub_entity] and
    [async_remove_hm_hub_entity] do the same on the hub-entity mapping and
    leave the device-entity mapping as it is. A remove raises (a [KeyError])
    exactly when [entity_id] is absent from its mapping, and then the control
    unit is unchanged. *)
Theorem C10_active_mappings_independent
    (b : BState) (self : ControlUnit.t) (entity_id : string)
    (hm_entity : BaseEntity.t) (hm_hub_entity : HubEntity.t) :
  let entities := ControlUnit._active_hm_entities in
  let hub_entities := ControlUnit._active_hm_hub_entities in
  let add := ControlUnit.async_add_hm_entity entity_id hm_entity b self in
  let add_hub := ControlUnit.async_add_hm_hub_entity entity_id hm_hub_entity b self in
  let remove := ControlUnit.async_remove_hm_entity entity_id b self in
  let remove_hub := ControlUnit.async_remove_hm_hub_entity entity_id b self in
  (result add = Py.Ok tt
   /\ entities (state add) !! entity_id = Some hm_entity
   /\ only_entry_changed entity_id (entities self) (entities (state add))
   /\ hub_entities (state add) = hub_entities self)
  /\ (result add_hub = Py.Ok tt
      /\ hub_entities (state add_hub) !! entity_id = Some hm_hub_entity
      /\ only_entry_changed entity_id (hub_entities self) (hub_entities (state add_hub))
      /\ entities (state add_hub) = entities self)
  /\ ((result remove = Py.Raise (Py.KeyError entity_id)
       <-> entities self !! entity_id = None)
      /\ (result remove = Py.Ok tt <-> is_Some (entities self !! entity_id))
      /\ (entities self !! entity_id = None -> state remove = self)
      /\ (is_Some (entities self !! entity_id) ->
          entities (state remove) !! entity_id = None)
      /\ only_entry_changed entity_id (entities self) (entities (state remove))
      /\ hub_entities (state remove) = hub_entities self)
  /\ ((result remove_hub = Py.Raise (Py.KeyError entity_id)
       <-> hub_entities self !! entity_id = None)
      /\ (result remove_hub = Py.Ok tt <-> is_Some (hub_entities self !! entity_id))
      /\ (hub_entities self !! entity_id = None -> state remove_hub = self)
      /\ (is_Some (hub_entities self !! entity_id) ->
          hub_entities (state remove_hub) !! entity_id = None)
      /\ only_entry_changed entity_id (hub_entities self)
           (hub_entities (state remove_hub))
      /\ entities (state remove_hub) = entities self).
Proof.
  intros entities hub_entities add add_hub remove remove_hub.
  subst add add_hub remove remove_hub entities hub_entities.
  rewrite add_hm_entity_outcome, add_hm_hub_entity_outcome,
    remove_hm_entity_outcome, remove_hm_hub_entity_outcome.
  unfold only_entry_changed.
  split; [|split; [|split]];
    [ | | destruct (ControlUnit._active_hm_entities self !! entity_id) eqn:Hfound
        | destruct (ControlUnit._active_hm_hub_entities self !! entity_id) eqn:Hfound ];
    simpl; split_and!; frame_goal.
Qed.

End ActiveEntities.

(** ** C9: the new entities, by platform *)

Section NewEntities.
Context `{Backend}.

Lemma active_unique_ids_spec self (uid : string) :
  uid ∈ active_unique_ids self
  <-> exists entity_id active,
        ControlUnit._active_hm_entities self !! entity_id = Some active
        /\ BaseEntity.unique_identifier active = uid.
Proof.
  unfold active_unique_ids. rewrite list_elem_of_fmap. split.
  - intros (active & -> & Hin). apply list_elem_of_fmap in Hin as ([k a] & -> & Hin).
    apply elem_of_map_to_list in Hin. by exists k, a.
  - intros (k & a & Hk & <-). exists a. split; [done|].
    apply list_elem_of_fmap. exists (k, a). split; [done|].
    by apply elem_of_map_to_list.
Qed.

Lemma keeps_spec self entity :
  keeps (active_unique_ids self) entity = true <-> is_new self entity.
Proof.
  unfold keeps, is_new.
  rewrite !andb_true_iff, !negb_true_iff, str_in_false, str_in_spec.
  rewrite String.eqb_neq. tauto.
Qed.

(** The first loop: every available platform starts with the empty list. *)
Lemma init_dict_lookup (platforms : list HmPlatform)
    (d : gmap HmPlatform (list BaseEntity.t)) (p : HmPlatform) :
  fold_left (fun d hm_platform => <[hm_platform := []]> d) platforms d !! p
  = if decide (p ∈ platforms) then Some [] else d !! p.
Proof.
  revert d. induction platforms as [|q platforms IH]; intros d.
  - destruct (decide (p ∈ [])) as [Hin|_]; [by apply not_elem_of_nil in Hin | done].
  - change (fold_left _ (q :: platforms) d)
      with (fold_left (fun d hm_platform => <[hm_platform := []]> d) platforms
                      (<[q := []]> d)).
    rewrite IH.
    destruct (decide (p ∈ platforms)) as [Hin|Hnotin];
      destruct (decide (p ∈ q :: platforms)) as [Hin'|Hnotin']; try done.
    + exfalso. apply Hnotin'. by right.
    + apply elem_of_cons in Hin' as [->|?]; [apply lookup_insert_eq | done].
    + apply lookup_insert_ne. intros ->. apply Hnotin'. by left.
Qed.

(** The second loop: it never raises as long as every platform of
    [HMIP_LOCAL_PLATFORMS] is a key, and it appends each kept entity to the
    list of its platform. *)
Lemma collect_loop (self : ControlUnit.t) (new_entities : list BaseEntity.t) :
  forall (d : gmap HmPlatform (list BaseEntity.t)) (b : BState) (s : ControlUnit.t),
    (forall p, p ∈ HMIP_LOCAL_PLATFORMS -> is_Some (d !! p)) ->
    exists d',
      for_in new_entities d
        (fun hm_entities entity =>
           if keeps (active_unique_ids self) entity
           then
             match hm_entities !! BaseEntity.platform entity with
             | Some entities =>
                 ret (<[BaseEntity.platform entity := entities ++ [entity]]> hm_entities)
             | None => raise (Py.KeyError (BaseEntity.platform entity))
             end
           else ret hm_entities) b s
      = mk_outcome _ _ [] b s (Py.Ok d')
      /\ forall p,
          d' !! p
          = (fun l => l ++ filter (fun e => is_new self e /\ BaseEntity.platform e = p)
                                  new_entities) <$> (d !! p).
Proof.
  induction new_entities as [|entity new_entities IH]; intros d b s Hkeys.
  - exists d. split; [done|]. intros p. rewrite filter_nil.
    destruct (d !! p); simpl; [by rewrite app_nil_r | done].
  - simpl for_in. unfold bind at 1.
    destruct (keeps (active_unique_ids self) entity) eqn:Hkeep.
    + apply keeps_spec in Hkeep as Hnew.
      destruct (Hkeys (BaseEntity.platform entity)) as [entities Hentities];
        [apply Hnew|].
      rewrite Hentities. simpl.
      destruct (IH (<[BaseEntity.platform entity := entities ++ [entity]]> d) b s)
        as (d' & Hrun & Hd').
      { intros p Hp. destruct (decide (BaseEntity.platform entity = p)) as [<-|Hne].
        - rewrite lookup_insert_eq. by eauto.
        - rewrite lookup_insert_ne by done. by apply Hkeys. }
      exists d'. split; [by rewrite Hrun|].
      intros p. rewrite Hd'.
      destruct (decide (BaseEntity.platform entity = p)) as [<-|Hne].
      * rewrite lookup_insert_eq, Hentities. simpl.
        rewrite filter_cons_True by done. by rewrite <- app_assoc.
      * rewrite lookup_insert_ne by done.
        rewrite filter_cons_False by (by intros [_ ?]). done.
    + simpl.
      destruct (IH d b s Hkeys) as (d' & Hrun & Hd').
      exists d'. split; [by rewrite Hrun|].
      intros p. rewrite Hd'.
      rewrite filter_cons_False; [done|].
      intros [Hnew _]. apply keeps_spec in Hnew. congruence.
Qed.

(** C9: for every list of entities, [async_get_new_hm_entities] returns a
    mapping whose keys are exactly [AVAILABLE_HM_PLATFORMS]; under each
    platform it lists, in input order, the input entities of that platform
    whose usage is not [ENTITY_NO_CREATE], whose unique identifier is that of
    no active entity, and whose platform value is in [HMIP_LOCAL_PLATFORMS]
    (the empty list when there is none); an entity is listed under a platform
    exactly in that case. The call has no effect and never raises. *)
Theorem C9_new_entities_by_platform
    (b : BState) (self : ControlUnit.t) (new_entities : list BaseEntity.t) :
  exists hm_entities : gmap HmPlatform (list BaseEntity.t),
    ControlUnit.async_get_new_hm_entities new_entities b self
    = mk_outcome _ _ [] b self (Py.Ok hm_entities)
    /\ dom hm_entities = list_to_set AVAILABLE_HM_PLATFORMS
    /\ (forall p, p ∈ AVAILABLE_HM_PLATFORMS ->
          hm_entities !! p
          = Some (filter (fun e => is_new self e /\ BaseEntity.platform e = p)
                         new_entities))
    /\ (forall entity p,
          (exists entities, hm_entities !! p = Some entities /\ entity ∈ entities)
          <-> entity ∈ new_entities
              /\ BaseEntity.platform entity = p
              /\ BaseEntity.usage entity <> ENTITY_NO_CREATE
              /\ (~ exists entity_id active,
                      ControlUnit._active_hm_entities self !! entity_id = Some active
                      /\ BaseEntity.unique_identifier active
                         = BaseEntity.unique_identifier entity)
              /\ BaseEntity.platform entity ∈ HMIP_LOCAL_PLATFORMS).
Proof.
  set (d0 := fold_left (fun d hm_platform => <[hm_platform := []]> d)
                       AVAILABLE_HM_PLATFORMS (∅ : gmap HmPlatform (list BaseEntity.t))).
  assert (Hd0 : forall p, d0 !! p = if decide (p ∈ AVAILABLE_HM_PLATFORMS)
                                    then Some [] else None).
  { intros p. unfold d0. by rewrite init_dict_lookup, lookup_empty. }
  destruct (collect_loop self new_entities d0 b self) as (d' & Hrun & Hd').
  { intros p [Hp _]%hmip_local_platforms_spec. rewrite Hd0.
    rewrite decide_True by done. by eauto. }
  assert (Hkeys : forall p, p ∈ AVAILABLE_HM_PLATFORMS ->
            d' !! p = Some (filter (fun e => is_new self e /\ BaseEntity.platform e = p)
                                   new_entities)).
  { intros p Hp. rewrite Hd', Hd0. by rewrite decide_True by done. }
  assert (Hother : forall p, p ∉ AVAILABLE_HM_PLATFORMS -> d' !! p = None).
  { intros p Hp. rewrite Hd', Hd0. by rewrite decide_False by done. }
  exists d'. split_and!.
  - unfold ControlUnit.async_get_new_hm_entities.
    erewrite bind_silent; [|reflexivity].
    erewrite bind_silent; [|apply for_in_ret].
    erewrite bind_silent; [|exact Hrun].
    reflexivity.
  - apply set_eq. intros p. rewrite elem_of_dom, elem_of_list_to_set.
    destruct (decide (p ∈ AVAILABLE_HM_PLATFORMS)) as [Hp|Hp].
    + rewrite Hkeys by done. split; [done | by eauto].
    + rewrite Hother by done. split; [by intros [? ?] | done].
  - done.
  - intros entity p. split.
    + intros (entities & Hp & Hin).
      destruct (decide (p ∈ AVAILABLE_HM_PLATFORMS)) as [Hav|Hav];
        [|by rewrite Hother in Hp].
      rewrite Hkeys in Hp by done. injection Hp as <-.
      apply list_elem_of_filter in Hin as [[(Husage & Hid & Hlocal) Hplat] Hin].
      split_and!; try done.
      intros Hactive. apply Hid. by apply active_unique_ids_spec.
    + intros (Hin & Hplat & Husage & Hid & Hlocal).
      assert (Hav : p ∈ AVAILABLE_HM_PLATFORMS).
      { subst p. by apply hmip_local_platforms_spec in Hlocal as [? _]. }
      eexists. split; [by apply Hkeys|].
      apply list_elem_of_filter. split; [|done].
      split; [|done]. split_and!; try done.
      intros Hactive. apply Hid. by apply active_unique_ids_spec.
Qed.

End NewEntities.

(** ** What a method may do: the events it emits and how a failure ends it *)

Section Discipline.
Context `{Backend}.

Lemma obeys_ret {S A} kinds (a : A) : obeys (S := S) kinds (ret a).
Proof. intros b s. split; simpl; constructor. Qed.

Lemma obeys_raise {S A} kinds e : obeys (S := S) (A := A) kinds (raise e).
Proof. intros b s. split; simpl; [constructor | left; constructor]. Qed.

Lemma obeys_lift {S A} kinds (r : Py.res A) : obeys (S := S) kinds (lift r).
Proof.
  intros b s. split; simpl; [constructor|].
  destruct r; [constructor | left; constructor].
Qed.

Lemma obeys_get_self {S} kinds : obeys (S := S) kinds get_self.
Proof. intros b s. split; simpl; constructor. Qed.

Lemma obeys_set_self {S} kinds (s' : S) : obeys kinds (set_self s').
Proof. intros b s. split; simpl; constructor. Qed.

Lemma obeys_log {S} kinds level msg args : obeys (S := S) kinds (log level msg args).
Proof. intros b s. split; simpl; repeat constructor. Qed.

Lemma obeys_await {S} kinds call answer :
  In (kind call) kinds -> obeys (S := S) kinds (await call answer).
Proof.
  intros Hkind b s. unfold await. destruct (answer b) as [b' [e|]]; simpl.
  - split; [by repeat constructor|].
    right. exists [], call, e. by repeat split.
  - split; by repeat constructor.
Qed.

Lemma obeys_await_get_central {S} kinds config :
  In K_get_central kinds -> obeys (S := S) kinds (await_get_central config).
Proof.
  intros Hkind b s. unfold await_get_central.
  destruct (CentralConfig_get_central config b) as [b' [e|c]]; simpl.
  - split; [by repeat constructor|].
    right. exists [], (get_central config), e. by repeat split.
  - split; by repeat constructor.
Qed.

Lemma obeys_bind {S A B} kinds (m : M S A) (k : A -> M S B) :
  obeys kinds m -> (forall a, obeys kinds (k a)) -> obeys kinds (bind m k).
Proof.
  intros Hm Hk b s. specialize (Hm b s). unfold observed in *. simpl in *.
  unfold bind. destruct (result (m b s)) as [a|e] eqn:Hres; simpl.
  - destruct Hm as [Hok Hret].
    specialize (Hk a (backend (m b s)) (state (m b s))).
    unfold observed in Hk. simpl in Hk. destruct Hk as [Hok' Hdisc].
    split; [by apply Forall_app|].
    destruct (result (k a (backend (m b s)) (state (m b s)))) as [a'|e'].
    + by apply Forall_app.
    + destruct Hdisc as [Hret'|(pre & call & e & Htr & Hpre & ->)].
      * left. by apply Forall_app.
      * right. exists (trace (m b s) ++ pre), call, e.
        rewrite Htr, app_assoc. split_and!; [done | by apply Forall_app | done].
  - done.
Qed.

Lemma obeys_zoom {S T A} kinds (proj : S -> T) (inj : T -> S -> S) (m : M T A) :
  obeys kinds m -> obeys kinds (zoom proj inj m).
Proof. intros Hm b s. exact (Hm b (proj s)). Qed.

Lemma obeys_on_object {S T A} kinds (obj : T) (m : M T A) :
  obeys kinds m -> obeys (S := S) kinds (on_object obj m).
Proof. intros Hm b s. exact (Hm b obj). Qed.

Lemma obeys_for_in {S A X} kinds (xs : list X) (body : A -> X -> M S A) :
  (forall acc x, obeys kinds (body acc x)) ->
  forall acc, obeys kinds (for_in xs acc body).
Proof.
  intros Hbody. induction xs as [|x xs IH]; intros acc; simpl.
  - apply obeys_ret.
  - apply obeys_bind; [apply Hbody | done].
Qed.

End Discipline.

(** Breaks a method into its steps. *)
Ltac obey :=
  repeat first
    [ apply obeys_ret | apply obeys_raise | apply obeys_lift
    | apply obeys_get_self | apply obeys_set_self | apply obeys_log
    | apply obeys_await; simpl; tauto
    | apply obeys_await_get_central; simpl; tauto
    | apply obeys_zoom | apply obeys_on_object
    | apply obeys_for_in; intros
    | apply obeys_bind; [|intros]
    | match goal with
      | |- obeys _ (match ?x with _ => _ end) => destruct x
      | |- obeys _ (if ?x then _ else _) => destruct x
      end ].

Section OperationsDiscipline.
Context `{Backend}.

Lemma BaseControlUnit__async_create_central_obeys :
  obeys [K_get_central] BaseControlUnit._async_create_central.
Proof. unfold BaseControlUnit._async_create_central. obey. Qed.

Lemma BaseControlUnit_async_init_central_obeys :
  obeys [K_get_central] BaseControlUnit.async_init_central.
Proof.
  unfold BaseControlUnit.async_init_central. obey; try apply BaseControlUnit__async_create_central_obeys.
Qed.

Lemma BaseControlUnit_async_start_central_obeys :
  obeys [K_start] BaseControlUnit.async_start_central.
Proof. unfold BaseControlUnit.async_start_central. obey. Qed.

Lemma BaseControlUnit_async_stop_central_obeys :
  obeys [K_stop] BaseControlUnit.async_stop_central.
Proof. unfold BaseControlUnit.async_stop_central. obey. Qed.

Lemma BaseControlUnit_central_obeys kinds : obeys kinds BaseControlUnit.central.
Proof. unfold BaseControlUnit.central. obey. Qed.

Lemma BaseControlUnit___init___obeys control_config :
  obeys [] (BaseControlUnit.__init__ control_config).
Proof. unfold BaseControlUnit.__init__. obey. Qed.

Lemma ControlUnit___init___obeys control_config :
  obeys [] (ControlUnit.__init__ control_config).
Proof.
  unfold ControlUnit.__init__. obey; try apply BaseControlUnit___init___obeys.
Qed.

Lemma ControlUnit_on_central_obeys kinds assign :
  obeys kinds (ControlUnit.on_central assign).
Proof. unfold ControlUnit.on_central. obey. Qed.

Lemma ControlUnit_async_init_central_obeys :
  obeys [K_get_central] ControlUnit.async_init_central.
Proof.
  unfold ControlUnit.async_init_central, ControlUnit.super. obey;
    try first [ apply BaseControlUnit_async_init_central_obeys
              | apply ControlUnit_on_central_obeys ].
Qed.

Lemma ControlUnit_async_stop_central_obeys :
  obeys [K_stop] ControlUnit.async_stop_central.
Proof.
  unfold ControlUnit.async_stop_central, ControlUnit.super,
    ControlUnit.on_scheduler, HmScheduler.de_init.
  obey; try apply BaseControlUnit_async_stop_central_obeys.
Qed.

Lemma HmScheduler__async_fetch_data_obeys σ now :
  obeys [K_fetch_sysvar_data; K_fetch_program_data] (HmScheduler._async_fetch_data σ now).
Proof.
  unfold HmScheduler._async_fetch_data. obey; try apply BaseControlUnit_central_obeys.
Qed.

Lemma HmScheduler_async_fetch_sysvars_obeys σ :
  obeys [K_fetch_sysvar_data] (HmScheduler.async_fetch_sysvars σ).
Proof.
  unfold HmScheduler.async_fetch_sysvars. obey; try apply BaseControlUnit_central_obeys.
Qed.

Lemma HmScheduler__async_fetch_master_data_obeys σ now :
  obeys [K_refresh_entity_data] (HmScheduler._async_fetch_master_data σ now).
Proof.
  unfold HmScheduler._async_fetch_master_data. obey;
    try apply BaseControlUnit_central_obeys.
Qed.

Lemma ControlUnit_async_fetch_all_system_variables_obeys σ :
  obeys [K_fetch_sysvar_data] (ControlUnit.async_fetch_all_system_variables σ).
Proof.
  unfold ControlUnit.async_fetch_all_system_variables, ControlUnit.on_scheduler.
  obey; try apply HmScheduler_async_fetch_sysvars_obeys.
Qed.

Lemma ControlConfig_async_get_control_unit_obeys :
  obeys [K_get_central] ControlConfig_async_get_control_unit.
Proof.
  unfold ControlConfig_async_get_control_unit. obey;
    try apply ControlUnit_async_init_central_obeys.
Qed.

Lemma ControlUnit_async_get_new_hm_entities_obeys new_entities :
  obeys [] (ControlUnit.async_get_new_hm_entities new_entities).
Proof. unfold ControlUnit.async_get_new_hm_entities. obey. Qed.

(** Every operation keeps the discipline, with the calls [may_await] grants
    it. *)
Lemma run_disciplined (op : Op.t) (b : BState) :
  disciplined (may_await op) (fst (run op b)) (snd (run op b)).
Proof.
  destruct op; simpl may_await; unfold run.
  - apply (obeys_ret (S := unit)).
  - apply ControlConfig_async_get_control_unit_obeys.
  - apply BaseControlUnit___init___obeys.
  - apply BaseControlUnit_async_init_central_obeys.
  - apply BaseControlUnit_async_start_central_obeys.
  - apply (obeys_ret (S := BaseControlUnit.t)).
  - apply BaseControlUnit_async_stop_central_obeys.
  - apply BaseControlUnit_central_obeys.
  - apply BaseControlUnit__async_create_central_obeys.
  - apply ControlUnit___init___obeys.
  - apply ControlUnit_async_init_central_obeys.
  - apply obeys_zoom, BaseControlUnit_async_start_central_obeys.
  - apply obeys_zoom, (obeys_ret (S := BaseControlUnit.t)).
  - apply ControlUnit_async_stop_central_obeys.
  - apply obeys_zoom, BaseControlUnit_central_obeys.
  - unfold ControlUnit.async_get_hm_entity. obey.
  - apply ControlUnit_async_get_new_hm_entities_obeys.
  - unfold ControlUnit.async_add_hm_entity. obey.
  - unfold ControlUnit.async_add_hm_hub_entity. obey.
  - unfold ControlUnit.async_remove_hm_entity. obey.
  - unfold ControlUnit.async_remove_hm_hub_entity. obey.
  - apply ControlUnit_async_fetch_all_system_variables_obeys.
  - apply (obeys_ret (S := unit)).
  - apply (obeys_ret (S := HmScheduler.t)).
  - apply HmScheduler__async_fetch_data_obeys.
  - apply HmScheduler_async_fetch_sysvars_obeys.
  - apply HmScheduler__async_fetch_master_data_obeys.
Qed.

End OperationsDiscipline.

(** ** C2: what constructing the scheduler registers *)

(** C2, amended: constructing the scheduler stores the control unit and the
    hub and does nothing else: it emits no event, so it registers no
    listener; and no operation of the adapter registers one. *)
Theorem C2_scheduler_registers_nothing `{Backend}
    (b : BState) (control_unit : HmScheduler.ControlRef) (hm_hub : HmHub.t) :
  HmScheduler.__init__ control_unit hm_hub b tt
  = mk_outcome unit HmScheduler.t [] b tt
      (Py.Ok {| HmScheduler._control := control_unit;
                HmScheduler._hm_hub := hm_hub |})
  /\ forall op b' action, ~ registers action (fst (run op b')).
Proof.
  split; [reflexivity|].
  intros op b' action [interval Hin].
  destruct (run_disciplined op b') as [Hok _].
  rewrite Forall_forall in Hok. apply list_elem_of_In in Hin. exact (Hok _ Hin).
Qed.

(** C2 as stated fails: after [HmScheduler(control_unit, hub)] neither
    listener is registered. *)
Lemma C2_no_listener_after_construction :
  ~ registers_both_listeners
      (trace (@HmScheduler.__init__ sample.reliable 0%nat sample.hub 0%nat tt)).
Proof. intros [[interval []] _]. Qed.

(** ** C3: failures of the backend *)

Lemma failed_call_is_last (pre post pre' : list Event) (ev ev' : Event) :
  pre ++ ev :: post = pre' ++ [ev'] ->
  ~ returned ev -> Forall returned pre' ->
  post = [] /\ ev = ev'.
Proof.
  intros Heq Hev Hpre'.
  destruct post as [|z post _] using rev_ind.
  - by apply app_inj_tail in Heq as [_ ?].
  - exfalso.
    change (pre ++ ev :: post ++ [z]) with (pre ++ (ev :: post) ++ [z]) in Heq.
    rewrite app_assoc in Heq. apply app_inj_tail in Heq as [<- _].
    apply Forall_app in Hpre' as [_ Hpre'].
    by apply Forall_cons in Hpre' as [? _].
Qed.

Section StartStopFetch.
Context `{Backend}.

(** [async_start_central], case by case: no central unit, [start] fails,
    [start] returns. *)
Lemma async_start_central_cases (b : BState) (self : BaseControlUnit.t) :
  BaseControlUnit.async_start_central b self
  = let name := [BaseControlUnit._instance_name self] in
    match BaseControlUnit._central self with
    | None =>
        mk_outcome _ _
          [ Log DEBUG "Starting central unit %s" name;
            Log EXCEPTION "Starting central unit %s not possible" name;
            Log INFO "Started central unit for %s" name ]
          b self (Py.Ok tt)
    | Some central =>
        match CentralUnit_start central b with
        | (b', Some e) =>
            mk_outcome _ _
              [ Log DEBUG "Starting central unit %s" name;
                Await (start central) (Raised e) ]
              b' self (Py.Raise (Py.BackendError e))
        | (b', None) =>
            mk_outcome _ _
              [ Log DEBUG "Starting central unit %s" name;
                Await (start central) Returned;
                Log INFO "Started central unit for %s" name ]
              b' self (Py.Ok tt)
        end
    end.
Proof.
  unfold BaseControlUnit.async_start_central.
  erewrite bind_silent; [|reflexivity].
  erewrite bind_step; [|reflexivity].
  destruct (BaseControlUnit._central self) as [central|].
  - destruct (CentralUnit_start central b) as [b' [e|]] eqn:Hstart.
    + erewrite bind_raises; [|by apply await_raised]. reflexivity.
    + erewrite bind_step; [|by apply await_returned]. reflexivity.
  - erewrite bind_step; [|reflexivity]. reflexivity.
Qed.

(** [async_stop_central], case by case. *)
Lemma async_stop_central_cases (b : BState) (self : BaseControlUnit.t) :
  BaseControlUnit.async_stop_central b self
  = let name := [BaseControlUnit._instance_name self] in
    match BaseControlUnit._central self with
    | None =>
        mk_outcome _ _ [ Log DEBUG "Stopping central unit %s" name ] b self (Py.Ok tt)
    | Some central =>
        match CentralUnit_stop central b with
        | (b', Some e) =>
            mk_outcome _ _
              [ Log DEBUG "Stopping central unit %s" name;
                Await (stop central) (Raised e) ]
              b' self (Py.Raise (Py.BackendError e))
        | (b', None) =>
            mk_outcome _ _
              [ Log DEBUG "Stopping central unit %s" name;
                Await (stop central) Returned ]
              b' self (Py.Ok tt)
        end
    end.
Proof.
  unfold BaseControlUnit.async_stop_central.
  erewrite bind_silent; [|reflexivity].
  erewrite bind_step; [|reflexivity].
  destruct (BaseControlUnit._central self) as [central|]; [|reflexivity].
  destruct (CentralUnit_stop central b) as [b' [e|]] eqn:Hstop.
  - erewrite await_raised; [|done]. reflexivity.
  - erewrite await_returned; [|done]. reflexivity.
Qed.

(** [_async_fetch_data] with the central unit initialised, case by case:
    the first fetch fails, the second fails, both return. *)
Lemma _async_fetch_data_cases (σ : HmScheduler.store) (now : datetime.datetime)
    (b : BState) (self : HmScheduler.t) (central : CentralUnit.t) :
  BaseControlUnit._central (σ (HmScheduler._control self)) = Some central ->
  HmScheduler._async_fetch_data σ now b self
  = let logged := Log DEBUG "Scheduled fetching of programs and sysvars for %s"
                      [Py.Str_ (CentralUnit.name central)] in
    let hub := HmScheduler._hm_hub self in
    match HmHub_fetch_sysvar_data hub b with
    | (b1, Some e) =>
        mk_outcome _ _ [logged; Await (fetch_sysvar_data hub) (Raised e)] b1 self
                   (Py.Raise (Py.BackendError e))
    | (b1, None) =>
        match HmHub_fetch_program_data hub b1 with
        | (b2, Some e) =>
            mk_outcome _ _
              [ logged; Await (fetch_sysvar_data hub) Returned;
                Await (fetch_program_data hub) (Raised e) ]
              b2 self (Py.Raise (Py.BackendError e))
        | (b2, None) =>
            mk_outcome _ _
              [ logged; Await (fetch_sysvar_data hub) Returned;
                Await (fetch_program_data hub) Returned ]
              b2 self (Py.Ok tt)
        end
    end.
Proof.
  intros Hcentral.
  unfold HmScheduler._async_fetch_data.
  erewrite bind_silent; [|reflexivity].
  erewrite bind_silent; [|by rewrite read_central, Hcentral].
  erewrite bind_step; [|reflexivity].
  destruct (HmHub_fetch_sysvar_data (HmScheduler._hm_hub self) b)
    as [b1 [e|]] eqn:Hsysvar.
  - erewrite bind_raises; [|by apply await_raised]. reflexivity.
  - erewrite bind_step; [|by apply await_returned].
    destruct (HmHub_fetch_program_data (HmScheduler._hm_hub self) b1)
      as [b2 [e|]] eqn:Hprogram.
    + erewrite await_raised; [|done]. reflexivity.
    + erewrite await_returned; [|done]. reflexivity.
Qed.

(** [_async_fetch_master_data] with the central unit initialised, case by
    case. *)
Lemma _async_fetch_master_data_cases (σ : HmScheduler.store) (now : datetime.datetime)
    (b : BState) (self : HmScheduler.t) (central : CentralUnit.t) :
  BaseControlUnit._central (σ (HmScheduler._control self)) = Some central ->
  HmScheduler._async_fetch_master_data σ now b self
  = let logged := Log DEBUG "Scheduled fetching of master entities for %s"
                      [Py.Str_ (CentralUnit.name central)] in
    let call := refresh_entity_data central PARAMSET_KEY_MASTER in
    match DeviceData_refresh_entity_data central PARAMSET_KEY_MASTER b with
    | (b', Some e) =>
        mk_outcome _ _ [logged; Await call (Raised e)] b' self
                   (Py.Raise (Py.BackendError e))
    | (b', None) => mk_outcome _ _ [logged; Await call Returned] b' self (Py.Ok tt)
    end.
Proof.
  intros Hcentral.
  unfold HmScheduler._async_fetch_master_data.
  erewrite bind_silent; [|reflexivity].
  erewrite bind_silent; [|by rewrite read_central, Hcentral].
  erewrite bind_step; [|reflexivity].
  erewrite bind_silent; [|by rewrite read_central, Hcentral].
  destruct (DeviceData_refresh_entity_data central PARAMSET_KEY_MASTER b)
    as [b' [e|]] eqn:Hrefresh.
  - erewrite await_raised; [|done]. reflexivity.
  - erewrite await_returned; [|done]. reflexivity.
Qed.

End StartStopFetch.

(** C3, amended: when a call of the backend fails in any operation of the
    adapter (among them [async_start_central], [async_stop_central],
    [stop_central] and the fetch methods of the scheduler), the operation
    ends there: nothing is logged or awaited after the failed call, and the
    operation raises the backend's exception itself, not wrapped. No
    operation logs the failure and none swallows it. *)
Theorem C3_backend_failure_propagates `{Backend}
    (op : Op.t) (b : BState)
    (pre post : list Event) (call : BackendCall) (e : Py.BackendExn) :
  fst (run op b) = pre ++ Await call (Raised e) :: post ->
  post = []
  /\ snd (run op b) = Some (Py.BackendError e)
  /\ Forall returned pre.
Proof.
  intros Htr.
  destruct (run_disciplined op b) as [_ Hdisc]. rewrite Htr in Hdisc.
  assert (Hnot : ~ Forall returned (pre ++ Await call (Raised e) :: post)).
  { intros [_ Hbad]%Forall_app. by apply Forall_cons in Hbad as [? _]. }
  destruct (snd (run op b)) as [x|]; [|done].
  destruct Hdisc as [?|(pre' & call' & e' & Heq & Hpre' & ->)]; [done|].
  destruct (failed_call_is_last _ _ _ _ _ Heq) as [-> [= <- <-]]; [by intros [] | done |].
  apply app_inj_tail in Heq as [-> _]. done.
Qed.

(** An instance: the backend is unreachable when the central unit is
    started. *)
Lemma C3_witness_start_fails :
  fst (@run sample.unreachable
            (Op.BaseControlUnit_async_start_central sample.connected_base_unit) 0%nat)
  = [ Log DEBUG "Starting central unit %s" [Py.Str_ "xxx"] ]
    ++ Await (start sample.central) (Raised sample.connection_lost) :: []
  /\ snd (@run sample.unreachable
               (Op.BaseControlUnit_async_start_central sample.connected_base_unit) 0%nat)
     = Some (Py.BackendError sample.connection_lost).
Proof.
  split; [reflexivity|].
  apply (@C3_backend_failure_propagates sample.unreachable
           (Op.BaseControlUnit_async_start_central sample.connected_base_unit) 0%nat
           [ Log DEBUG "Starting central unit %s" [Py.Str_ "xxx"] ] []
           (start sample.central) sample.connection_lost).
  reflexivity.
Defined.

(** C3 as stated fails: [async_start_central] neither logs nor swallows the
    failure of [start]. *)
Lemma C3_start_failure_neither_logged_nor_swallowed :
  ~ logged_or_swallowed
      (@run sample.unreachable
            (Op.BaseControlUnit_async_start_central sample.connected_base_unit) 0%nat).
Proof.
  intros Hclaim.
  destruct (Hclaim [ Log DEBUG "Starting central unit %s" [Py.Str_ "xxx"] ]
                   (start sample.central) sample.connection_lost [] eq_refl)
    as [(? & ? & ? & [])|Hnone].
  discriminate Hnone.
Qed.

(** ** Building the central unit *)

Section CreateCentral.
Context `{Backend}.

(** The loop over the interface names: it has no effect; it raises, or it
    adds one [InterfaceConfig] per name, in order. *)
Lemma interface_loop (self : BaseControlUnit.t) (interfaces : Py.val)
    (names : list string) :
  forall (acc : list InterfaceConfig.t) (b : BState) (s : BaseControlUnit.t),
    let loop :=
      for_in names acc
        (fun interface_configs interface_name =>
           bind (lift (Py.Ok interfaces)) (fun interfaces =>
           bind (lift (Py.val_getitem interfaces interface_name)) (fun interface =>
           bind (lift (Py.val_getitem interface ATTR_PORT)) (fun port =>
           bind (lift (Py.val_get interface ATTR_PATH)) (fun path =>
           ret (interface_configs ++
                [ {| InterfaceConfig.central_name := BaseControlUnit._instance_name self;
                     InterfaceConfig.interface := interface_name;
                     InterfaceConfig.port := port;
                     InterfaceConfig.path := path |} ])))))) b s in
    (exists e, loop = mk_outcome _ _ [] b s (Py.Raise e))
    \/ (exists configs,
          loop = mk_outcome _ _ [] b s (Py.Ok (acc ++ configs))
          /\ Forall2 (interface_built self interfaces) names configs).
Proof.
  induction names as [|name names IH]; intros acc b s loop; subst loop.
  - right. exists []. split; [by rewrite app_nil_r | constructor].
  - simpl for_in.
    destruct (Py.val_getitem interfaces name) as [entry|e] eqn:Hentry;
      [|left; exists e; unfold bind; simpl; by rewrite Hentry].
    destruct (Py.val_getitem entry ATTR_PORT) as [port|e] eqn:Hport;
      [|left; exists e; unfold bind; simpl; by rewrite Hentry, Hport].
    destruct (Py.val_get entry ATTR_PATH) as [path|e] eqn:Hpath;
      [|left; exists e; unfold bind; simpl; by rewrite Hentry, Hport, Hpath].
    set (ic := {| InterfaceConfig.central_name := BaseControlUnit._instance_name self;
                  InterfaceConfig.interface := name;
                  InterfaceConfig.port := port;
                  InterfaceConfig.path := path |}).
    destruct (IH (acc ++ [ic]) b s) as [[e He]|(configs & Hrun & Hall)].
    + left. exists e. erewrite bind_silent; [exact He|].
      unfold bind; simpl. by rewrite Hentry, Hport, Hpath.
    + right. exists (ic :: configs). split.
      * erewrite bind_silent; [rewrite Hrun; by rewrite <- app_assoc|].
        unfold bind; simpl. by rewrite Hentry, Hport, Hpath.
      * constructor; [|done]. split_and!; try done. by exists entry.
Qed.

(** [_async_create_central] either rejects the configuration mapping, without
    any effect, or awaits [get_central] on the arguments it built. *)
Lemma create_central_cases (b : BState) (self : BaseControlUnit.t) :
  (exists e,
     BaseControlUnit._async_create_central b self
     = mk_outcome _ _ [] b self (Py.Raise e))
  \/ (exists config,
        builds self config
        /\ BaseControlUnit._async_create_central b self
           = await_get_central config b self).
Proof.
  unfold BaseControlUnit._async_create_central.
  erewrite bind_silent; [|reflexivity].
  set (data := BaseControlUnit._config_data self).
  destruct (Py.getitem data ATTR_INTERFACE) as [interfaces|e] eqn:Hinterfaces;
    [rewrite bind_lift_Ok | left; by exists e].
  destruct (Py.iter interfaces) as [names|e] eqn:Hnames;
    [rewrite bind_lift_Ok | left; by exists e].
  destruct (interface_loop self interfaces names [] b self)
    as [[e Hloop]|(configs & Hloop & Hbuilt)].
  { left. exists e. erewrite bind_raises; [done | exact Hloop]. }
  erewrite bind_silent; [|exact Hloop].
  destruct (Py.getitem data ATTR_HOST) as [host|e] eqn:Hhost;
    [rewrite bind_lift_Ok | left; by exists e].
  destruct (Py.getitem data ATTR_USERNAME) as [username|e] eqn:Husername;
    [rewrite bind_lift_Ok | left; by exists e].
  destruct (Py.getitem data ATTR_PASSWORD) as [password|e] eqn:Hpassword;
    [rewrite bind_lift_Ok | left; by exists e].
  destruct (Py.getitem data ATTR_TLS) as [tls|e] eqn:Htls;
    [rewrite bind_lift_Ok | left; by exists e].
  destruct (Py.getitem data ATTR_VERIFY_TLS) as [verify_tls|e] eqn:Hverify_tls;
    [rewrite bind_lift_Ok | left; by exists e].
  destruct (Py.getitem data ATTR_JSON_PORT) as [json_port|e] eqn:Hjson_port;
    [rewrite bind_lift_Ok | left; by exists e].
  right. eexists. split; [|reflexivity].
  unfold builds. fold data. simpl.
  rewrite Hhost, Husername, Hpassword, Htls, Hverify_tls, Hjson_port.
  unfold BaseControlUnit.unless.
  split_and!; try done.
  - by destruct (Py.eq_str _ _).
  - by destruct (Py.eq_int _ _).
  - exists interfaces, names. by rewrite Hinterfaces.
Qed.

(** [BaseControlUnit.async_init_central], case by case. *)
Lemma base_init_cases (b : BState) (self : BaseControlUnit.t) :
  let o := BaseControlUnit.async_init_central b self in
  let logged := Log DEBUG "Init central unit %s" [BaseControlUnit._instance_name self] in
  (exists e, o = mk_outcome _ _ [logged] b self (Py.Raise e))
  \/ (exists config b' e,
        builds self config
        /\ CentralConfig_get_central config b = (b', inl e)
        /\ o = mk_outcome _ _ [logged; Await (get_central config) (Raised e)] b' self
                          (Py.Raise (Py.BackendError e)))
  \/ (exists config b' central,
        builds self config
        /\ CentralConfig_get_central config b = (b', inr central)
        /\ o = mk_outcome _ _ [logged; Await (get_central config) Returned] b'
                          (BaseControlUnit.set__central (Some central) self)
                          (Py.Ok tt)).
Proof.
  intros o logged. subst o. unfold BaseControlUnit.async_init_central.
  erewrite bind_silent; [|reflexivity].
  destruct (create_central_cases b self) as [[e Hcreate]|(config & Hbuilds & Hcreate)].
  - left. exists e. erewrite bind_step; [|reflexivity].
    erewrite bind_raises; [reflexivity | exact Hcreate].
  - right. erewrite bind_step; [|reflexivity].
    unfold await_get_central in Hcreate.
    destruct (CentralConfig_get_central config b) as [b' [e|central]] eqn:Hget.
    + left. exists config, b', e. split_and!; [done | done |].
      erewrite bind_raises; [|exact Hcreate]. reflexivity.
    + right. exists config, b', central. split_and!; [done | done |].
      erewrite bind_step; [|exact Hcreate]. reflexivity.
Qed.

End CreateCentral.

(** ** C1: the configuration mapping and the arguments of [CentralConfig] *)

Section ConfigForwarding.
Context `{Backend}.

(** A control unit as its constructor leaves it. *)
Lemma base_init_result (control_config : ControlConfig.t) (b : BState)
    (self : BaseControlUnit.t) :
  result (BaseControlUnit.__init__ control_config b tt) = Py.Ok self ->
  Py.getitem (ControlConfig.data control_config) ATTR_INSTANCE_NAME
  = Py.Ok (BaseControlUnit._instance_name self)
  /\ BaseControlUnit._entry_id self = ControlConfig.entry_id control_config
  /\ BaseControlUnit._config_data self = ControlConfig.data control_config
  /\ BaseControlUnit._default_callback_port self
     = ControlConfig.default_callback_port control_config
  /\ BaseControlUnit._central self = None.
Proof.
  unfold BaseControlUnit.__init__.
  destruct (Py.getitem (ControlConfig.data control_config) ATTR_INSTANCE_NAME)
    as [instance_name|e]; simpl; [|done].
  by intros [= <-].
Qed.

Lemma builds_forwarded (self : BaseControlUnit.t) (config : CentralConfig.t) :
  Py.getitem (BaseControlUnit._config_data self) ATTR_INSTANCE_NAME
  = Py.Ok (BaseControlUnit._instance_name self) ->
  builds self config ->
  forwarded None_if_any_host None_if_any_port (BaseControlUnit._config_data self) config.
Proof.
  intros Hname (Hn & _ & Hhost & Huser & Hpass & _ & Htls & Hverify & Hjson & Hch
                & Hcp & _ & interfaces & names & Hifs & Hnames & Hall).
  unfold forwarded. rewrite Hn. split_and!; try done.
  exists interfaces, names. split_and!; try done.
  eapply Forall2_impl; [exact Hall|].
  intros name ic (_ & Hi & Hentry). by split.
Qed.

(** C1, amended: for every configuration mapping the adapter accepts, the
    arguments [_async_create_central] gives to the backend's [CentralConfig]
    are the fields of the mapping, unchanged: [instance_name], [host],
    [username], [password], [tls], [verify_tls], [json_port], and for each
    interface entry its port and its path ([None] when the entry has no
    path); except that [callback_host] is passed as [None] when it equals the
    backend's [IP_ANY_V4], and [callback_port] as [None] when it equals the
    backend's [PORT_ANY]. *)
Theorem C1_configuration_forwarded
    (control_config : ControlConfig.t) (b0 b : BState) (self : BaseControlUnit.t)
    (central : option CentralUnit.t) (config : CentralConfig.t) (reply : Reply) :
  result (BaseControlUnit.__init__ control_config b0 tt) = Py.Ok self ->
  In (Await (get_central config) reply)
     (trace (BaseControlUnit._async_create_central b
               (BaseControlUnit.set__central central self))) ->
  forwarded None_if_any_host None_if_any_port (ControlConfig.data control_config) config.
Proof.
  intros (Hname & _ & Hdata & _)%base_init_result Hin.
  set (self' := BaseControlUnit.set__central central self) in *.
  destruct (create_central_cases b self') as [[e Hcreate]|(config' & Hbuilds & Hcreate)];
    rewrite Hcreate in Hin.
  - destruct Hin.
  - unfold await_get_central in Hin.
    assert (config' = config) as ->.
    { destruct (CentralConfig_get_central config' b) as [b' [e|c]];
        destruct Hin as [Heq|[]]; by injection Heq. }
    rewrite <- Hdata. apply (builds_forwarded self'); [|done].
    simpl. by rewrite Hdata.
Qed.

End ConfigForwarding.

(** An instance: the mapping of [example.py]. *)
Lemma C1_witness_example_config :
  forwarded (@None_if_any_host sample.reliable) (@None_if_any_port sample.reliable)
            sample.config_data sample.central_config.
Proof.
  apply (@C1_configuration_forwarded sample.reliable sample.control_config
           0%nat 0%nat sample.base_unit None sample.central_config Returned).
  - reflexivity.
  - left. reflexivity.
Defined.

(** C1 as stated fails: with [callback_host] set to ["0.0.0.0"] (the
    backend's [IP_ANY_V4]) and [callback_port] to [0] (its [PORT_ANY]) the
    mapping is accepted and both arguments are [None]. *)
Lemma C1_any_callback_not_forwarded :
  let data := sample.config_data_with (Py.Str_ "0.0.0.0") (Py.Int_ 0) in
  let config := sample.central_config_with Py.None_ Py.None_ in
  result (@BaseControlUnit.__init__ sample.reliable
            {| ControlConfig.entry_id := sample.entry_id;
               ControlConfig.data := data;
               ControlConfig.default_callback_port := sample.default_callback_port |}
            0%nat tt)
  = Py.Ok (sample.base_unit_of data)
  /\ trace (@BaseControlUnit._async_create_central sample.reliable 0%nat
              (sample.base_unit_of data))
     = [Await (get_central config) Returned]
  /\ ~ forwarded_unchanged data config.
Proof.
  split; [reflexivity|]. split; [reflexivity|].
  intros (_ & _ & _ & _ & _ & _ & Hhost & _). discriminate Hhost.
Qed.

(** The same for every backend, whatever its [IP_ANY_V4] is. *)
Lemma callback_host_any_is_dropped `{Backend} (b : BState) :
  let data := sample.config_data_with (Py.Str_ IP_ANY_V4) Py.None_ in
  exists config reply,
    trace (BaseControlUnit._async_create_central b (sample.base_unit_of data))
    = [Await (get_central config) reply]
    /\ CentralConfig.callback_host config = Py.None_
    /\ Py.get data ATTR_CALLBACK_HOST = Py.Str_ IP_ANY_V4.
Proof.
  intros data. subst data.
  unfold BaseControlUnit._async_create_central.
  erewrite bind_silent; [|reflexivity].
  simpl. unfold bind. simpl. unfold BaseControlUnit.unless.
  change (Py.get _ ATTR_CALLBACK_HOST) with (Py.Str_ IP_ANY_V4).
  simpl. rewrite String.eqb_refl. simpl.
  unfold await_get_central.
  match goal with
  | |- context [CentralConfig_get_central ?c b] =>
      destruct (CentralConfig_get_central c b) as [b' [e|central]];
      [exists c, (Raised e) | exists c, Returned]
  end; by split_and!.
Qed.

(** And for every backend, whatever its [PORT_ANY] is. *)
Lemma callback_port_any_is_dropped `{Backend} (b : BState) :
  let data := sample.config_data_with Py.None_ (Py.Int_ PORT_ANY) in
  exists config reply,
    trace (BaseControlUnit._async_create_central b (sample.base_unit_of data))
    = [Await (get_central config) reply]
    /\ CentralConfig.callback_port config = Py.None_
    /\ Py.get data ATTR_CALLBACK_PORT = Py.Int_ PORT_ANY.
Proof.
  intros data.
  destruct (create_central_cases b (sample.base_unit_of data))
    as [[e Hcreate]|(config & Hbuilds & Hcreate)].
  - exfalso. revert Hcreate. subst data.
    unfold BaseControlUnit._async_create_central.
    erewrite bind_silent; [|reflexivity].
    erewrite bind_silent; [|reflexivity].
    erewrite bind_silent; [|reflexivity].
    erewrite bind_silent; [|reflexivity].
    do 6 (erewrite bind_silent; [|reflexivity]).
    unfold await_get_central.
    match goal with
    | |- context [CentralConfig_get_central ?c b] =>
        by destruct (CentralConfig_get_central c b) as [b' [e'|central]]
    end.
  - destruct Hbuilds as (_ & _ & _ & _ & _ & _ & _ & _ & _ & _ & Hport & _).
    assert (Hget : Py.get (BaseControlUnit._config_data (sample.base_unit_of data))
                     ATTR_CALLBACK_PORT = Py.Int_ PORT_ANY) by reflexivity.
    rewrite Hget in Hport. simpl in Hport. rewrite Z.eqb_refl in Hport.
    rewrite Hcreate. unfold await_get_central.
    destruct (CentralConfig_get_central config b) as [b' [e|central]];
      [exists config, (Raised e) | exists config, Returned]; by split_and!.
Qed.

(** ** C5 and C8: initialising the central unit *)

Section InitCentral.
Context `{Backend}.

(** [ControlUnit.async_init_central], case by case. *)
Lemma control_init_cases (b : BState) (self : ControlUnit.t) :
  let o := ControlUnit.async_init_central b self in
  let logged :=
    Log DEBUG "Init central unit %s"
        [BaseControlUnit._instance_name (ControlUnit.base self)] in
  (exists e, o = mk_outcome _ _ [logged] b self (Py.Raise e))
  \/ (exists config b' e,
        builds (ControlUnit.base self) config
        /\ CentralConfig_get_central config b = (b', inl e)
        /\ o = mk_outcome _ _ [logged; Await (get_central config) (Raised e)] b' self
                          (Py.Raise (Py.BackendError e)))
  \/ (exists config b' central,
        builds (ControlUnit.base self) config
        /\ CentralConfig_get_central config b = (b', inr central)
        /\ o = mk_outcome _ _ [logged; Await (get_central config) Returned] b'
                 (ControlUnit.set_base
                    (BaseControlUnit.set__central (Some (with_callbacks central))
                                                  (ControlUnit.base self))
                    self)
                 (Py.Ok tt)).
Proof.
  intros o logged. subst o. unfold ControlUnit.async_init_central.
  assert (Hself : ControlUnit.set_base (ControlUnit.base self) self = self)
    by by destruct self.
  destruct (base_init_cases b (ControlUnit.base self))
    as [[e Hbase]|[(config & b' & e & Hbuilds & Hget & Hbase)
                  |(config & b' & central & Hbuilds & Hget & Hbase)]];
    simpl in Hbase.
  - left. exists e. erewrite bind_raises; [reflexivity|].
    unfold ControlUnit.super, zoom. rewrite Hbase. simpl. by rewrite Hself.
  - right; left. exists config, b', e. split_and!; [done | done |].
    erewrite bind_raises; [reflexivity|].
    unfold ControlUnit.super, zoom. rewrite Hbase. simpl. by rewrite Hself.
  - right; right. exists config, b', central. split_and!; [done | done |].
    erewrite bind_step;
      [|unfold ControlUnit.super, zoom; rewrite Hbase; reflexivity].
    reflexivity.
Qed.

(** C5: for every control unit on which [async_init_central] succeeds, the
    central unit obtained from the backend is stored with exactly three
    callbacks registered: its [callback_entity_event], [callback_system_event]
    and [callback_ha_event] are the control unit's three callback methods,
    and everything else in it is as the backend returned it. *)
Theorem C5_three_callbacks_registered (b : BState) (self : ControlUnit.t) :
  result (ControlUnit.async_init_central b self) = Py.Ok tt ->
  exists config central registered,
    In (Await (get_central config) Returned)
       (trace (ControlUnit.async_init_central b self))
    /\ CentralConfig_get_central config b
       = (backend (ControlUnit.async_init_central b self), inr central)
    /\ BaseControlUnit._central
         (ControlUnit.base (state (ControlUnit.async_init_central b self)))
       = Some registered
    /\ CentralUnit.callback_entity_event registered = Some _async_callback_entity_event
    /\ CentralUnit.callback_system_event registered = Some _async_callback_system_event
    /\ CentralUnit.callback_ha_event registered = Some _async_callback_ha_event
    /\ CentralUnit.name registered = CentralUnit.name central
    /\ CentralUnit.handle registered = CentralUnit.handle central.
Proof.
  intros Hok.
  destruct (control_init_cases b self)
    as [[e Hcase]|[(config & b' & e & _ & _ & Hcase)
                  |(config & b' & central & _ & Hget & Hcase)]];
    simpl in Hcase; rewrite Hcase in *; try discriminate Hok.
  exists config, central, (with_callbacks central). simpl.
  split_and!; try done. right. by left.
Qed.

(** C8: reading the property [central] raises exactly when the central unit
    has not been initialised. A control unit fresh from its constructor has
    none, so the property raises; a failed [async_init_central] and the other
    operations of the base class leave the control unit as it was; after a
    successful [async_init_central] the property returns the central unit
    that [async_init_central] stored, which is the one the backend
    returned. *)
Theorem C8_central_property (b : BState) (self : BaseControlUnit.t) :
  (* raises exactly when there is none *)
  ((exists e, result (BaseControlUnit.central b self) = Py.Raise e)
   <-> BaseControlUnit._central self = None)
  /\ (forall central,
        BaseControlUnit._central self = Some central ->
        BaseControlUnit.central b self = mk_outcome _ _ [] b self (Py.Ok central))
  (* before *)
  /\ (forall control_config b0 new,
        result (BaseControlUnit.__init__ control_config b0 tt) = Py.Ok new ->
        exists e, result (BaseControlUnit.central b new) = Py.Raise e)
  /\ (result (BaseControlUnit.async_init_central b self) <> Py.Ok tt ->
      state (BaseControlUnit.async_init_central b self) = self)
  /\ state (BaseControlUnit.async_start_central b self) = self
  /\ state (BaseControlUnit.async_stop_central b self) = self
  /\ (forall args, state (BaseControlUnit.stop_central args b self) = self)
  (* after *)
  /\ (result (BaseControlUnit.async_init_central b self) = Py.Ok tt ->
      exists config central,
        CentralConfig_get_central config b
        = (backend (BaseControlUnit.async_init_central b self), inr central)
        /\ BaseControlUnit._central (state (BaseControlUnit.async_init_central b self))
           = Some central
        /\ forall b', BaseControlUnit.central b'
                        (state (BaseControlUnit.async_init_central b self))
                      = mk_outcome _ _ [] b'
                          (state (BaseControlUnit.async_init_central b self))
                          (Py.Ok central)).
Proof.
  assert (Hcentral : forall b' (s : BaseControlUnit.t),
            BaseControlUnit.central b' s
            = match BaseControlUnit._central s with
              | Some central => mk_outcome _ _ [] b' s (Py.Ok central)
              | None => mk_outcome _ _ [] b' s
                          (Py.Raise (Py.Exception_
                                       "homematicip_local.central not initialized"))
              end).
  { intros b' s. unfold BaseControlUnit.central.
    erewrite bind_silent; [|reflexivity]. by destruct (BaseControlUnit._central s). }
  repeat match goal with |- _ /\ _ => split end.
  - rewrite Hcentral. destruct (BaseControlUnit._central self); simpl.
    + split; [by intros [e ?] | done].
    + split; [done | by eauto].
  - intros central Hsome. by rewrite Hcentral, Hsome.
  - intros control_config b0 new (_ & _ & _ & _ & Hnone)%base_init_result.
    rewrite Hcentral, Hnone. by eauto.
  - intros Hfail.
    destruct (base_init_cases b self)
      as [[e Hcase]|[(config & b' & e & _ & _ & Hcase)
                    |(config & b' & central & _ & _ & Hcase)]];
      simpl in Hcase; rewrite Hcase in *; try done.
  - rewrite async_start_central_cases.
    destruct (BaseControlUnit._central self) as [central|]; [|done].
    by destruct (CentralUnit_start central b) as [b' [e|]].
  - rewrite async_stop_central_cases.
    destruct (BaseControlUnit._central self) as [central|]; [|done].
    by destruct (CentralUnit_stop central b) as [b' [e|]].
  - done.
  - intros Hok.
    destruct (base_init_cases b self)
      as [[e Hcase]|[(config & b' & e & _ & _ & Hcase)
                    |(config & b' & central & _ & Hget & Hcase)]];
      simpl in Hcase; rewrite Hcase in *; try discriminate Hok.
    exists config, central. simpl. split_and!; done.
Qed.

End InitCentral.

(** An instance: the control unit of [example.py] against a backend that
    answers. *)
Lemma C5_witness_example :
  exists config central registered,
    In (Await (get_central config) Returned)
       (trace (@ControlUnit.async_init_central sample.reliable 0%nat sample.control_unit))
    /\ @CentralConfig_get_central sample.reliable config 0%nat
       = (backend (@ControlUnit.async_init_central sample.reliable 0%nat
                     sample.control_unit),
          inr central)
    /\ BaseControlUnit._central
         (ControlUnit.base
            (state (@ControlUnit.async_init_central sample.reliable 0%nat
                      sample.control_unit)))
       = Some registered
    /\ CentralUnit.callback_entity_event registered = Some _async_callback_entity_event
    /\ CentralUnit.callback_system_event registered = Some _async_callback_system_event
    /\ CentralUnit.callback_ha_event registered = Some _async_callback_ha_event
    /\ CentralUnit.name registered = CentralUnit.name central
    /\ CentralUnit.handle registered = CentralUnit.handle central.
Proof.
  apply (@C5_three_callbacks_registered sample.reliable 0%nat sample.control_unit).
  reflexivity.
Defined.

(** The property [central] of a [ControlUnit] after its own
    [async_init_central]: the central unit it stored. *)
Lemma ControlUnit_central_after_init `{Backend} (b b' : BState) (self : ControlUnit.t) :
  result (ControlUnit.async_init_central b self) = Py.Ok tt ->
  exists central,
    BaseControlUnit._central
      (ControlUnit.base (state (ControlUnit.async_init_central b self)))
    = Some central
    /\ result (ControlUnit.central b' (state (ControlUnit.async_init_central b self)))
       = Py.Ok central.
Proof.
  intros Hok.
  destruct (control_init_cases b self)
    as [[e Hcase]|[(config & b1 & e & _ & _ & Hcase)
                  |(config & b1 & central & _ & _ & Hcase)]];
    simpl in Hcase; rewrite Hcase in *; try discriminate Hok.
  by exists (with_callbacks central).
Qed.

(** ** C4 and C6: the calls that are awaited *)

Lemma awaited_In (tr : list Event) (k : CallKind) :
  In k (awaited tr) <-> exists call reply, In (Await call reply) tr /\ kind call = k.
Proof.
  induction tr as [|ev tr IH]; simpl.
  - split; [done | by intros (? & ? & [] & _)].
  - destruct ev as [level msg args|call reply|action interval]; simpl; rewrite IH.
    + split.
      * intros (c & r & Hin & Hk). exists c, r. by split; [right|].
      * intros (c & r & [Heq|Hin] & Hk); [done|]. by exists c, r.
    + split.
      * intros [<-|(c & r & Hin & Hk)]; [by exists call, reply; split; [left|] |].
        exists c, r. by split; [right|].
      * intros (c & r & [[= <- <-]|Hin] & Hk); [by left|]. right. by exists c, r.
    + split.
      * intros (c & r & Hin & Hk). exists c, r. by split; [right|].
      * intros (c & r & [Heq|Hin] & Hk); [done|]. by exists c, r.
Qed.

(** C4, amended: across the operations of the adapter, the backend
    coroutines that are awaited are exactly [get_central] (by
    [_async_create_central], hence by [async_init_central] and
    [async_get_control_unit]), [start], [stop] and the fetches
    ([fetch_sysvar_data], [fetch_program_data], [refresh_entity_data]): every
    operation awaits only the calls [may_await] lists for it, and each of the
    six is awaited in some run. *)
Theorem C4_awaited_backend_calls :
  (forall (B : Backend) (op : Op.t) (b : BState) (k : CallKind),
      In k (awaited (fst (run op b))) -> In k (may_await op))
  /\ awaited (fst (@run sample.reliable
                     (Op.ControlUnit_async_init_central sample.control_unit) 0%nat))
     = [K_get_central]
  /\ awaited (fst (@run sample.reliable
                     (Op.BaseControlUnit_async_start_central sample.connected_base_unit)
                     0%nat))
     = [K_start]
  /\ awaited (fst (@run sample.reliable
                     (Op.BaseControlUnit_async_stop_central sample.connected_base_unit)
                     0%nat))
     = [K_stop]
  /\ awaited (fst (@run sample.reliable
                     (Op.HmScheduler__async_fetch_data sample.connected_store
                        sample.scheduler 0)
                     0%nat))
     = [K_fetch_sysvar_data; K_fetch_program_data]
  /\ awaited (fst (@run sample.reliable
                     (Op.HmScheduler__async_fetch_master_data sample.connected_store
                        sample.scheduler 0)
                     0%nat))
     = [K_refresh_entity_data].
Proof.
  split; [|by repeat split].
  intros B op b k (call & reply & Hin & <-)%awaited_In.
  destruct (run_disciplined op b) as [Hok _].
  rewrite List.Forall_forall in Hok. exact (Hok _ Hin).
Qed.

(** C4 as stated fails: [async_init_central] awaits [get_central]. *)
Lemma C4_init_awaits_get_central :
  ~ awaits_only_start_stop_fetch
      (fst (@run sample.reliable
                 (Op.ControlUnit_async_init_central sample.control_unit) 0%nat)).
Proof.
  intros Hclaim. apply Forall_cons in Hclaim as [Hkind _].
  by destruct Hkind as [?|[?|[?|[?|?]]]].
Qed.

Section FetchSysvars.
Context `{Backend}.

(** [HmScheduler.async_fetch_sysvars], case by case. *)
Lemma fetch_sysvars_cases (σ : HmScheduler.store) (b : BState) (s : HmScheduler.t) :
  HmScheduler.async_fetch_sysvars σ b s
  = match BaseControlUnit._central (σ (HmScheduler._control s)) with
    | None =>
        mk_outcome _ _ [] b s
          (Py.Raise (Py.Exception_ "homematicip_local.central not initialized"))
    | Some central =>
        let logged := Log DEBUG "Manually fetching of sysvars for %s"
                          [Py.Str_ (CentralUnit.name central)] in
        let call := fetch_sysvar_data (HmScheduler._hm_hub s) in
        match HmHub_fetch_sysvar_data (HmScheduler._hm_hub s) b with
        | (b', Some e) =>
            mk_outcome _ _ [logged; Await call (Raised e)] b' s
                       (Py.Raise (Py.BackendError e))
        | (b', None) => mk_outcome _ _ [logged; Await call Returned] b' s (Py.Ok tt)
        end
    end.
Proof.
  unfold HmScheduler.async_fetch_sysvars.
  erewrite bind_silent; [|reflexivity].
  destruct (BaseControlUnit._central (σ (HmScheduler._control s))) as [central|] eqn:Hc.
  - erewrite bind_silent; [|by rewrite read_central, Hc].
    erewrite bind_step; [|reflexivity].
    destruct (HmHub_fetch_sysvar_data (HmScheduler._hm_hub s) b)
      as [b' [e|]] eqn:Hfetch.
    + erewrite await_raised; [|done]. reflexivity.
    + erewrite await_returned; [|done]. reflexivity.
  - erewrite bind_raises; [|by rewrite read_central, Hc]. reflexivity.
Qed.

(** [async_fetch_all_system_variables], case by case. *)
Lemma fetch_all_system_variables_cases
    (σ : HmScheduler.store) (b : BState) (self : ControlUnit.t) :
  let o := ControlUnit.async_fetch_all_system_variables σ b self in
  state o = self
  /\ match ControlUnit._scheduler self with
     | None =>
         trace o = [ Log DEBUG "Hub scheduler for %s is not initialized"
                         [BaseControlUnit._instance_name (ControlUnit.base self)] ]
         /\ backend o = b
         /\ result o = Py.Ok tt
     | Some s =>
         match BaseControlUnit._central (σ (HmScheduler._control s)) with
         | None =>
             trace o = []
             /\ backend o = b
             /\ result o
                = Py.Raise (Py.Exception_ "homematicip_local.central not initialized")
         | Some central =>
             exists reply,
               trace o = [ Log DEBUG "Manually fetching of sysvars for %s"
                               [Py.Str_ (CentralUnit.name central)];
                           Await (fetch_sysvar_data (HmScheduler._hm_hub s)) reply ]
               /\ (backend o,
                   match reply with
                   | Raised e => Some e
                   | Returned => None
                   end)
                  = HmHub_fetch_sysvar_data (HmScheduler._hm_hub s) b
               /\ result o = match reply with
                             | Raised e => Py.Raise (Py.BackendError e)
                             | Returned => Py.Ok tt
                             end
         end
     end.
Proof.
  intros o. subst o. unfold ControlUnit.async_fetch_all_system_variables.
  erewrite bind_silent; [|reflexivity].
  destruct self as [base entities hub_entities [s|]];
    cbn [ControlUnit._scheduler]; [|done].
  unfold ControlUnit.on_scheduler, zoom. rewrite fetch_sysvars_cases.
  destruct (BaseControlUnit._central (σ (HmScheduler._control s))) as [central|];
    [|done].
  destruct (HmHub_fetch_sysvar_data (HmScheduler._hm_hub s) b) as [b' [e|]]; simpl.
  - split; [done|]. by exists (Raised e).
  - split; [done|]. by exists Returned.
Qed.

(** C6: [async_fetch_all_system_variables] awaits the backend's fetch of the
    system variables exactly when the scheduler has been initialised. When
    the scheduler is set, it awaits the scheduler's fetch, which logs and
    awaits [fetch_sysvar_data] of the scheduler's hub once, and the outcome
    is the outcome of that call; when the scheduler is not set, it logs that
    and returns without any backend call. In no case does the control unit
    change. *)
Theorem C6_fetch_all_system_variables
    (σ : HmScheduler.store) (b : BState) (self : ControlUnit.t) :
  scheduler_ready σ self ->
  let o := ControlUnit.async_fetch_all_system_variables σ b self in
  fetches_when_scheduler_set self (trace o)
  /\ state o = self
  /\ match ControlUnit._scheduler self with
     | None =>
         trace o = [ Log DEBUG "Hub scheduler for %s is not initialized"
                         [BaseControlUnit._instance_name (ControlUnit.base self)] ]
         /\ backend o = b
         /\ result o = Py.Ok tt
     | Some s =>
         exists central reply,
           BaseControlUnit._central (σ (HmScheduler._control s)) = Some central
           /\ trace o = [ Log DEBUG "Manually fetching of sysvars for %s"
                              [Py.Str_ (CentralUnit.name central)];
                          Await (fetch_sysvar_data (HmScheduler._hm_hub s)) reply ]
           /\ (backend o,
               match reply with
               | Raised e => Some e
               | Returned => None
               end)
              = HmHub_fetch_sysvar_data (HmScheduler._hm_hub s) b
           /\ result o = match reply with
                         | Raised e => Py.Raise (Py.BackendError e)
                         | Returned => Py.Ok tt
                         end
     end.
Proof.
  intros Hready o. subst o.
  destruct (fetch_all_system_variables_cases σ b self) as [Hstate Hcases].
  unfold fetches_when_scheduler_set, scheduler_ready in *.
  destruct (ControlUnit._scheduler self) as [s|].
  - destruct Hready as [central Hcentral]. rewrite Hcentral in Hcases.
    destruct Hcases as (reply & Htrace & Hbackend & Hresult).
    split_and!; [by rewrite Htrace | done |]. by exists central, reply.
  - destruct Hcases as (Htrace & Hbackend & Hresult).
    split_and!; try done. by rewrite Htrace.
Qed.

End FetchSysvars.

(** Two instances: a control unit that holds a scheduler, its central unit
    initialised, and the control unit as its constructor leaves it. *)
Lemma C6_witness_scheduler_set :
  (ControlUnit._scheduler sample.scheduled_unit = Some sample.scheduler
   /\ awaited (trace (@ControlUnit.async_fetch_all_system_variables sample.reliable
                        sample.connected_store 0%nat sample.scheduled_unit))
      = [K_fetch_sysvar_data])
  /\ (ControlUnit._scheduler sample.control_unit = None
      /\ awaited (trace (@ControlUnit.async_fetch_all_system_variables sample.reliable
                           sample.store 0%nat sample.control_unit))
         = []).
Proof.
  split; (split; [reflexivity|]).
  - destruct (@C6_fetch_all_system_variables sample.reliable sample.connected_store
                0%nat sample.scheduled_unit) as [Hfetch _].
    + exists sample.central. reflexivity.
    + exact Hfetch.
  - destruct (@C6_fetch_all_system_variables sample.reliable sample.store
                0%nat sample.control_unit) as [Hfetch _].
    + exact I.
    + exact Hfetch.
Defined.

(** Without the central unit the scheduler cannot fetch: reading [central]
    for the log record raises first. No control unit gets into this state
    by the methods of the adapter (see [constructed_unit_scheduler_ready]). *)
Lemma scheduler_set_without_central :
  ControlUnit._scheduler sample.scheduled_unit = Some sample.scheduler
  /\ ~ scheduler_ready sample.store sample.scheduled_unit
  /\ @ControlUnit.async_fetch_all_system_variables sample.reliable
       sample.store 0%nat sample.scheduled_unit
     = @mk_outcome sample.reliable _ _ [] 0%nat sample.scheduled_unit
         (Py.Raise (Py.Exception_ "homematicip_local.central not initialized")).
Proof.
  split; [reflexivity|]. split; [|reflexivity]. by intros [central Hcentral].
Qed.


(** ** The central unit is assigned by [async_init_central] only *)

(** The other methods of [ControlUnit] that change the control unit or await
    the backend leave [_central], like every attribute of the base class, as
    it is. *)
Lemma ControlUnit_base_unchanged `{Backend} (b : BState) (self : ControlUnit.t)
    (entity_id : string) (hm_entity : BaseEntity.t) (hm_hub_entity : HubEntity.t)
    (args : list Py.val) :
  ControlUnit.base (state (ControlUnit.async_start_central b self))
  = ControlUnit.base self
  /\ ControlUnit.base (state (ControlUnit.stop_central args b self))
     = ControlUnit.base self
  /\ ControlUnit.base (state (ControlUnit.async_add_hm_entity entity_id hm_entity b self))
     = ControlUnit.base self
  /\ ControlUnit.base
       (state (ControlUnit.async_add_hm_hub_entity entity_id hm_hub_entity b self))
     = ControlUnit.base self
  /\ ControlUnit.base (state (ControlUnit.async_remove_hm_entity entity_id b self))
     = ControlUnit.base self
  /\ ControlUnit.base (state (ControlUnit.async_remove_hm_hub_entity entity_id b self))
     = ControlUnit.base self.
Proof.
  rewrite add_hm_entity_outcome, add_hm_hub_entity_outcome,
    remove_hm_entity_outcome, remove_hm_hub_entity_outcome.
  split_and!; try done.
  - unfold ControlUnit.async_start_central, ControlUnit.super, zoom.
    rewrite async_start_central_cases. simpl.
    destruct (BaseControlUnit._central (ControlUnit.base self)) as [central|];
      [|done].
    by destruct (CentralUnit_start central b) as [b' [e|]].
  - by destruct (ControlUnit._active_hm_entities self !! entity_id).
  - by destruct (ControlUnit._active_hm_hub_entities self !! entity_id).
Qed.

(** * Further properties *)

(** ** [const.py]: the platforms the adapter serves *)

(** X1: [HMIP_LOCAL_PLATFORMS] is the list of the backend's available
    platforms with those removed whose value names no member of [Platform]:
    the order and the repetitions of the backend's list are kept, nothing is
    added, and a list without repetitions stays without. *)
Theorem hmip_local_platforms_filtered `{Backend} :
  HMIP_LOCAL_PLATFORMS
  = List.filter (fun p => str_in p (map value Platform_members)) AVAILABLE_HM_PLATFORMS
  /\ sublist HMIP_LOCAL_PLATFORMS AVAILABLE_HM_PLATFORMS
  /\ (forall p, p ∈ HMIP_LOCAL_PLATFORMS
                <-> p ∈ AVAILABLE_HM_PLATFORMS /\ exists m : Platform, value m = p)
  /\ (NoDup AVAILABLE_HM_PLATFORMS -> NoDup HMIP_LOCAL_PLATFORMS).
Proof.
  assert (Heq : HMIP_LOCAL_PLATFORMS
                = List.filter (fun p => str_in p (map value Platform_members))
                              AVAILABLE_HM_PLATFORMS).
  { unfold HMIP_LOCAL_PLATFORMS, _get_hmip_local_platforms.
    set (platforms := map value Platform_members).
    by rewrite fold_left_select, app_nil_l. }
  assert (Hsub : forall (keep : string -> bool) l, sublist (List.filter keep l) l).
  { intros keep l. induction l as [|x l IH]; simpl; [done|].
    destruct (keep x); by constructor. }
  split_and!.
  - done.
  - rewrite Heq. apply Hsub.
  - intros p. rewrite hmip_local_platforms_spec. split.
    + intros [Hav Hin]. split; [done|].
      apply list_elem_of_In, in_map_iff in Hin as (m & Hm & _). by exists m.
    + intros [Hav [m Hm]]. split; [done|]. subst p.
      apply list_elem_of_In, in_map. by destruct m; vm_compute; tauto.
  - intros Hnodup.
    pose proof (Hsub (fun p => str_in p (map value Platform_members))
                     AVAILABLE_HM_PLATFORMS) as Hs.
    rewrite <- Heq in Hs. by eapply sublist_NoDup.
Qed.

(** ** [async_start_central] and the scheduler's fetches *)

(** Closes a fact about a trace that is given event by event. *)
Ltac trace_facts :=
  repeat match goal with
    | |- _ <-> _ => split
    | |- _ /\ _ => split
    | |- ~ _ => intro
    | |- _ -> _ => intro
    | |- forall _, _ => intro
    | H : is_Some None |- _ => destruct H as [? H]; discriminate H
    end;
  simpl in *; try done;
  intuition (try discriminate; try congruence; eauto).

Section StartAndFetch.
Context `{Backend}.

(** X2: [async_start_central] logs "Started central unit" exactly when it
    returns normally, and it returns normally even when there is no central
    unit: then it awaits nothing and logs "not possible" as well. With a
    central unit it awaits [start] once and never logs "not possible". The
    control unit is unchanged in every case. *)
Theorem async_start_central_log (b : BState) (self : BaseControlUnit.t) :
  let name := [BaseControlUnit._instance_name self] in
  let o := BaseControlUnit.async_start_central b self in
  (In (Log INFO "Started central unit for %s" name) (trace o) <-> result o = Py.Ok tt)
  /\ (BaseControlUnit._central self = None ->
      result o = Py.Ok tt
      /\ awaited (trace o) = []
      /\ In (Log EXCEPTION "Starting central unit %s not possible" name) (trace o))
  /\ (is_Some (BaseControlUnit._central self) ->
      awaited (trace o) = [K_start]
      /\ forall msg args, ~ In (Log EXCEPTION msg args) (trace o))
  /\ state o = self.
Proof.
  intros name o. subst o. rewrite async_start_central_cases. fold name.
  destruct (BaseControlUnit._central self) as [central|];
    [destruct (CentralUnit_start central b) as [b' [e|]]|];
    simpl; split_and!; trace_facts.
Qed.

(** The fetch methods of the scheduler when the central unit of the control
    unit is not initialised. *)
Lemma scheduler_fetch_needs_central_aux (σ : HmScheduler.store)
    (now : datetime.datetime) (b : BState) (self : HmScheduler.t) :
  BaseControlUnit._central (σ (HmScheduler._control self)) = None ->
  let raised :=
    mk_outcome HmScheduler.t unit [] b self
      (Py.Raise (Py.Exception_ "homematicip_local.central not initialized")) in
  HmScheduler._async_fetch_data σ now b self = raised
  /\ HmScheduler._async_fetch_master_data σ now b self = raised.
Proof.
  intros Hnone raised. subst raised. split.
  - unfold HmScheduler._async_fetch_data.
    erewrite bind_silent; [|reflexivity].
    erewrite bind_raises; [|by rewrite read_central, Hnone]. reflexivity.
  - unfold HmScheduler._async_fetch_master_data.
    erewrite bind_silent; [|reflexivity].
    erewrite bind_raises; [|by rewrite read_central, Hnone]. reflexivity.
Qed.

(** X3: every fetch method of the scheduler reads the central unit of its
    control unit first; when that central unit is not initialised the method
    raises the exception of the property [central] at once, before it logs
    or awaits anything, and the scheduler is unchanged. *)
Theorem scheduler_fetch_needs_central (σ : HmScheduler.store)
    (now : datetime.datetime) (b : BState) (self : HmScheduler.t) :
  BaseControlUnit._central (σ (HmScheduler._control self)) = None ->
  let raised :=
    mk_outcome HmScheduler.t unit [] b self
      (Py.Raise (Py.Exception_ "homematicip_local.central not initialized")) in
  HmScheduler._async_fetch_data σ now b self = raised
  /\ HmScheduler.async_fetch_sysvars σ b self = raised
  /\ HmScheduler._async_fetch_master_data σ now b self = raised.
Proof.
  intros Hnone raised. subst raised.
  destruct (scheduler_fetch_needs_central_aux σ now b self Hnone) as [Hdata Hmaster].
  split_and!; [done | | done].
  by rewrite fetch_sysvars_cases, Hnone.
Qed.

(** X4: [_async_fetch_data] fetches the programs only after the fetch of the
    system variables has returned, from the same hub and in the state that
    fetch left the backend in; when the fetch of the system variables fails,
    the programs are not fetched. *)
Theorem program_fetch_follows_sysvar_fetch (σ : HmScheduler.store)
    (now : datetime.datetime) (b : BState) (self : HmScheduler.t)
    (hub : HmHub.t) (reply : Reply) :
  In (Await (fetch_program_data hub) reply)
     (trace (HmScheduler._async_fetch_data σ now b self)) ->
  hub = HmScheduler._hm_hub self
  /\ exists central b1,
       BaseControlUnit._central (σ (HmScheduler._control self)) = Some central
       /\ HmHub_fetch_sysvar_data hub b = (b1, None)
       /\ trace (HmScheduler._async_fetch_data σ now b self)
          = [ Log DEBUG "Scheduled fetching of programs and sysvars for %s"
                  [Py.Str_ (CentralUnit.name central)];
              Await (fetch_sysvar_data hub) Returned;
              Await (fetch_program_data hub) reply ]
       /\ HmHub_fetch_program_data hub b1
          = (backend (HmScheduler._async_fetch_data σ now b self),
             match reply with
             | Raised e => Some e
             | Returned => None
             end).
Proof.
  destruct (BaseControlUnit._central (σ (HmScheduler._control self)))
    as [central|] eqn:Hcentral.
  - rewrite (_async_fetch_data_cases σ now b self central Hcentral). cbv zeta.
    destruct (HmHub_fetch_sysvar_data (HmScheduler._hm_hub self) b)
      as [b1 [e|]] eqn:Hsysvar.
    + simpl. by intros [?|[?|[]]].
    + destruct (HmHub_fetch_program_data (HmScheduler._hm_hub self) b1)
        as [b2 [e|]] eqn:Hprogram; simpl;
        (intros [?|[?|[Heq|[]]]]; try done);
        injection Heq as <- <-;
        (split; [done|]); exists central, b1; by rewrite Hsysvar, Hprogram.
  - destruct (scheduler_fetch_needs_central_aux σ now b self Hcentral) as [-> _].
    by intros [].
Qed.

End StartAndFetch.

(** An instance: the scheduler of a control unit that was never
    initialised. *)
Lemma scheduler_fetch_needs_central_witness :
  @HmScheduler.async_fetch_sysvars sample.reliable sample.store 0%nat sample.scheduler
  = @mk_outcome sample.reliable HmScheduler.t unit [] 0%nat sample.scheduler
      (Py.Raise (Py.Exception_ "homematicip_local.central not initialized")).
Proof.
  destruct (@scheduler_fetch_needs_central sample.reliable sample.store 0 0%nat
              sample.scheduler eq_refl) as (_ & Hsysvars & _).
  exact Hsysvars.
Defined.

(** An instance: both fetches return. *)
Lemma program_fetch_follows_sysvar_fetch_witness :
  trace (@HmScheduler._async_fetch_data sample.reliable sample.connected_store 0
           0%nat sample.scheduler)
  = [ Log DEBUG "Scheduled fetching of programs and sysvars for %s" [Py.Str_ "xxx"];
      Await (fetch_sysvar_data sample.hub) Returned;
      Await (fetch_program_data sample.hub) Returned ].
Proof.
  destruct (@program_fetch_follows_sysvar_fetch sample.reliable
              sample.connected_store 0 0%nat sample.scheduler sample.hub Returned)
    as (_ & central & b1 & Hcentral & _ & Htrace & _).
  - vm_compute. tauto.
  - injection Hcentral as <-. exact Htrace.
Defined.

(** ** [_async_create_central]: the arguments that are not fields of the
    mapping, and the mappings that are accepted *)

Lemma substring_all (s : string) (m : nat) :
  (String.length s <= m)%nat -> substring 0 m s = s.
Proof.
  revert m. induction s as [|c s IH]; intros m Hm; destruct m; simpl in *;
    try done; try lia.
  f_equal. apply IH. lia.
Qed.

Lemma substring_drop (k : nat) :
  forall (s : string) (m : nat),
    (k <= String.length s)%nat -> (String.length s - k <= m)%nat ->
    exists p, s = String.append p (substring k m s) /\ String.length p = k.
Proof.
  induction k as [|k IH]; intros s m Hk Hm.
  - exists EmptyString. rewrite substring_all by lia. done.
  - destruct s as [|c s]; simpl in *; [lia|].
    destruct (IH s m) as (p & Hp & Hlen); [lia | lia |].
    exists (String c p). split.
    + change (String c s = String c (String.append p (substring k m s))).
      by f_equal.
    + simpl. by rewrite Hlen.
Qed.

Lemma append_length (p s : string) :
  String.length (String.append p s) = (String.length p + String.length s)%nat.
Proof. induction p as [|c p IH]; simpl; [done | by rewrite IH]. Qed.

(** [s[-n:]] is the end of [s], of [n] characters or all of [s]. *)
Lemma last_chars_suffix (n : nat) (s : string) :
  exists p,
    s = String.append p (Py.last_chars n s)
    /\ String.length (Py.last_chars n s) = Nat.min n (String.length s).
Proof.
  unfold Py.last_chars.
  destruct (substring_drop (String.length s - n) s n) as (p & Hp & Hlen);
    [lia | lia |].
  exists p. split; [done|].
  apply (f_equal String.length) in Hp.
  rewrite append_length in Hp. lia.
Qed.

Lemma substring_skip (p t : string) (k n : nat) :
  substring (String.length p + k) n (String.append p t) = substring k n t.
Proof. induction p as [|c p IH]; simpl; [done | exact IH]. Qed.

(** The end of a string is the end of its ending. *)
Lemma last_chars_append (n : nat) (p t : string) :
  (n <= String.length t)%nat ->
  Py.last_chars n (String.append p t) = Py.last_chars n t.
Proof.
  intros Hn. unfold Py.last_chars. rewrite append_length.
  replace (String.length p + String.length t - n)%nat
    with (String.length p + (String.length t - n))%nat by lia.
  apply substring_skip.
Qed.

Section CreateCentralMore.
Context `{Backend}.

(** X5: the arguments of [CentralConfig] that are no fields of the mapping,
    for an entry id of ASCII characters: [central_id] is the end of the entry
    id, its last 10 characters or all of it when it is shorter, so two entry
    ids that end in the same 10 or more characters give the same
    [central_id]; [storage_folder] is "hahm-mqtt"; [default_callback_port] is
    the control unit's; and every interface configuration carries the
    instance name as [central_name]. *)
Theorem central_config_fixed_arguments (b : BState) (self : BaseControlUnit.t)
    (config : CentralConfig.t) (reply : Reply) :
  is_ascii (BaseControlUnit._entry_id self) = true ->
  In (Await (get_central config) reply)
     (trace (BaseControlUnit._async_create_central b self)) ->
  (exists prefix,
      BaseControlUnit._entry_id self
      = String.append prefix (CentralConfig.central_id config))
  /\ String.length (CentralConfig.central_id config)
     = Nat.min 10 (String.length (BaseControlUnit._entry_id self))
  /\ CentralConfig.storage_folder config = "hahm-mqtt"
  /\ CentralConfig.default_callback_port config
     = BaseControlUnit._default_callback_port self
  /\ Forall (fun ic => InterfaceConfig.central_name ic
                       = BaseControlUnit._instance_name self)
            (CentralConfig.interface_configs config)
  /\ forall (other : BaseControlUnit.t) b' config' reply' (front front' ending : string),
       is_ascii (BaseControlUnit._entry_id other) = true ->
       In (Await (get_central config') reply')
          (trace (BaseControlUnit._async_create_central b' other)) ->
       BaseControlUnit._entry_id self = String.append front ending ->
       BaseControlUnit._entry_id other = String.append front' ending ->
       (10 <= String.length ending)%nat ->
       CentralConfig.central_id config' = CentralConfig.central_id config.
Proof.
  assert (Hbuilt : forall b0 self0 config0 reply0,
            In (Await (get_central config0) reply0)
               (trace (BaseControlUnit._async_create_central b0 self0)) ->
            builds self0 config0).
  { intros b0 self0 config0 reply0 Hin.
    destruct (create_central_cases b0 self0)
      as [[e Hcreate]|(config' & Hbuilds & Hcreate)]; rewrite Hcreate in Hin;
      [destruct Hin|].
    unfold await_get_central in Hin.
    destruct (CentralConfig_get_central config' b0) as [b' [e|c]];
      destruct Hin as [Heq|[]]; by injection Heq as <- _. }
  intros _ Hin. pose proof (Hbuilt _ _ _ _ Hin) as Hb.
  destruct Hb as (_ & Hfolder & _ & _ & _ & Hid & _ & _ & _ & _ & _ & Hport
                  & interfaces & names & _ & _ & Hall).
  destruct (last_chars_suffix 10 (BaseControlUnit._entry_id self)) as (p & Hp & Hlen).
  rewrite Hid. split_and!; try done.
  - by exists p.
  - clear -Hall. induction Hall as [|name ic names ics (Hname & _) _ IH];
      by constructor.
  - intros other b' config' reply' front front' ending _ Hin' Hself Hother Hlong.
    destruct (Hbuilt _ _ _ _ Hin') as (_ & _ & _ & _ & _ & Hid' & _).
    rewrite Hid', Hself, Hother. by rewrite !last_chars_append.
Qed.

(** The loop over the interface names when every entry is a dict with a
    port: it adds one configuration per name. *)
Lemma interface_loop_accepts (self : BaseControlUnit.t) (interfaces : Py.val)
    (names : list string) :
  forallb (interface_entry_ok interfaces) names = true ->
  forall (acc : list InterfaceConfig.t) (b : BState) (s : BaseControlUnit.t),
  exists configs,
    for_in names acc
      (fun interface_configs interface_name =>
         bind (lift (Py.Ok interfaces)) (fun interfaces =>
         bind (lift (Py.val_getitem interfaces interface_name)) (fun interface =>
         bind (lift (Py.val_getitem interface ATTR_PORT)) (fun port =>
         bind (lift (Py.val_get interface ATTR_PATH)) (fun path =>
         ret (interface_configs ++
              [ {| InterfaceConfig.central_name := BaseControlUnit._instance_name self;
                   InterfaceConfig.interface := interface_name;
                   InterfaceConfig.port := port;
                   InterfaceConfig.path := path |} ])))))) b s
    = mk_outcome _ _ [] b s (Py.Ok (acc ++ configs)).
Proof.
  intros Hok acc b s.
  destruct (interface_loop self interfaces names acc b s)
    as [[e Hloop]|(configs & Hloop & _)]; [|by exists configs].
  exfalso. revert acc Hloop.
  induction names as [|name names IH]; intros acc Hloop; [done|].
  simpl in Hok. apply andb_true_iff in Hok as [Hname Hnames].
  unfold interface_entry_ok in Hname.
  destruct (Py.val_getitem interfaces name) as [[| | | |entry]|] eqn:Hentry;
    try done.
  unfold has_key in Hname.
  destruct (Py.lookup entry ATTR_PORT) as [port|] eqn:Hport; [|done].
  simpl for_in in Hloop.
  erewrite bind_silent in Hloop;
    [|rewrite bind_lift_Ok, Hentry, bind_lift_Ok; simpl;
      unfold Py.getitem; rewrite Hport; reflexivity].
  by apply (IH Hnames _ Hloop).
Qed.

(** The mapping decides the outcome of [_async_create_central]. *)
Lemma create_central_by_acceptable (b : BState) (self : BaseControlUnit.t) :
  if acceptable (BaseControlUnit._config_data self)
  then exists config,
         builds self config
         /\ BaseControlUnit._async_create_central b self
            = await_get_central config b self
  else exists e,
         BaseControlUnit._async_create_central b self
         = mk_outcome _ _ [] b self (Py.Raise e).
Proof.
  set (data := BaseControlUnit._config_data self).
  assert (Hkey : forall key, has_key data key = true <->
                             exists v, Py.getitem data key = Py.Ok v).
  { intros key. unfold has_key, Py.getitem.
    destruct (Py.lookup data key) as [v|]; split; try done.
    - intros _. by exists v.
    - by intros [? ?]. }
  destruct (acceptable data) eqn:Hacc.
  - destruct (create_central_cases b self) as [[e Hcreate]|?]; [|done].
    exfalso. revert Hcreate.
    apply andb_true_iff in Hacc as [Hkeys Hifs].
    rewrite forallb_forall in Hkeys.
    assert (Hget : forall key, In key required_keys ->
                               exists v, Py.getitem data key = Py.Ok v).
    { intros key Hin. by apply Hkey, Hkeys. }
    destruct (Hget ATTR_INTERFACE) as [interfaces Hinterfaces]; [simpl; tauto|].
    destruct (Hget ATTR_HOST) as [host Hhost]; [simpl; tauto|].
    destruct (Hget ATTR_USERNAME) as [username Husername]; [simpl; tauto|].
    destruct (Hget ATTR_PASSWORD) as [password Hpassword]; [simpl; tauto|].
    destruct (Hget ATTR_TLS) as [tls Htls]; [simpl; tauto|].
    destruct (Hget ATTR_VERIFY_TLS) as [verify_tls Hverify_tls]; [simpl; tauto|].
    destruct (Hget ATTR_JSON_PORT) as [json_port Hjson_port]; [simpl; tauto|].
    unfold interfaces_ok in Hifs.
    assert (Hl : Py.lookup data ATTR_INTERFACE = Some interfaces).
    { unfold Py.getitem in Hinterfaces.
      by destruct (Py.lookup data ATTR_INTERFACE); [injection Hinterfaces as ->|]. }
    rewrite Hl in Hifs.
    destruct (Py.iter interfaces) as [names|] eqn:Hnames; [|done].
    unfold BaseControlUnit._async_create_central.
    erewrite bind_silent; [|reflexivity]. fold data.
    rewrite Hinterfaces, bind_lift_Ok, Hnames, bind_lift_Ok.
    destruct (interface_loop_accepts self interfaces names Hifs [] b self)
      as [configs Hloop].
    erewrite bind_silent; [|exact Hloop].
    rewrite Hhost, bind_lift_Ok, Husername, bind_lift_Ok, Hpassword, bind_lift_Ok,
      Htls, bind_lift_Ok, Hverify_tls, bind_lift_Ok, Hjson_port, bind_lift_Ok.
    unfold await_get_central.
    match goal with |- context [CentralConfig_get_central ?c b] =>
      by destruct (CentralConfig_get_central c b) as [b' [e'|central]] end.
  - destruct (create_central_cases b self) as [?|(config & Hbuilds & _)]; [done|].
    exfalso.
    destruct Hbuilds as (_ & _ & Hhost & Huser & Hpass & _ & Htls & Hverify & Hjson
                         & _ & _ & _ & interfaces & names & Hifs & Hnames & Hall).
    fold data in Hhost, Huser, Hpass, Htls, Hverify, Hjson, Hifs.
    unfold acceptable, required_keys in Hacc. simpl in Hacc.
    rewrite !(proj2 (Hkey _)) in Hacc by eauto. simpl in Hacc.
    unfold interfaces_ok in Hacc.
    assert (Hl : Py.lookup data ATTR_INTERFACE = Some interfaces).
    { unfold Py.getitem in Hifs.
      by destruct (Py.lookup data ATTR_INTERFACE); [injection Hifs as ->|]. }
    rewrite Hl, Hnames in Hacc.
    apply not_true_iff_false in Hacc. apply Hacc.
    clear -Hall. induction Hall as [|name ic names ics Hbuilt _ IH]; [done|].
    simpl. rewrite IH, andb_true_r.
    destruct Hbuilt as (_ & _ & entry & Hentry & Hport & Hpath).
    unfold interface_entry_ok. rewrite Hentry.
    destruct entry as [| | | |items]; try done.
    unfold has_key. simpl in Hport. unfold Py.getitem in Hport.
    by destruct (Py.lookup items ATTR_PORT).
Qed.

(** X6: which configuration mappings [_async_create_central] accepts. It
    awaits [get_central], once and as its only effect, exactly when the
    mapping has the keys [interface], [host], [username], [password], [tls],
    [verify_tls] and [json_port], and the value under [interface] can be
    iterated and each of its entries is a dict with a [port]
    ([callback_host], [callback_port] and an entry's [path] may be missing).
    Otherwise it raises without any effect: no event, no call of the
    backend, the control unit unchanged. *)
Theorem create_central_accepts_iff (b : BState) (self : BaseControlUnit.t) :
  ((exists config reply,
       trace (BaseControlUnit._async_create_central b self)
       = [Await (get_central config) reply])
   <-> acceptable (BaseControlUnit._config_data self) = true)
  /\ ((exists e,
          BaseControlUnit._async_create_central b self
          = mk_outcome _ _ [] b self (Py.Raise e))
      <-> acceptable (BaseControlUnit._config_data self) = false)
  /\ (forall key,
        In key required_keys ->
        Py.lookup (BaseControlUnit._config_data self) key = None ->
        acceptable (BaseControlUnit._config_data self) = false).
Proof.
  pose proof (create_central_by_acceptable b self) as Hcases.
  assert (Hawait : forall config,
            exists reply,
              trace (await_get_central (S := BaseControlUnit.t) config b self)
              = [Await (get_central config) reply]).
  { intros config. unfold await_get_central.
    destruct (CentralConfig_get_central config b) as [b' [e|c]]; by eauto. }
  split_and!.
  - destruct (acceptable _).
    + destruct Hcases as (config & _ & ->). split; [done|]. intros _.
      destruct (Hawait config) as [reply Hreply]. by exists config, reply.
    + destruct Hcases as [e ->]. split; [|done]. by intros (? & ? & ?).
  - destruct (acceptable _).
    + destruct Hcases as (config & _ & ->). split; [|done]. intros [e He].
      destruct (Hawait config) as [reply Hreply]. by rewrite He in Hreply.
    + split; [done|]. intros _. done.
  - intros key Hkey Hnone. unfold acceptable.
    apply andb_false_iff. left. apply not_true_iff_false. intros Hall.
    rewrite forallb_forall in Hall. specialize (Hall key Hkey).
    unfold has_key in Hall. by rewrite Hnone in Hall.
Qed.

End CreateCentralMore.

(** An instance: an entry id of 26 characters, of which the last 10 are
    kept. *)
Lemma central_config_fixed_arguments_witness :
  String.length sample_long_id.entry_id = 26%nat
  /\ CentralConfig.central_id sample_long_id.central_config = "R4T6B9YCDE"
  /\ (exists prefix,
        sample_long_id.entry_id
        = String.append prefix (CentralConfig.central_id sample_long_id.central_config))
  /\ String.length (CentralConfig.central_id sample_long_id.central_config) = 10%nat.
Proof.
  split; [reflexivity|]. split; [reflexivity|].
  destruct (@central_config_fixed_arguments sample.reliable 0%nat
              sample_long_id.base_unit sample_long_id.central_config Returned)
    as (Hsuffix & Hlength & _).
  - reflexivity.
  - left. reflexivity.
  - split; [exact Hsuffix | exact Hlength].
Defined.

(** ** The life of a control unit: the factory, start and stop *)

Section Lifecycle.
Context `{Backend}.

(** [BaseControlUnit.async_init_central], decided by the mapping. *)
Lemma base_init_by_acceptable (b : BState) (self : BaseControlUnit.t) :
  let o := BaseControlUnit.async_init_central b self in
  let logged := Log DEBUG "Init central unit %s" [BaseControlUnit._instance_name self] in
  if acceptable (BaseControlUnit._config_data self)
  then exists config,
         builds self config
         /\ o = match CentralConfig_get_central config b with
                | (b', inl e) =>
                    mk_outcome _ _ [logged; Await (get_central config) (Raised e)] b'
                               self (Py.Raise (Py.BackendError e))
                | (b', inr central) =>
                    mk_outcome _ _ [logged; Await (get_central config) Returned] b'
                               (BaseControlUnit.set__central (Some central) self)
                               (Py.Ok tt)
                end
  else exists e, o = mk_outcome _ _ [logged] b self (Py.Raise e).
Proof.
  intros o logged. subst o. unfold BaseControlUnit.async_init_central.
  erewrite bind_silent; [|reflexivity].
  erewrite bind_step; [|reflexivity].
  pose proof (create_central_by_acceptable b self) as Hcreate.
  destruct (acceptable _).
  - destruct Hcreate as (config & Hbuilds & Hcreate). exists config.
    split; [done|]. unfold await_get_central in Hcreate.
    destruct (CentralConfig_get_central config b) as [b' [e|central]].
    + erewrite bind_raises; [|exact Hcreate]. reflexivity.
    + erewrite bind_step; [|exact Hcreate]. reflexivity.
  - destruct Hcreate as [e Hcreate]. exists e.
    erewrite bind_raises; [reflexivity | exact Hcreate].
Qed.

(** [ControlUnit.async_init_central], decided by the mapping. *)
Lemma control_init_by_acceptable (b : BState) (self : ControlUnit.t) :
  let o := ControlUnit.async_init_central b self in
  let logged :=
    Log DEBUG "Init central unit %s"
        [BaseControlUnit._instance_name (ControlUnit.base self)] in
  if acceptable (BaseControlUnit._config_data (ControlUnit.base self))
  then exists config,
         builds (ControlUnit.base self) config
         /\ o = match CentralConfig_get_central config b with
                | (b', inl e) =>
                    mk_outcome _ _ [logged; Await (get_central config) (Raised e)] b'
                               self (Py.Raise (Py.BackendError e))
                | (b', inr central) =>
                    mk_outcome _ _ [logged; Await (get_central config) Returned] b'
                      (ControlUnit.set_base
                         (BaseControlUnit.set__central (Some (with_callbacks central))
                                                       (ControlUnit.base self))
                         self)
                      (Py.Ok tt)
                end
  else exists e, o = mk_outcome _ _ [logged] b self (Py.Raise e).
Proof.
  intros o logged. subst o. unfold ControlUnit.async_init_central.
  assert (Hself : ControlUnit.set_base (ControlUnit.base self) self = self)
    by by destruct self.
  pose proof (base_init_by_acceptable b (ControlUnit.base self)) as Hbase.
  simpl in Hbase.
  destruct (acceptable _).
  - destruct Hbase as (config & Hbuilds & Hbase). exists config. split; [done|].
    destruct (CentralConfig_get_central config b) as [b' [e|central]].
    + erewrite bind_raises; [reflexivity|].
      unfold ControlUnit.super, zoom. rewrite Hbase. simpl. by rewrite Hself.
    + erewrite bind_step;
        [|unfold ControlUnit.super, zoom; rewrite Hbase; reflexivity].
      reflexivity.
  - destruct Hbase as [e Hbase]. exists e.
    erewrite bind_raises; [reflexivity|].
    unfold ControlUnit.super, zoom. rewrite Hbase. simpl. by rewrite Hself.
Qed.

(** The constructor of [ControlUnit]. *)
Lemma control_unit_init_outcome (control_config : ControlConfig.t) (b : BState) :
  ControlUnit.__init__ control_config b tt
  = match Py.lookup (ControlConfig.data control_config) ATTR_INSTANCE_NAME with
    | Some name =>
        mk_outcome _ _ [] b tt
          (Py.Ok {| ControlUnit.base :=
                      {| BaseControlUnit._entry_id :=
                           ControlConfig.entry_id control_config;
                         BaseControlUnit._config_data :=
                           ControlConfig.data control_config;
                         BaseControlUnit._default_callback_port :=
                           ControlConfig.default_callback_port control_config;
                         BaseControlUnit._instance_name := name;
                         BaseControlUnit._central := None |};
                    ControlUnit._active_hm_entities := ∅;
                    ControlUnit._active_hm_hub_entities := ∅;
                    ControlUnit._scheduler := None |})
    | None => mk_outcome _ _ [] b tt (Py.Raise (Py.KeyError ATTR_INSTANCE_NAME))
    end.
Proof.
  unfold ControlUnit.__init__, BaseControlUnit.__init__, Py.getitem.
  by destruct (Py.lookup _ _).
Qed.

(** The factory [ControlConfig.async_get_control_unit], case by case. *)
Lemma factory_outcome (b : BState) (self : ControlConfig.t) :
  let o := ControlConfig_async_get_control_unit b self in
  match Py.lookup (ControlConfig.data self) ATTR_INSTANCE_NAME with
  | None => o = mk_outcome _ _ [] b self (Py.Raise (Py.KeyError ATTR_INSTANCE_NAME))
  | Some name =>
      let logged := Log DEBUG "Init central unit %s" [name] in
      let fresh :=
        {| BaseControlUnit._entry_id := ControlConfig.entry_id self;
           BaseControlUnit._config_data := ControlConfig.data self;
           BaseControlUnit._default_callback_port :=
             ControlConfig.default_callback_port self;
           BaseControlUnit._instance_name := name;
           BaseControlUnit._central := None |} in
      if acceptable (ControlConfig.data self)
      then exists config,
             builds fresh config
             /\ o = match CentralConfig_get_central config b with
                    | (b', inl e) =>
                        mk_outcome _ _
                          [logged; Await (get_central config) (Raised e)] b' self
                          (Py.Raise (Py.BackendError e))
                    | (b', inr central) =>
                        mk_outcome _ _
                          [logged; Await (get_central config) Returned] b' self
                          (Py.Ok {| ControlUnit.base :=
                                      BaseControlUnit.set__central
                                        (Some (with_callbacks central)) fresh;
                                    ControlUnit._active_hm_entities := ∅;
                                    ControlUnit._active_hm_hub_entities := ∅;
                                    ControlUnit._scheduler := None |})
                    end
      else exists e, o = mk_outcome _ _ [logged] b self (Py.Raise e)
  end.
Proof.
  intros o. subst o. unfold ControlConfig_async_get_control_unit.
  erewrite bind_silent; [|reflexivity].
  pose proof (control_unit_init_outcome self b) as Hinit.
  destruct (Py.lookup (ControlConfig.data self) ATTR_INSTANCE_NAME) as [name|].
  - erewrite bind_silent; [|unfold on_object; rewrite Hinit; reflexivity].
    cbv zeta.
    match goal with |- context [on_object ?u _] => set (unit_ := u) end.
    pose proof (control_init_by_acceptable b unit_) as Hcontrol.
    simpl in Hcontrol.
    destruct (acceptable _).
    + destruct Hcontrol as (config & Hbuilds & Hcontrol). exists config.
      split; [done|]. unfold on_object.
      destruct (CentralConfig_get_central config b) as [b' [e|central]].
      * erewrite bind_raises; [|exact Hcontrol]. reflexivity.
      * erewrite bind_step; [|exact Hcontrol]. reflexivity.
    + destruct Hcontrol as [e Hcontrol]. exists e. unfold on_object.
      erewrite bind_raises; [|exact Hcontrol]. reflexivity.
  - erewrite bind_raises; [|unfold on_object; rewrite Hinit; reflexivity].
    reflexivity.
Qed.

(** X7: the factory [ControlConfig.async_get_control_unit] never changes the
    configuration object. When it returns, the mapping has an
    [instance_name] and is accepted, [get_central] was awaited once and
    returned, after the one log record, and the control unit returned holds
    the fields of the configuration, the central unit of the backend with
    the three callbacks assigned, no active entity, no active hub entity and
    no scheduler. When it raises, either [instance_name] is missing
    ([KeyError], nothing logged or awaited), or the mapping is not accepted
    (only the log record, the backend not called), or [get_central] failed
    and its exception propagates. *)
Theorem factory_cases (b : BState) (self : ControlConfig.t) :
  let o := ControlConfig_async_get_control_unit b self in
  let data := ControlConfig.data self in
  let logged name := Log DEBUG "Init central unit %s" [name] in
  let fresh name :=
    {| BaseControlUnit._entry_id := ControlConfig.entry_id self;
       BaseControlUnit._config_data := data;
       BaseControlUnit._default_callback_port := ControlConfig.default_callback_port self;
       BaseControlUnit._instance_name := name;
       BaseControlUnit._central := None |} in
  state o = self
  /\ match result o with
     | Py.Ok control_unit =>
         exists name config central,
           Py.lookup data ATTR_INSTANCE_NAME = Some name
           /\ acceptable data = true
           /\ builds (fresh name) config
           /\ CentralConfig_get_central config b = (backend o, inr central)
           /\ trace o = [logged name; Await (get_central config) Returned]
           /\ control_unit
              = {| ControlUnit.base :=
                     BaseControlUnit.set__central (Some (with_callbacks central))
                                                  (fresh name);
                   ControlUnit._active_hm_entities := ∅;
                   ControlUnit._active_hm_hub_entities := ∅;
                   ControlUnit._scheduler := None |}
     | Py.Raise e =>
         (Py.lookup data ATTR_INSTANCE_NAME = None
          /\ e = Py.KeyError ATTR_INSTANCE_NAME
          /\ trace o = [] /\ backend o = b)
         \/ (exists name,
               Py.lookup data ATTR_INSTANCE_NAME = Some name
               /\ acceptable data = false
               /\ trace o = [logged name] /\ backend o = b)
         \/ (exists name config failure,
               Py.lookup data ATTR_INSTANCE_NAME = Some name
               /\ acceptable data = true
               /\ builds (fresh name) config
               /\ CentralConfig_get_central config b = (backend o, inl failure)
               /\ e = Py.BackendError failure
               /\ trace o = [logged name; Await (get_central config) (Raised failure)])
     end.
Proof.
  intros o data logged fresh. subst o data logged fresh.
  pose proof (factory_outcome b self) as Hcases. cbv zeta in Hcases.
  destruct (Py.lookup (ControlConfig.data self) ATTR_INSTANCE_NAME) as [name|].
  - destruct (acceptable (ControlConfig.data self)).
    + destruct Hcases as (config & Hbuilds & Hcases).
      destruct (CentralConfig_get_central config b) as [b' [e|central]] eqn:Hget;
        rewrite Hcases; simpl; (split; [done|]).
      * right; right. by exists name, config, e.
      * by exists name, config, central.
    + destruct Hcases as [e ->]. simpl. split; [done|]. right; left. by exists name.
  - rewrite Hcases. simpl. split; [done|]. by left.
Qed.

(** [ControlUnit.async_stop_central] in terms of the method of the base
    class. *)
Lemma control_stop_outcome (b : BState) (self : ControlUnit.t) :
  ControlUnit.async_stop_central b self
  = let o := BaseControlUnit.async_stop_central b (ControlUnit.base self) in
    mk_outcome _ _ (trace o) (backend o) self (result o).
Proof.
  assert (Hself : ControlUnit.set_base (ControlUnit.base self) self = self)
    by by destruct self.
  assert (Hbase : state (BaseControlUnit.async_stop_central b (ControlUnit.base self))
                  = ControlUnit.base self).
  { rewrite async_stop_central_cases. cbv zeta.
    destruct (BaseControlUnit._central (ControlUnit.base self)) as [central|];
      [|done].
    by destruct (CentralUnit_stop central b) as [b' [e|]]. }
  unfold ControlUnit.async_stop_central.
  erewrite bind_silent; [|reflexivity].
  erewrite bind_silent.
  - unfold ControlUnit.super, zoom. cbv zeta. by rewrite Hbase, Hself.
  - destruct (ControlUnit._scheduler self) as [s|] eqn:Hs; [|reflexivity].
    unfold ControlUnit.on_scheduler, zoom, HmScheduler.de_init, ret. simpl.
    f_equal. destruct self. simpl in *. by rewrite Hs.
Qed.

(** What stopping a control unit awaits. *)
Lemma control_stop_awaited (b : BState) (self : ControlUnit.t) :
  awaited (trace (ControlUnit.async_stop_central b self))
  = match BaseControlUnit._central (ControlUnit.base self) with
    | Some _ => [K_stop]
    | None => []
    end.
Proof.
  rewrite control_stop_outcome, async_stop_central_cases. cbv zeta.
  destruct (BaseControlUnit._central (ControlUnit.base self)) as [central|];
    [|done].
  by destruct (CentralUnit_stop central b) as [b' [e|]].
Qed.

(** X8: stopping a control unit is stopping its base, whatever scheduler it
    holds: [de_init] of the scheduler has no effect, so the events, the
    backend and the result are those of [BaseControlUnit.async_stop_central],
    the call [stop] of the central unit is awaited exactly when a central
    unit is initialised, and the control unit, its scheduler included, is
    left as it was. *)
Theorem control_stop_as_base_stop (b : BState) (self : ControlUnit.t) :
  let o := ControlUnit.async_stop_central b self in
  let o' := BaseControlUnit.async_stop_central b (ControlUnit.base self) in
  trace o = trace o'
  /\ backend o = backend o'
  /\ result o = result o'
  /\ state o = self
  /\ awaited (trace o)
     = match BaseControlUnit._central (ControlUnit.base self) with
       | Some _ => [K_stop]
       | None => []
       end
  /\ forall s,
       trace (ControlUnit.async_stop_central b (ControlUnit.set__scheduler s self))
       = trace o.
Proof.
  intros o o'. subst o o'. rewrite control_stop_awaited.
  rewrite !control_stop_outcome. cbv zeta.
  split_and!; try done.
  intros s. by rewrite control_stop_outcome.
Qed.

(** X9: a control unit that the factory returned. Starting it awaits [start]
    of its central unit and never logs that starting is not possible;
    stopping it awaits [stop]; and as the factory leaves [_scheduler] unset,
    [async_fetch_all_system_variables] only logs that the hub scheduler is
    not initialised and awaits nothing. *)
Theorem unit_from_factory (b : BState) (self : ControlConfig.t)
    (control_unit : ControlUnit.t) :
  result (ControlConfig_async_get_control_unit b self) = Py.Ok control_unit ->
  exists central,
    BaseControlUnit._central (ControlUnit.base control_unit) = Some central
    /\ (forall b',
          awaited (trace (ControlUnit.async_start_central b' control_unit)) = [K_start]
          /\ (exists reply,
                In (Await (start central) reply)
                   (trace (ControlUnit.async_start_central b' control_unit)))
          /\ (forall msg args,
                ~ In (Log EXCEPTION msg args)
                     (trace (ControlUnit.async_start_central b' control_unit))))
    /\ (forall b',
          awaited (trace (ControlUnit.async_stop_central b' control_unit)) = [K_stop])
    /\ (forall σ b',
          ControlUnit.async_fetch_all_system_variables σ b' control_unit
          = mk_outcome _ _
              [ Log DEBUG "Hub scheduler for %s is not initialized"
                    [BaseControlUnit._instance_name (ControlUnit.base control_unit)] ]
              b' control_unit (Py.Ok tt)).
Proof.
  intros Hok. pose proof (factory_outcome b self) as Hcases. cbv zeta in Hcases.
  destruct (Py.lookup (ControlConfig.data self) ATTR_INSTANCE_NAME) as [name|];
    [|by rewrite Hcases in Hok].
  destruct (acceptable _);
    [|destruct Hcases as [e Hcases]; by rewrite Hcases in Hok].
  destruct Hcases as (config & _ & Hcases).
  destruct (CentralConfig_get_central config b) as [b1 [e|central]];
    rewrite Hcases in Hok; [done|].
  injection Hok as <-. exists (with_callbacks central).
  split_and!; [done | | |].
  - intros b'. unfold ControlUnit.async_start_central, ControlUnit.super, zoom.
    rewrite async_start_central_cases. cbv zeta. simpl.
    destruct (CentralUnit_start (with_callbacks central) b') as [b2 [e|]]; simpl;
      (split_and!; [done | eexists; right; by left |]);
      intros msg args Hin; simpl in Hin; intuition discriminate.
  - intros b'. by rewrite control_stop_awaited.
  - intros σ b'. unfold ControlUnit.async_fetch_all_system_variables.
    erewrite bind_silent; [|reflexivity]. reflexivity.
Qed.

End Lifecycle.

(** An instance: the factory on the configuration of [example.py], the
    backend reliable. *)
Lemma unit_from_factory_witness :
  exists control_unit,
    result (@ControlConfig_async_get_control_unit sample.reliable 0%nat
              sample.control_config)
    = Py.Ok control_unit
    /\ awaited (trace (@ControlUnit.async_stop_central sample.reliable 1%nat
                         control_unit))
       = [K_stop].
Proof.
  eexists. split; [reflexivity|].
  edestruct (@unit_from_factory sample.reliable 0%nat sample.control_config)
    as (central & _ & _ & Hstop & _); [reflexivity|].
  apply Hstop.
Defined.

(** ** The queries for entities *)

Section Queries.
Context `{Backend} `{!BackendData}.

(** A loop that appends the elements that pass a test is a filter. *)
Lemma for_in_select {S X} (test : X -> bool) (xs : list X) (acc : list X) b (s : S) :
  for_in xs acc (fun acc x => if test x then ret (acc ++ [x]) else ret acc) b s
  = mk_outcome S _ [] b s (Py.Ok (acc ++ List.filter test xs)).
Proof.
  revert acc. induction xs as [|x xs IH]; intros acc.
  - simpl. by rewrite app_nil_r.
  - simpl for_in. unfold bind at 1. destruct (test x) eqn:Htest; simpl;
      rewrite IH, ?Htest; [by rewrite <- app_assoc | done].
Qed.

Lemma filter_bool_prop {X} (test : X -> bool) (P : X -> Prop)
    `{!forall x, Decision (P x)} (xs : list X) :
  (forall x, test x = true <-> P x) -> List.filter test xs = filter P xs.
Proof.
  intros Htest. induction xs as [|x xs IH]; [done|]. simpl.
  destruct (test x) eqn:Hx.
  - rewrite filter_cons_True by by apply Htest. by rewrite IH.
  - rewrite filter_cons_False; [done|]. intros HP%Htest. congruence.
Qed.

(** The property [central], read on a [ControlUnit]. *)
Lemma control_central_outcome (b : BState) (self : ControlUnit.t) :
  ControlUnit.central b self
  = match BaseControlUnit._central (ControlUnit.base self) with
    | Some central => mk_outcome _ _ [] b self (Py.Ok central)
    | None => mk_outcome _ _ [] b self (Py.Raise not_initialized)
    end.
Proof.
  unfold ControlUnit.central, ControlUnit.super, zoom, BaseControlUnit.central.
  erewrite bind_silent; [|reflexivity].
  destruct self as [base ? ? ?]. simpl.
  by destruct (BaseControlUnit._central base).
Qed.

(** [async_get_hm_entities_by_platform], as a filter. *)
Lemma hm_entities_by_platform_outcome (platform : HmPlatform) (b : BState)
    (self : ControlUnit.t) :
  ControlUnit.async_get_hm_entities_by_platform platform b self
  = match BaseControlUnit._central (ControlUnit.base self) with
    | Some central =>
        mk_outcome _ _ [] b self
          (Py.Ok (filter (is_listed platform) (CentralUnit_hm_entities central b)))
    | None => mk_outcome _ _ [] b self (Py.Raise not_initialized)
    end.
Proof.
  unfold ControlUnit.async_get_hm_entities_by_platform. cbv zeta.
  destruct (BaseControlUnit._central (ControlUnit.base self)) as [central|] eqn:Hc.
  - erewrite bind_silent; [|by rewrite control_central_outcome, Hc].
    erewrite bind_silent; [|reflexivity].
    erewrite bind_silent; [|apply for_in_select].
    unfold ret. simpl. do 2 f_equal. apply filter_bool_prop.
    intros entity. unfold is_listed.
    rewrite andb_true_iff, negb_true_iff, String.eqb_neq, String.eqb_eq. done.
  - erewrite bind_raises; [|by rewrite control_central_outcome, Hc]. reflexivity.
Qed.

(** [async_get_new_hm_entities_by_platform], as a filter. *)
Lemma new_hm_entities_by_platform_outcome (platform : HmPlatform) (b : BState)
    (self : ControlUnit.t) :
  ControlUnit.async_get_new_hm_entities_by_platform platform b self
  = match BaseControlUnit._central (ControlUnit.base self) with
    | Some central =>
        mk_outcome _ _ [] b self
          (Py.Ok (filter (is_new_listed self platform)
                         (CentralUnit_hm_entities central b)))
    | None => mk_outcome _ _ [] b self (Py.Raise not_initialized)
    end.
Proof.
  unfold ControlUnit.async_get_new_hm_entities_by_platform.
  erewrite bind_silent; [|reflexivity]. cbv zeta.
  destruct (BaseControlUnit._central (ControlUnit.base self)) as [central|] eqn:Hc.
  - erewrite bind_silent; [|by rewrite control_central_outcome, Hc].
    erewrite bind_silent; [|reflexivity].
    erewrite bind_silent; [|apply for_in_select].
    unfold ret. simpl. do 2 f_equal. apply filter_bool_prop.
    intros entity. unfold is_new_listed, active_unique_ids.
    rewrite !andb_true_iff, !negb_true_iff, str_in_false, String.eqb_neq,
      String.eqb_eq. tauto.
  - erewrite bind_raises; [|by rewrite control_central_outcome, Hc]. reflexivity.
Qed.

(** X10: the two queries by platform over the entities of the central unit.
    Both raise the exception of the property [central] exactly when the
    central unit is not initialised, and have no effect. Otherwise
    [async_get_hm_entities_by_platform] returns, in the order of the central
    unit, the entities of the platform whose usage is not
    [ENTITY_NO_CREATE], and [async_get_new_hm_entities_by_platform] returns
    those of them whose unique identifier is that of no active entity: the
    new entities are a sublist of all entities, and with no active entity
    the two queries agree. *)
Theorem entities_by_platform (platform : HmPlatform) (b : BState)
    (self : ControlUnit.t) :
  let all := ControlUnit.async_get_hm_entities_by_platform platform b self in
  let new := ControlUnit.async_get_new_hm_entities_by_platform platform b self in
  trace all = [] /\ backend all = b /\ state all = self
  /\ trace new = [] /\ backend new = b /\ state new = self
  /\ match BaseControlUnit._central (ControlUnit.base self) with
     | None =>
         result all = Py.Raise not_initialized
         /\ result new = Py.Raise not_initialized
     | Some central =>
         let entities := CentralUnit_hm_entities central b in
         exists listed new_listed,
           result all = Py.Ok listed
           /\ result new = Py.Ok new_listed
           /\ listed = filter (is_listed platform) entities
           /\ new_listed = filter (is_new_listed self platform) entities
           /\ sublist new_listed listed
           /\ sublist listed entities
           /\ (ControlUnit._active_hm_entities self = ∅ -> new_listed = listed)
     end.
Proof.
  intros all new. subst all new.
  rewrite hm_entities_by_platform_outcome, new_hm_entities_by_platform_outcome.
  destruct (BaseControlUnit._central (ControlUnit.base self)) as [central|];
    [|done].
  split_and!; try done. cbv zeta.
  set (entities := CentralUnit_hm_entities central b).
  exists (filter (is_listed platform) entities),
         (filter (is_new_listed self platform) entities).
  split_and!; try done.
  - clear. induction entities as [|entity entities IH]; [done|].
    destruct (decide (is_new_listed self platform entity)) as [Hnew|Hold].
    + rewrite (filter_cons_True (is_new_listed self platform)) by done.
      rewrite (filter_cons_True (is_listed platform))
        by (destruct Hnew as (? & _ & ?); by split).
      by apply sublist_skip.
    + rewrite (filter_cons_False (is_new_listed self platform)) by done.
      destruct (decide (is_listed platform entity)).
      * rewrite (filter_cons_True (is_listed platform)) by done.
        by apply sublist_cons.
      * by rewrite (filter_cons_False (is_listed platform)) by done.
  - apply sublist_filter.
  - intros Hempty. apply list_filter_iff. intros entity.
    unfold is_new_listed, is_listed, active_unique_ids.
    rewrite Hempty, map_to_list_empty. simpl.
    split; [tauto|]. intros [? ?]. split_and!; try done. apply not_elem_of_nil.
Qed.

End Queries.

Section HubQueries.
Context `{Backend} `{!BackendData}.

Lemma is_new_hub_test (self : ControlUnit.t) (hub_entity : HubEntity.t) :
  negb (str_in (HubEntity.unique_identifier hub_entity)
               (active_hub_unique_ids self)) = true
  <-> is_new_hub self hub_entity.
Proof. unfold is_new_hub. by rewrite negb_true_iff, str_in_false. Qed.

(** [self.central.hub] *)
Lemma central_hub_outcome (b : BState) (self : ControlUnit.t) :
  ControlUnit.central_hub b self
  = match BaseControlUnit._central (ControlUnit.base self) with
    | Some central => mk_outcome _ _ [] b self (Py.Ok (CentralUnit_hub central b))
    | None => mk_outcome _ _ [] b self (Py.Raise not_initialized)
    end.
Proof.
  unfold ControlUnit.central_hub.
  destruct (BaseControlUnit._central (ControlUnit.base self)) as [central|] eqn:Hc.
  - erewrite bind_silent; [|by rewrite control_central_outcome, Hc].
    erewrite bind_silent; [|reflexivity]. reflexivity.
  - erewrite bind_raises; [|by rewrite control_central_outcome, Hc]. reflexivity.
Qed.

(** [self.central.hub.<attribute>] with a hub. *)
Lemma central_hub_attribute_outcome {A} (attribute : HmHub.t -> BState -> A)
    (b : BState) (self : ControlUnit.t) (central : CentralUnit.t) (hub : HmHub.t) :
  BaseControlUnit._central (ControlUnit.base self) = Some central ->
  CentralUnit_hub central b = Some hub ->
  ControlUnit.central_hub_attribute attribute b self
  = mk_outcome _ _ [] b self (Py.Ok (attribute hub b)).
Proof.
  intros Hc Hhub. unfold ControlUnit.central_hub_attribute.
  erewrite bind_silent; [|by rewrite central_hub_outcome, Hc, Hhub].
  cbv beta iota.
  erewrite bind_silent; [|reflexivity]. reflexivity.
Qed.

(** [async_get_new_hm_hub_entities_by_platform], case by case. *)
Lemma new_hub_entities_by_platform_outcome (platform : HmPlatform) (b : BState)
    (self : ControlUnit.t) :
  ControlUnit.async_get_new_hm_hub_entities_by_platform platform b self
  = match BaseControlUnit._central (ControlUnit.base self) with
    | None => mk_outcome _ _ [] b self (Py.Raise not_initialized)
    | Some central =>
        match CentralUnit_hub central b with
        | None =>
            mk_outcome _ _
              [ Log DEBUG
                  "async_get_new_hm_sysvar_entities_by_platform: central.hub is not ready for %s"
                  [Py.Str_ (CentralUnit.name central)] ]
              b self (Py.Ok [])
        | Some hub =>
            mk_outcome _ _ [] b self
              (Py.Ok (filter (is_new_hub_listed self platform)
                             (HmHub_program_entities hub b
                              ++ HmHub_sysvar_entities hub b)))
        end
    end.
Proof.
  assert (Htest : forall hub_entity,
            negb (str_in (HubEntity.unique_identifier hub_entity)
                         (active_hub_unique_ids self))
            && String.eqb (HubEntity.platform hub_entity) platform = true
            <-> is_new_hub_listed self platform hub_entity).
  { intros hub_entity. unfold is_new_hub_listed.
    by rewrite andb_true_iff, is_new_hub_test, String.eqb_eq. }
  unfold ControlUnit.async_get_new_hm_hub_entities_by_platform.
  erewrite bind_silent; [|reflexivity]. cbv zeta.
  fold (active_hub_unique_ids self).
  destruct (BaseControlUnit._central (ControlUnit.base self)) as [central|] eqn:Hc;
    [|erewrite bind_raises; [|by rewrite central_hub_outcome, Hc]; reflexivity].
  erewrite bind_silent; [|by rewrite central_hub_outcome, Hc].
  destruct (CentralUnit_hub central b) as [hub|] eqn:Hhub.
  - erewrite bind_silent; [|by eapply central_hub_attribute_outcome].
    erewrite bind_silent; [|apply for_in_select].
    erewrite bind_silent; [|by eapply central_hub_attribute_outcome].
    erewrite bind_silent; [|apply for_in_select].
    unfold ret. do 2 f_equal. simpl.
    rewrite filter_app. by rewrite !(filter_bool_prop _ _ _ Htest).
  - erewrite bind_silent; [|by rewrite control_central_outcome, Hc].
    erewrite bind_step; [|reflexivity]. reflexivity.
Qed.

(** X11: [async_get_new_hm_hub_entities_by_platform] never awaits and never
    changes the control unit. Without a central unit it raises the exception
    of the property [central]. When the central unit has no hub it returns
    the empty list, and this is the only case in which it logs: one debug
    record that the hub is not ready. Otherwise it returns the program
    entities followed by the system variable entities of the hub, each in
    the hub's order, that have the platform and whose unique identifier is
    that of no active hub entity. *)
Theorem new_hub_entities_by_platform (platform : HmPlatform) (b : BState)
    (self : ControlUnit.t) :
  let o := ControlUnit.async_get_new_hm_hub_entities_by_platform platform b self in
  awaited (trace o) = [] /\ backend o = b /\ state o = self
  /\ ((exists e, result o = Py.Raise e)
      <-> BaseControlUnit._central (ControlUnit.base self) = None)
  /\ match BaseControlUnit._central (ControlUnit.base self) with
     | None => trace o = [] /\ result o = Py.Raise not_initialized
     | Some central =>
         match CentralUnit_hub central b with
         | None =>
             trace o
             = [ Log DEBUG
                   "async_get_new_hm_sysvar_entities_by_platform: central.hub is not ready for %s"
                   [Py.Str_ (CentralUnit.name central)] ]
             /\ result o = Py.Ok []
         | Some hub =>
             trace o = []
             /\ result o
                = Py.Ok (filter (is_new_hub_listed self platform)
                                (HmHub_program_entities hub b)
                         ++ filter (is_new_hub_listed self platform)
                                   (HmHub_sysvar_entities hub b))
         end
     end.
Proof.
  intros o. subst o. rewrite new_hub_entities_by_platform_outcome.
  destruct (BaseControlUnit._central (ControlUnit.base self)) as [central|].
  - destruct (CentralUnit_hub central b) as [hub|]; simpl;
      rewrite ?filter_app; split_and!; try done;
      split; try done; by intros [? ?].
  - simpl. split_and!; try done. split; [done|]. by eexists.
Qed.

(** The first loop of [async_get_new_hm_hub_entities]. *)
Lemma init_hub_dict_lookup (platforms : list HmPlatform)
    (d : gmap HmPlatform (list HubEntity.t)) (p : HmPlatform) :
  fold_left (fun d hm_platform => <[hm_platform := []]> d) platforms d !! p
  = if decide (p ∈ platforms) then Some [] else d !! p.
Proof.
  revert d. induction platforms as [|q platforms IH]; intros d.
  - by rewrite decide_False by apply not_elem_of_nil.
  - change (fold_left _ (q :: platforms) d)
      with (fold_left (fun d hm_platform => <[hm_platform := []]> d) platforms
                      (<[q := []]> d)).
    rewrite IH.
    destruct (decide (p ∈ platforms)) as [Hin|Hnotin].
    + by rewrite decide_True by by right.
    + destruct (decide (p = q)) as [->|Hne].
      * rewrite decide_True by by left. apply lookup_insert_eq.
      * rewrite decide_False by (by intros [?|?]%elem_of_cons).
        by apply lookup_insert_ne.
Qed.

(** The second loop of [async_get_new_hm_hub_entities]: it files every new
    hub entity under its platform, and raises at the first one whose
    platform is no key. *)
Lemma hub_collect_loop (self : ControlUnit.t) (new_hub_entities : list HubEntity.t) :
  forall (d : gmap HmPlatform (list HubEntity.t)) (b : BState) (s : ControlUnit.t),
    (forall p, is_Some (d !! p) <-> p ∈ AVAILABLE_HM_HUB_PLATFORMS) ->
    let o :=
      for_in new_hub_entities d
        (fun hm_hub_entities hub_entity =>
           if negb (str_in (HubEntity.unique_identifier hub_entity)
                           (active_hub_unique_ids self))
           then
             match hm_hub_entities !! HubEntity.platform hub_entity with
             | Some entities =>
                 ret (<[HubEntity.platform hub_entity := entities ++ [hub_entity]]>
                        hm_hub_entities)
             | None => raise (Py.KeyError (HubEntity.platform hub_entity))
             end
           else ret hm_hub_entities) b s in
    (Forall (can_file self) new_hub_entities
     /\ exists d',
          o = mk_outcome _ _ [] b s (Py.Ok d')
          /\ forall p,
               d' !! p
               = (fun l => l ++ filter (is_new_hub_listed self p) new_hub_entities)
                   <$> (d !! p))
    \/ (exists pre hub_entity post,
          new_hub_entities = pre ++ hub_entity :: post
          /\ Forall (can_file self) pre
          /\ ~ can_file self hub_entity
          /\ o = mk_outcome _ _ [] b s
                   (Py.Raise (Py.KeyError (HubEntity.platform hub_entity)))).
Proof.
  induction new_hub_entities as [|hub_entity new_hub_entities IH];
    intros d b s Hkeys o; subst o.
  - left. split; [done|]. exists d. split; [done|]. intros p.
    rewrite filter_nil. destruct (d !! p); simpl; [by rewrite app_nil_r | done].
  - simpl for_in. unfold bind.
    destruct (negb (str_in (HubEntity.unique_identifier hub_entity)
                           (active_hub_unique_ids self))) eqn:Htest.
    + apply is_new_hub_test in Htest as Hnew.
      destruct (d !! HubEntity.platform hub_entity) as [entities|] eqn:Hentities.
      * assert (Hcan : can_file self hub_entity)
          by (intros _; apply Hkeys; by eauto).
        simpl.
        destruct (IH (<[HubEntity.platform hub_entity := entities ++ [hub_entity]]> d)
                     b s)
          as [(Hall & d' & Hrun & Hd')|(pre & bad & post & -> & Hpre & Hbad & Hrun)].
        { intros p. destruct (decide (HubEntity.platform hub_entity = p)) as [<-|Hne].
          - rewrite lookup_insert_eq.
            split; [intros _; apply Hkeys; by eauto | by eauto].
          - rewrite lookup_insert_ne by done. apply Hkeys. }
        -- left. split; [by constructor|]. exists d'. split; [by rewrite Hrun|].
           intros p. rewrite Hd'.
           destruct (decide (HubEntity.platform hub_entity = p)) as [<-|Hne].
           ++ rewrite lookup_insert_eq, Hentities. simpl.
              rewrite filter_cons_True by done. by rewrite <- app_assoc.
           ++ rewrite lookup_insert_ne by done.
              by rewrite filter_cons_False by (by intros [_ ?]).
        -- right. exists (hub_entity :: pre), bad, post.
           split_and!; [done | by constructor | done | by rewrite Hrun].
      * right. exists [], hub_entity, new_hub_entities.
        split_and!; [done | done | | done].
        intros Hcan. specialize (Hcan Hnew). apply Hkeys in Hcan.
        rewrite Hentities in Hcan. by destruct Hcan.
    + assert (Hold : ~ is_new_hub self hub_entity).
      { intros Hnew%is_new_hub_test. congruence. }
      assert (Hcan : can_file self hub_entity) by (by intros ?).
      simpl.
      destruct (IH d b s Hkeys)
        as [(Hall & d' & Hrun & Hd')|(pre & bad & post & -> & Hpre & Hbad & Hrun)].
      * left. split; [by constructor|]. exists d'. split; [by rewrite Hrun|].
        intros p. rewrite Hd'.
        by rewrite filter_cons_False by (by intros [? _]).
      * right. exists (hub_entity :: pre), bad, post.
        split_and!; [done | by constructor | done | by rewrite Hrun].
Qed.

(** [async_get_new_hm_hub_entities]: it returns a mapping, or raises at the
    first hub entity it cannot file. *)
Lemma new_hub_entities_outcome (b : BState) (self : ControlUnit.t)
    (new_hub_entities : list HubEntity.t) :
  (Forall (can_file self) new_hub_entities
   /\ exists hm_hub_entities : gmap HmPlatform (list HubEntity.t),
        ControlUnit.async_get_new_hm_hub_entities new_hub_entities b self
        = mk_outcome _ _ [] b self (Py.Ok hm_hub_entities)
        /\ forall p,
             hm_hub_entities !! p
             = if decide (p ∈ AVAILABLE_HM_HUB_PLATFORMS)
               then Some (filter (is_new_hub_listed self p) new_hub_entities)
               else None)
  \/ (exists pre hub_entity post,
        new_hub_entities = pre ++ hub_entity :: post
        /\ Forall (can_file self) pre
        /\ ~ can_file self hub_entity
        /\ ControlUnit.async_get_new_hm_hub_entities new_hub_entities b self
           = mk_outcome _ _ [] b self
               (Py.Raise (Py.KeyError (HubEntity.platform hub_entity)))).
Proof.
  set (d0 := fold_left (fun d hm_platform => <[hm_platform := []]> d)
                       AVAILABLE_HM_HUB_PLATFORMS
                       (∅ : gmap HmPlatform (list HubEntity.t))).
  assert (Hd0 : forall p, d0 !! p = if decide (p ∈ AVAILABLE_HM_HUB_PLATFORMS)
                                    then Some [] else None).
  { intros p. unfold d0. by rewrite init_hub_dict_lookup, lookup_empty. }
  unfold ControlUnit.async_get_new_hm_hub_entities.
  erewrite bind_silent; [|reflexivity]. cbv zeta.
  erewrite bind_silent; [|apply for_in_ret].
  fold (active_hub_unique_ids self). fold d0.
  destruct (hub_collect_loop self new_hub_entities d0 b self)
    as [(Hall & d' & Hrun & Hd')|(pre & bad & post & -> & Hpre & Hbad & Hrun)].
  { intros p. rewrite Hd0. destruct (decide (p ∈ AVAILABLE_HM_HUB_PLATFORMS));
      split; try done; by intros [? ?]. }
  - erewrite bind_silent; [|exact Hrun].
    left. split; [done|]. exists d'. split; [done|].
    intros p. rewrite Hd', Hd0.
    by destruct (decide (p ∈ AVAILABLE_HM_HUB_PLATFORMS)).
  - erewrite bind_raises; [|exact Hrun].
    right. by exists pre, bad, post.
Qed.

(** X12: [async_get_new_hm_hub_entities] has no effect, and it returns
    exactly when every input hub entity that is not active has a platform of
    [AVAILABLE_HM_HUB_PLATFORMS]: then the keys of the mapping are these
    platforms and under each one are, in input order, the input hub
    entities of the platform that are not active. Otherwise it raises
    [KeyError] with the platform of the first such entity of another
    platform: unlike [async_get_new_hm_entities], it does not skip the
    entities it has no key for. *)
Theorem new_hub_entities_cases (b : BState) (self : ControlUnit.t)
    (new_hub_entities : list HubEntity.t) :
  let o := ControlUnit.async_get_new_hm_hub_entities new_hub_entities b self in
  trace o = [] /\ backend o = b /\ state o = self
  /\ ((Forall (can_file self) new_hub_entities
       /\ exists hm_hub_entities : gmap HmPlatform (list HubEntity.t),
            result o = Py.Ok hm_hub_entities
            /\ dom hm_hub_entities = list_to_set AVAILABLE_HM_HUB_PLATFORMS
            /\ forall p, p ∈ AVAILABLE_HM_HUB_PLATFORMS ->
                 hm_hub_entities !! p
                 = Some (filter (is_new_hub_listed self p) new_hub_entities))
      \/ (exists pre hub_entity post,
            new_hub_entities = pre ++ hub_entity :: post
            /\ Forall (can_file self) pre
            /\ is_new_hub self hub_entity
            /\ (HubEntity.platform hub_entity ∉ AVAILABLE_HM_HUB_PLATFORMS)
            /\ result o = Py.Raise (Py.KeyError (HubEntity.platform hub_entity)))).
Proof.
  intros o. subst o.
  destruct (new_hub_entities_outcome b self new_hub_entities)
    as [(Hall & d & -> & Hd)|(pre & bad & post & Hsplit & Hpre & Hbad & ->)].
  - split_and!; try done. left. split; [done|]. exists d.
    split_and!; [done | |].
    + apply set_eq. intros p. rewrite elem_of_dom, elem_of_list_to_set, Hd.
      destruct (decide (p ∈ AVAILABLE_HM_HUB_PLATFORMS));
        split; try done; by intros [? ?].
    + intros p Hp. rewrite Hd. by rewrite decide_True by done.
  - split_and!; try done. right. exists pre, bad, post.
    unfold can_file in Hbad.
    split_and!; try done.
    + destruct (decide (is_new_hub self bad)); [done|]. exfalso. by apply Hbad.
    + intros Hin. by apply Hbad.
Qed.

End HubQueries.

(** ** Discovery and registration of entities *)

Section Discovery.
Context `{Backend} `{!BackendData}.

(** [async_get_new_hm_entities]: it returns, and what is under each key. *)
Lemma new_hm_entities_outcome (b : BState) (self : ControlUnit.t)
    (new_entities : list BaseEntity.t) :
  exists hm_entities : gmap HmPlatform (list BaseEntity.t),
    ControlUnit.async_get_new_hm_entities new_entities b self
    = mk_outcome _ _ [] b self (Py.Ok hm_entities)
    /\ forall p,
         hm_entities !! p
         = if decide (p ∈ AVAILABLE_HM_PLATFORMS)
           then Some (filter (fun e => is_new self e /\ BaseEntity.platform e = p)
                             new_entities)
           else None.
Proof.
  set (d0 := fold_left (fun d hm_platform => <[hm_platform := []]> d)
                       AVAILABLE_HM_PLATFORMS (∅ : gmap HmPlatform (list BaseEntity.t))).
  assert (Hd0 : forall p, d0 !! p = if decide (p ∈ AVAILABLE_HM_PLATFORMS)
                                    then Some [] else None).
  { intros p. unfold d0. by rewrite init_dict_lookup, lookup_empty. }
  destruct (collect_loop self new_entities d0 b self) as (d' & Hrun & Hd').
  { intros p [Hp _]%hmip_local_platforms_spec. rewrite Hd0.
    rewrite decide_True by done. by eauto. }
  exists d'. split.
  - unfold ControlUnit.async_get_new_hm_entities.
    erewrite bind_silent; [|reflexivity].
    erewrite bind_silent; [|apply for_in_ret].
    erewrite bind_silent; [|exact Hrun].
    reflexivity.
  - intros p. rewrite Hd', Hd0. by destruct (decide (p ∈ AVAILABLE_HM_PLATFORMS)).
Qed.

(** X13: the two ways to ask for the new entities of a platform. Given the
    entities of the central unit, [async_get_new_hm_entities] has under a
    platform of [HMIP_LOCAL_PLATFORMS] exactly the list that
    [async_get_new_hm_entities_by_platform] returns for it. For another
    platform the two differ: the by-platform query does not look at
    [HMIP_LOCAL_PLATFORMS], while the mapping has the empty list (a platform
    of the backend) or no key. *)
Theorem new_entities_two_ways (platform : HmPlatform) (b : BState)
    (self : ControlUnit.t) (central : CentralUnit.t) :
  BaseControlUnit._central (ControlUnit.base self) = Some central ->
  exists hm_entities new_listed,
    result (ControlUnit.async_get_new_hm_entities
              (CentralUnit_hm_entities central b) b self)
    = Py.Ok hm_entities
    /\ result (ControlUnit.async_get_new_hm_entities_by_platform platform b self)
       = Py.Ok new_listed
    /\ new_listed
       = filter (is_new_listed self platform) (CentralUnit_hm_entities central b)
    /\ hm_entities !! platform
       = if decide (platform ∈ HMIP_LOCAL_PLATFORMS) then Some new_listed
         else if decide (platform ∈ AVAILABLE_HM_PLATFORMS) then Some []
              else None.
Proof.
  intros Hcentral.
  destruct (new_hm_entities_outcome b self (CentralUnit_hm_entities central b))
    as (d & Hrun & Hd).
  exists d, (filter (is_new_listed self platform) (CentralUnit_hm_entities central b)).
  rewrite Hrun, new_hm_entities_by_platform_outcome, Hcentral.
  split_and!; try done.
  rewrite Hd.
  destruct (decide (platform ∈ HMIP_LOCAL_PLATFORMS)) as [Hlocal|Hother].
  - apply hmip_local_platforms_spec in Hlocal as Hboth.
    rewrite decide_True by apply Hboth. f_equal.
    apply list_filter_iff. intros entity. unfold is_new, is_new_listed.
    split; [tauto|]. intros (? & ? & Heq). rewrite Heq. tauto.
  - destruct (decide (platform ∈ AVAILABLE_HM_PLATFORMS)); [|done]. f_equal.
    clear -Hother. generalize (CentralUnit_hm_entities central b).
    intros entities. induction entities as [|entity entities IH]; [done|].
    rewrite filter_cons_False; [exact IH|].
    intros [(_ & _ & Hlocal) Heq]. apply Hother. by rewrite <- Heq.
Qed.

Lemma active_unique_ids_insert (self : ControlUnit.t) (entity_id : string)
    (hm_entity : BaseEntity.t) (uid : string) :
  ControlUnit._active_hm_entities self !! entity_id = None ->
  uid ∈ active_unique_ids
          (ControlUnit.set__active_hm_entities
             (<[entity_id := hm_entity]> (ControlUnit._active_hm_entities self)) self)
  <-> uid = BaseEntity.unique_identifier hm_entity \/ uid ∈ active_unique_ids self.
Proof.
  intros Hfresh. rewrite !active_unique_ids_spec. simpl. split.
  - intros (k & active & Hk & Huid).
    destruct (decide (k = entity_id)) as [->|Hne].
    + rewrite lookup_insert_eq in Hk. injection Hk as <-. by left.
    + rewrite lookup_insert_ne in Hk by done. right. by exists k, active.
  - intros [->|(k & active & Hk & Huid)].
    + exists entity_id, hm_entity. by rewrite lookup_insert_eq.
    + exists k, active. split; [|done].
      rewrite lookup_insert_ne; [done|]. intros <-. congruence.
Qed.

(** X14: registering an entity under a fresh id, and what follows. The
    entity is then returned by [async_get_hm_entity]; entities with its
    unique identifier are no longer new, and nothing else changes in what
    [async_get_new_hm_entities] returns: under every key is the list from
    before without the entities of that unique identifier. Removing the id
    again restores the control unit. *)
Theorem register_round_trip (b : BState) (self : ControlUnit.t)
    (entity_id : string) (hm_entity : BaseEntity.t) :
  ControlUnit._active_hm_entities self !! entity_id = None ->
  let registered :=
    state (ControlUnit.async_add_hm_entity entity_id hm_entity b self) in
  (forall b', result (ControlUnit.async_get_hm_entity entity_id b' registered)
              = Py.Ok (Some hm_entity))
  /\ (forall b' new_entities,
        exists before after,
          result (ControlUnit.async_get_new_hm_entities new_entities b' self)
          = Py.Ok before
          /\ result (ControlUnit.async_get_new_hm_entities new_entities b' registered)
             = Py.Ok after
          /\ forall p,
               after !! p
               = filter (fun e => BaseEntity.unique_identifier e
                                  <> BaseEntity.unique_identifier hm_entity)
                   <$> before !! p)
  /\ (forall b',
        ControlUnit.async_remove_hm_entity entity_id b' registered
        = mk_outcome _ _ [] b' self (Py.Ok tt)).
Proof.
  intros Hfresh registered. subst registered. rewrite add_hm_entity_outcome.
  simpl state.
  set (registered := ControlUnit.set__active_hm_entities _ self).
  split_and!.
  - intros b'. unfold ControlUnit.async_get_hm_entity.
    erewrite bind_silent; [|reflexivity]. unfold ret. simpl.
    by rewrite lookup_insert_eq.
  - intros b' new_entities.
    destruct (new_hm_entities_outcome b' self new_entities) as (before & -> & Hbefore).
    destruct (new_hm_entities_outcome b' registered new_entities)
      as (after & -> & Hafter).
    exists before, after. split_and!; try done.
    intros p. rewrite Hafter, Hbefore.
    destruct (decide (p ∈ AVAILABLE_HM_PLATFORMS)); [|done]. simpl. f_equal.
    rewrite list_filter_filter. apply list_filter_iff. intros entity.
    unfold is_new.
    pose proof (active_unique_ids_insert self entity_id hm_entity
                  (BaseEntity.unique_identifier entity) Hfresh) as Hids.
    fold registered in Hids. tauto.
  - intros b'. rewrite remove_hm_entity_outcome. simpl.
    rewrite lookup_insert_eq, delete_insert_id by done.
    by destruct self.
Qed.

End Discovery.

(** An instance: the entities of the central unit and the platform
    [switch]. *)
Lemma new_entities_two_ways_witness :
  exists hm_entities,
    result (@ControlUnit.async_get_new_hm_entities sample.reliable
              [ sample_entities.switch; sample_entities.hidden_switch;
                sample_entities.sensor ] 0%nat sample_entities.connected_unit)
    = Py.Ok hm_entities
    /\ hm_entities !! "switch" = Some [ sample_entities.switch ].
Proof.
  destruct (@new_entities_two_ways sample.reliable sample_entities.data "switch"
              0%nat sample_entities.connected_unit sample.central eq_refl)
    as (hm_entities & new_listed & Hdict & _ & -> & Hswitch).
  exists hm_entities. split; [exact Hdict|]. exact Hswitch.
Defined.

(** An instance: a switch registered in a control unit without active
    entities. *)
Lemma register_round_trip_witness :
  @ControlUnit.async_remove_hm_entity sample.reliable "switch.one" 1%nat
    (state (@ControlUnit.async_add_hm_entity sample.reliable "switch.one"
              sample_entities.switch 0%nat sample.control_unit))
  = @mk_outcome sample.reliable _ _ [] 1%nat sample.control_unit (Py.Ok tt).
Proof.
  destruct (@register_round_trip sample.reliable 0%nat sample.control_unit
              "switch.one" sample_entities.switch) as (_ & _ & Hremove).
  - apply lookup_empty.
  - apply Hremove.
Defined.

(** ** What no series of calls changes *)

Section SeriesOfCalls.
Context `{Backend} `{!BackendData}.

Lemma awaited_app (tr1 tr2 : list Event) :
  awaited (tr1 ++ tr2) = awaited tr1 ++ awaited tr2.
Proof.
  induction tr1 as [|ev tr1 IH]; [done|].
  destruct ev; simpl; by rewrite IH.
Qed.

Lemma kept_refl (self : ControlUnit.t) : kept self self.
Proof. by repeat split. Qed.

Lemma kept_trans (self1 self2 self3 : ControlUnit.t) :
  kept self1 self2 -> kept self2 self3 -> kept self1 self3.
Proof.
  intros (Hs & Hi & Hd & Hp & Hn & Hc) (Hs' & Hi' & Hd' & Hp' & Hn' & Hc').
  repeat split; try congruence. intros Hsome. by apply Hc', Hc.
Qed.

(** The second loop of [async_get_new_hm_hub_entities] has no effect. *)
Lemma hub_loop_silent (self : ControlUnit.t) (new_hub_entities : list HubEntity.t)
    (b : BState) (s : ControlUnit.t) :
  forall d : gmap HmPlatform (list HubEntity.t),
  exists r : Py.res (gmap HmPlatform (list HubEntity.t)),
    for_in new_hub_entities d
      (fun hm_hub_entities hub_entity =>
         if negb (str_in (HubEntity.unique_identifier hub_entity)
                         (active_hub_unique_ids self))
         then
           match hm_hub_entities !! HubEntity.platform hub_entity with
           | Some entities =>
               ret (<[HubEntity.platform hub_entity := entities ++ [hub_entity]]>
                      hm_hub_entities)
           | None => raise (Py.KeyError (HubEntity.platform hub_entity))
           end
         else ret hm_hub_entities) b s
    = mk_outcome _ _ [] b s r.
Proof.
  induction new_hub_entities as [|hub_entity new_hub_entities IH]; intros d.
  - by eexists.
  - simpl for_in. unfold bind.
    destruct (negb _); [destruct (d !! _) as [entities|]|]; simpl.
    + destruct (IH (<[HubEntity.platform hub_entity := entities ++ [hub_entity]]> d))
        as [r ->]. by exists r.
    + by eexists.
    + destruct (IH d) as [r ->]. by exists r.
Qed.

(** [async_get_new_hm_hub_entities] has no effect. *)
Lemma new_hub_entities_silent (b : BState) (self : ControlUnit.t)
    (new_hub_entities : list HubEntity.t) :
  exists r,
    ControlUnit.async_get_new_hm_hub_entities new_hub_entities b self
    = mk_outcome _ _ [] b self r.
Proof.
  unfold ControlUnit.async_get_new_hm_hub_entities.
  erewrite bind_silent; [|reflexivity]. cbv zeta.
  erewrite bind_silent; [|apply for_in_ret].
  fold (active_hub_unique_ids self).
  match goal with |- context [for_in new_hub_entities ?d0 _] =>
    destruct (hub_loop_silent self new_hub_entities b self d0) as [[d'|e] Hrun]
  end.
  - erewrite bind_silent; [|exact Hrun]. by eexists.
  - erewrite bind_raises; [|exact Hrun]. by eexists.
Qed.

(** One call. *)
Lemma perform_frame (call : Call.t) (b : BState) (self : ControlUnit.t) :
  kept self (state (perform call b self))
  /\ Forall (await_allowed self) (awaited (trace (perform call b self))).
Proof.
  assert (Hself : ControlUnit.set_base (ControlUnit.base self) self = self)
    by by destruct self.
  assert (Hnone : Forall (await_allowed self) []) by constructor.
  assert (Hone : forall k, In k [K_get_central; K_start; K_stop] ->
                           Forall (await_allowed self) [k]).
  { intros k Hk. constructor; [|done]. unfold await_allowed. simpl in Hk.
    intuition (subst; tauto). }
  destruct call; simpl perform.
  - (* async_init_central *)
    destruct (control_init_cases b self)
      as [[e Hcase]|[(config & b' & e & _ & _ & Hcase)
                    |(config & b' & central & _ & _ & Hcase)]];
      simpl in Hcase; rewrite Hcase; simpl;
      (split; [|first [exact Hnone | apply Hone; simpl; tauto]]);
      first [apply kept_refl | repeat split; try done; by eauto].
  - (* async_start_central *)
    unfold ControlUnit.async_start_central, ControlUnit.super, zoom.
    rewrite async_start_central_cases. cbv zeta.
    destruct (BaseControlUnit._central (ControlUnit.base self)) as [central|];
      [destruct (CentralUnit_start central b) as [b' [e|]]|];
      simpl; rewrite Hself;
      (split; [apply kept_refl | first [exact Hnone | apply Hone; simpl; tauto]]).
  - (* stop_central *)
    split; [|exact Hnone]. simpl. rewrite Hself. apply kept_refl.
  - (* async_stop_central *)
    rewrite control_stop_outcome, async_stop_central_cases. cbv zeta.
    destruct (BaseControlUnit._central (ControlUnit.base self)) as [central|];
      [destruct (CentralUnit_stop central b) as [b' [e|]]|];
      simpl;
      (split; [apply kept_refl | first [exact Hnone | apply Hone; simpl; tauto]]).
  - (* central *)
    unfold discard. rewrite control_central_outcome.
    destruct (BaseControlUnit._central (ControlUnit.base self));
      (split; [apply kept_refl | exact Hnone]).
  - (* async_get_hm_entity *)
    split; [apply kept_refl | exact Hnone].
  - (* async_get_new_hm_entities *)
    unfold discard.
    destruct (new_hm_entities_outcome b self new_entities) as (d & -> & _).
    split; [apply kept_refl | exact Hnone].
  - (* async_get_new_hm_hub_entities *)
    unfold discard.
    destruct (new_hub_entities_silent b self new_hub_entities) as (r & ->).
    split; [apply kept_refl | exact Hnone].
  - (* async_get_new_hm_hub_entities_by_platform *)
    unfold discard. rewrite new_hub_entities_by_platform_outcome.
    destruct (BaseControlUnit._central (ControlUnit.base self)) as [central|];
      [destruct (CentralUnit_hub central b)|];
      (split; [apply kept_refl | exact Hnone]).
  - (* async_get_new_hm_entities_by_platform *)
    unfold discard. rewrite new_hm_entities_by_platform_outcome.
    destruct (BaseControlUnit._central (ControlUnit.base self));
      (split; [apply kept_refl | exact Hnone]).
  - (* async_get_hm_entities_by_platform *)
    unfold discard. rewrite hm_entities_by_platform_outcome.
    destruct (BaseControlUnit._central (ControlUnit.base self));
      (split; [apply kept_refl | exact Hnone]).
  - (* async_add_hm_entity *)
    rewrite add_hm_entity_outcome. split; [by repeat split | exact Hnone].
  - (* async_add_hm_hub_entity *)
    rewrite add_hm_hub_entity_outcome. split; [by repeat split | exact Hnone].
  - (* async_remove_hm_entity *)
    rewrite remove_hm_entity_outcome.
    destruct (ControlUnit._active_hm_entities self !! entity_id);
      (split; [by repeat split | exact Hnone]).
  - (* async_remove_hm_hub_entity *)
    rewrite remove_hm_hub_entity_outcome.
    destruct (ControlUnit._active_hm_hub_entities self !! entity_id);
      (split; [by repeat split | exact Hnone]).
  - (* async_fetch_all_system_variables *)
    unfold ControlUnit.async_fetch_all_system_variables.
    erewrite bind_silent; [|reflexivity].
    destruct (ControlUnit._scheduler self) as [s|] eqn:Hs.
    + unfold ControlUnit.on_scheduler, zoom. rewrite fetch_sysvars_cases.
      destruct (BaseControlUnit._central (σ (HmScheduler._control s)));
        [cbv zeta;
         destruct (HmHub_fetch_sysvar_data (HmScheduler._hm_hub s) b) as [b' [e|]]|];
        simpl;
        (split; [by repeat split|]);
        try exact Hnone;
        (constructor; [|done]); unfold await_allowed; rewrite Hs;
        do 3 right; by eauto.
    + split; [apply kept_refl | exact Hnone].
Qed.

(** A series of calls. *)
Lemma series_kept (calls : list Call.t) :
  forall (b : BState) (self : ControlUnit.t),
    kept self (series calls b self).2
    /\ Forall (await_allowed self) (awaited (series calls b self).1.1).
Proof.
  induction calls as [|call calls IH]; intros b self.
  - split; [apply kept_refl | constructor].
  - simpl series.
    destruct (perform_frame call b self) as [Hkept Hawaited].
    specialize (IH (backend (perform call b self)) (state (perform call b self))).
    destruct (series calls _ _) as [[tr b'] self']. simpl in *.
    destruct IH as [Hkept' Hawaited'].
    split; [by eapply kept_trans|].
    rewrite awaited_app. apply Forall_app. split; [done|].
    eapply Forall_impl; [exact Hawaited'|].
    intros k. unfold await_allowed. destruct Hkept as [-> _]. tauto.
Qed.

(** A control unit built by the constructor or by the factory holds no
    scheduler, whatever is called on it afterwards: the precondition of
    [async_fetch_all_system_variables] holds of every control unit the
    adapter builds. *)
Lemma constructed_unit_scheduler_ready (σ : HmScheduler.store)
    (control_config : ControlConfig.t) (b0 b : BState) (new : ControlUnit.t)
    (calls : list Call.t) :
  result (ControlUnit.__init__ control_config b0 tt) = Py.Ok new
  \/ result (ControlConfig_async_get_control_unit b0 control_config) = Py.Ok new ->
  ControlUnit._scheduler (series calls b new).2 = None
  /\ scheduler_ready σ (series calls b new).2.
Proof.
  intros Hnew.
  assert (Hnone : ControlUnit._scheduler new = None).
  { destruct Hnew as [Hnew|Hnew].
    - rewrite control_unit_init_outcome in Hnew.
      destruct (Py.lookup _ _); [|done]. simpl in Hnew. by injection Hnew as <-.
    - pose proof (factory_outcome b0 control_config) as Hcases. cbv zeta in Hcases.
      destruct (Py.lookup _ _); [|by rewrite Hcases in Hnew].
      destruct (acceptable _);
        [|destruct Hcases as [e Hcases]; by rewrite Hcases in Hnew].
      destruct Hcases as (config & _ & Hcases).
      destruct (CentralConfig_get_central config b0) as [b1 [e|central]];
        rewrite Hcases in Hnew; [done|].
      by injection Hnew as <-. }
  destruct (series_kept calls b new) as [(Hscheduler & _) _].
  unfold scheduler_ready. rewrite Hscheduler, Hnone. done.
Qed.

(** X15: what no series of calls changes, whatever the calls raise. The control unit keeps the scheduler it holds (no
    method assigns [_scheduler]) and the entry id, configuration mapping,
    default callback port and instance name of its constructor; once a
    central unit is initialised, one stays initialised. Besides
    [get_central], [start] and [stop] only the fetch of the system variables
    is ever awaited, and only by a control unit that holds a scheduler: a
    control unit fresh from its constructor holds none, so no series of
    calls on it fetches anything. *)
Theorem series_frame (calls : list Call.t) (b : BState) (self : ControlUnit.t) :
  kept self (series calls b self).2
  /\ Forall (await_allowed self) (awaited (series calls b self).1.1)
  /\ forall control_config b0,
       result (ControlUnit.__init__ control_config b0 tt) = Py.Ok self ->
       Forall (fun k => k = K_get_central \/ k = K_start \/ k = K_stop)
              (awaited (series calls b self).1.1).
Proof.
  destruct (series_kept calls b self) as [Hkept Hawaited].
  split_and!; [done | done |].
  intros control_config b0 Hnew.
  assert (Hnone : ControlUnit._scheduler self = None).
  { rewrite control_unit_init_outcome in Hnew.
    destruct (Py.lookup _ _); [|done]. simpl in Hnew. by injection Hnew as <-. }
  eapply Forall_impl; [exact Hawaited|].
  intros k. unfold await_allowed. rewrite Hnone.
  intros [?|[?|[?|[_ [? ?]]]]]; try tauto. done.
Qed.

End SeriesOfCalls.

(** ** The configuration sent to the backend *)

Section SameConfig.
Context `{Backend} `{!BackendData}.

(** The arguments of [CentralConfig] are a function of the four attributes
    the constructor sets. *)
Lemma builds_functional (self self' : BaseControlUnit.t)
    (config config' : CentralConfig.t) :
  BaseControlUnit._entry_id self' = BaseControlUnit._entry_id self ->
  BaseControlUnit._config_data self' = BaseControlUnit._config_data self ->
  BaseControlUnit._default_callback_port self'
  = BaseControlUnit._default_callback_port self ->
  BaseControlUnit._instance_name self' = BaseControlUnit._instance_name self ->
  builds self config -> builds self' config' -> config = config'.
Proof.
  intros Hid Hdata Hport Hname
    (Hn & Hfolder & Hhost & Huser & Hpass & Hcid & Htls & Hverify & Hjson & Hch
     & Hcp & Hdp & interfaces & names & Hifs & Hnames & Hall)
    (Hn' & Hfolder' & Hhost' & Huser' & Hpass' & Hcid' & Htls' & Hverify' & Hjson'
     & Hch' & Hcp' & Hdp' & interfaces' & names' & Hifs' & Hnames' & Hall').
  rewrite Hdata in *. rewrite Hid in *. rewrite Hport in *. rewrite Hname in *.
  assert (interfaces' = interfaces) as -> by congruence.
  assert (names' = names) as -> by congruence.
  assert (Hconfigs : CentralConfig.interface_configs config
                     = CentralConfig.interface_configs config').
  { clear -Hall Hall' Hname.
    revert Hall'. generalize (CentralConfig.interface_configs config').
    induction Hall as [|name ic names ics (Hc & Hi & entry & Hentry & Hp & Hpath) _ IH];
      intros ics' Hall'; inversion Hall' as [|? ic' ? ics'' Hbuilt Hrest]; subst;
      [done|].
    destruct Hbuilt as (Hc' & Hi' & entry' & Hentry' & Hp' & Hpath').
    assert (entry' = entry) as -> by congruence.
    f_equal; [|by apply IH].
    destruct ic, ic'; simpl in *. f_equal; congruence. }
  destruct config, config'; simpl in *. f_equal; congruence.
Qed.

(** What [ControlUnit.async_init_central] sends to the backend. *)
Lemma init_awaits_built (b : BState) (self : ControlUnit.t)
    (config : CentralConfig.t) (reply : Reply) :
  In (Await (get_central config) reply) (trace (ControlUnit.async_init_central b self)) ->
  builds (ControlUnit.base self) config
  /\ acceptable (BaseControlUnit._config_data (ControlUnit.base self)) = true.
Proof.
  intros Hin. pose proof (control_init_by_acceptable b self) as Hcases.
  cbv zeta in Hcases.
  destruct (acceptable _).
  - destruct Hcases as (config' & Hbuilds & Hcases). split; [|done].
    destruct (CentralConfig_get_central config' b) as [b' [e|central]];
      rewrite Hcases in Hin; simpl in Hin;
      destruct Hin as [?|[Heq|[]]]; try done; by injection Heq as <- _.
  - destruct Hcases as [e Hcases]. rewrite Hcases in Hin. simpl in Hin.
    by destruct Hin as [?|[]].
Qed.

(** X16: a control unit sends the same configuration to the backend every
    time. When [async_init_central] awaits [get_central] with a
    configuration, then after any series of calls, in any state of the
    backend, [async_init_central] awaits [get_central] again, and with that
    same configuration and no other. *)
Theorem init_resends_config (calls : list Call.t) (b b1 b2 : BState)
    (self : ControlUnit.t) (config : CentralConfig.t) (reply : Reply) :
  In (Await (get_central config) reply)
     (trace (ControlUnit.async_init_central b1 self)) ->
  let later := (series calls b self).2 in
  (exists reply',
      In (Await (get_central config) reply')
         (trace (ControlUnit.async_init_central b2 later)))
  /\ forall config' reply',
       In (Await (get_central config') reply')
          (trace (ControlUnit.async_init_central b2 later)) ->
       config' = config.
Proof.
  intros Hin later.
  destruct (init_awaits_built b1 self config reply Hin) as [Hbuilds Hacc].
  destruct (series_kept calls b self) as [(_ & Hid & Hdata & Hport & Hname & _) _].
  fold later in Hid, Hdata, Hport, Hname.
  assert (Hsame : forall config' reply',
            In (Await (get_central config') reply')
               (trace (ControlUnit.async_init_central b2 later)) ->
            config' = config).
  { intros config' reply' Hin'.
    destruct (init_awaits_built b2 later config' reply' Hin') as [Hbuilds' _].
    symmetry. by eapply builds_functional. }
  split; [|done].
  pose proof (control_init_by_acceptable b2 later) as Hcases. cbv zeta in Hcases.
  rewrite Hdata, Hacc in Hcases.
  destruct Hcases as (config' & _ & Hcases).
  assert (exists reply', In (Await (get_central config') reply')
                            (trace (ControlUnit.async_init_central b2 later)))
    as [reply' Hin'].
  { destruct (CentralConfig_get_central config' b2) as [b' [e|central]];
      rewrite Hcases; eexists; right; by left. }
  exists reply'. by rewrite <- (Hsame config' reply' Hin').
Qed.

End SameConfig.

(** An instance: the control unit of [example.py] is started, an entity is
    registered, and the central unit is initialised again. *)
Lemma init_resends_config_witness :
  exists reply,
    In (Await (get_central sample.central_config) reply)
       (trace (@ControlUnit.async_init_central sample.reliable 5%nat
                 (@series sample.reliable sample_entities.data
                    [ Call.async_init_central; Call.async_start_central;
                      Call.async_add_hm_entity "switch.one" sample_entities.switch ]
                    0%nat sample.control_unit).2)).
Proof.
  destruct (@init_resends_config sample.reliable sample_entities.data
              [ Call.async_init_central; Call.async_start_central;
                Call.async_add_hm_entity "switch.one" sample_entities.switch ]
              0%nat 0%nat 5%nat sample.control_unit sample.central_config Returned)
    as [Hagain _].
  - right. left. reflexivity.
  - exact Hagain.
Defined.

(** ** The active entities over a series of calls *)

Section ActiveEntitiesOverTime.
Context `{Backend} `{!BackendData}.

(** The control unit after one call. *)
Lemma perform_state (call : Call.t) (b : BState) (self : ControlUnit.t) :
  let after := state (perform call b self) in
  after = self
  \/ (call = Call.async_init_central
      /\ exists central,
           after = ControlUnit.set_base
                     (BaseControlUnit.set__central (Some central) (ControlUnit.base self))
                     self)
  \/ (exists entity_id hm_entity,
        call = Call.async_add_hm_entity entity_id hm_entity
        /\ after = ControlUnit.set__active_hm_entities
                     (<[entity_id := hm_entity]> (ControlUnit._active_hm_entities self))
                     self)
  \/ (exists entity_id,
        call = Call.async_remove_hm_entity entity_id
        /\ is_Some (ControlUnit._active_hm_entities self !! entity_id)
        /\ after = ControlUnit.set__active_hm_entities
                     (delete entity_id (ControlUnit._active_hm_entities self)) self)
  \/ (exists entity_id hm_hub_entity,
        call = Call.async_add_hm_hub_entity entity_id hm_hub_entity
        /\ after = ControlUnit.set__active_hm_hub_entities
                     (<[entity_id := hm_hub_entity]>
                        (ControlUnit._active_hm_hub_entities self))
                     self)
  \/ (exists entity_id,
        call = Call.async_remove_hm_hub_entity entity_id
        /\ is_Some (ControlUnit._active_hm_hub_entities self !! entity_id)
        /\ after = ControlUnit.set__active_hm_hub_entities
                     (delete entity_id (ControlUnit._active_hm_hub_entities self)) self).
Proof.
  assert (Hself : ControlUnit.set_base (ControlUnit.base self) self = self)
    by by destruct self.
  cbv zeta. destruct call; simpl perform.
  - (* async_init_central *)
    destruct (control_init_cases b self)
      as [[e Hcase]|[(config & b' & e & _ & _ & Hcase)
                    |(config & b' & central & _ & _ & Hcase)]];
      simpl in Hcase; rewrite Hcase; simpl; [by left | by left |].
    right; left. split; [done|]. by eexists.
  - (* async_start_central *)
    left. unfold ControlUnit.async_start_central, ControlUnit.super, zoom.
    rewrite async_start_central_cases. cbv zeta.
    destruct (BaseControlUnit._central (ControlUnit.base self)) as [central|];
      [destruct (CentralUnit_start central b) as [b' [e|]]|]; simpl; by rewrite Hself.
  - (* stop_central *)
    left. simpl. by rewrite Hself.
  - (* async_stop_central *)
    left. by rewrite control_stop_outcome.
  - (* central *)
    left. unfold discard. rewrite control_central_outcome.
    by destruct (BaseControlUnit._central (ControlUnit.base self)).
  - (* async_get_hm_entity *)
    by left.
  - (* async_get_new_hm_entities *)
    left. unfold discard.
    by destruct (new_hm_entities_outcome b self new_entities) as (d & -> & _).
  - (* async_get_new_hm_hub_entities *)
    left. unfold discard.
    by destruct (new_hub_entities_silent b self new_hub_entities) as (r & ->).
  - (* async_get_new_hm_hub_entities_by_platform *)
    left. unfold discard. rewrite new_hub_entities_by_platform_outcome.
    destruct (BaseControlUnit._central (ControlUnit.base self)) as [central|];
      [destruct (CentralUnit_hub central b)|]; done.
  - (* async_get_new_hm_entities_by_platform *)
    left. unfold discard. rewrite new_hm_entities_by_platform_outcome.
    by destruct (BaseControlUnit._central (ControlUnit.base self)).
  - (* async_get_hm_entities_by_platform *)
    left. unfold discard. rewrite hm_entities_by_platform_outcome.
    by destruct (BaseControlUnit._central (ControlUnit.base self)).
  - (* async_add_hm_entity *)
    do 2 right; left. rewrite add_hm_entity_outcome. by eexists _, _.
  - (* async_add_hm_hub_entity *)
    do 4 right; left. rewrite add_hm_hub_entity_outcome. by eexists _, _.
  - (* async_remove_hm_entity *)
    rewrite remove_hm_entity_outcome.
    destruct (ControlUnit._active_hm_entities self !! entity_id) eqn:Hfound;
      [|by left].
    do 3 right; left. exists entity_id. rewrite Hfound. by eauto.
  - (* async_remove_hm_hub_entity *)
    rewrite remove_hm_hub_entity_outcome.
    destruct (ControlUnit._active_hm_hub_entities self !! entity_id) eqn:Hfound;
      [|by left].
    do 5 right. exists entity_id. rewrite Hfound. by eauto.
  - (* async_fetch_all_system_variables *)
    left. unfold ControlUnit.async_fetch_all_system_variables.
    erewrite bind_silent; [|reflexivity].
    destruct (ControlUnit._scheduler self) as [s|] eqn:Hs; [|done].
    unfold ControlUnit.on_scheduler, zoom. rewrite fetch_sysvars_cases.
    assert (Hsame : ControlUnit.set__scheduler (Some s) self = self)
      by (destruct self; simpl in *; by rewrite Hs).
    destruct (BaseControlUnit._central (σ (HmScheduler._control s)));
      [cbv zeta;
       destruct (HmHub_fetch_sysvar_data (HmScheduler._hm_hub s) b) as [b' [e|]]|];
      simpl; exact Hsame.
Qed.

(** The two mappings after one call: they depend on the call and on the
    mapping before only. *)
Lemma perform_entities (call : Call.t) (b : BState) (self : ControlUnit.t) :
  ControlUnit._active_hm_entities (state (perform call b self))
  = match call with
    | Call.async_add_hm_entity entity_id hm_entity =>
        <[entity_id := hm_entity]> (ControlUnit._active_hm_entities self)
    | Call.async_remove_hm_entity entity_id =>
        delete entity_id (ControlUnit._active_hm_entities self)
    | _ => ControlUnit._active_hm_entities self
    end.
Proof.
  destruct call;
    try (match goal with |- context [perform ?c b self] =>
           pose proof (perform_state c b self) as Hs
         end;
         cbv zeta in Hs;
         destruct Hs as [Hs|[(_ & central & Hs)|[(k & e & Hcall & Hs)
                        |[(k & Hcall & _ & Hs)|[(k & e & Hcall & Hs)
                        |(k & Hcall & _ & Hs)]]]]];
         try discriminate Hcall; by rewrite Hs).
  - simpl perform. by rewrite add_hm_entity_outcome.
  - simpl perform. rewrite remove_hm_entity_outcome.
    destruct (ControlUnit._active_hm_entities self !! entity_id) eqn:Hfound; [done|].
    simpl. by rewrite delete_id.
Qed.

Lemma perform_hub_entities (call : Call.t) (b : BState) (self : ControlUnit.t) :
  ControlUnit._active_hm_hub_entities (state (perform call b self))
  = match call with
    | Call.async_add_hm_hub_entity entity_id hm_hub_entity =>
        <[entity_id := hm_hub_entity]> (ControlUnit._active_hm_hub_entities self)
    | Call.async_remove_hm_hub_entity entity_id =>
        delete entity_id (ControlUnit._active_hm_hub_entities self)
    | _ => ControlUnit._active_hm_hub_entities self
    end.
Proof.
  destruct call;
    try (match goal with |- context [perform ?c b self] =>
           pose proof (perform_state c b self) as Hs
         end;
         cbv zeta in Hs;
         destruct Hs as [Hs|[(_ & central & Hs)|[(k & e & Hcall & Hs)
                        |[(k & Hcall & _ & Hs)|[(k & e & Hcall & Hs)
                        |(k & Hcall & _ & Hs)]]]]];
         try discriminate Hcall; by rewrite Hs).
  - simpl perform. by rewrite add_hm_hub_entity_outcome.
  - simpl perform. rewrite remove_hm_hub_entity_outcome.
    destruct (ControlUnit._active_hm_hub_entities self !! entity_id) eqn:Hfound;
      [done|].
    simpl. by rewrite delete_id.
Qed.

(** X17: the active entities after a series of calls depend only on the
    calls of [async_add_hm_entity] and [async_remove_hm_entity] in it, and
    on the entities before: the other calls, the answers of the backend and
    the exceptions raised on the way make no difference, and a series
    without these two calls (initialising, starting or stopping the central
    unit, any query) leaves the active entities as they were. The same holds
    for the active hub entities and their two methods. *)
Theorem active_entities_replay (calls : list Call.t) (b b' : BState)
    (self : ControlUnit.t) :
  ControlUnit._active_hm_entities (series calls b self).2
  = ControlUnit._active_hm_entities
      (series (List.filter changes_entities calls) b' self).2
  /\ ControlUnit._active_hm_hub_entities (series calls b self).2
     = ControlUnit._active_hm_hub_entities
         (series (List.filter changes_hub_entities calls) b' self).2
  /\ (List.filter changes_entities calls = [] ->
      ControlUnit._active_hm_entities (series calls b self).2
      = ControlUnit._active_hm_entities self)
  /\ (List.filter changes_hub_entities calls = [] ->
      ControlUnit._active_hm_hub_entities (series calls b self).2
      = ControlUnit._active_hm_hub_entities self).
Proof.
  assert (Hentities : forall calls b1 b2 self1 self2,
            ControlUnit._active_hm_entities self1
            = ControlUnit._active_hm_entities self2 ->
            ControlUnit._active_hm_entities (series calls b1 self1).2
            = ControlUnit._active_hm_entities
                (series (List.filter changes_entities calls) b2 self2).2).
  { clear. induction calls as [|call calls IH]; intros b1 b2 self1 self2 Hsame;
      [done|].
    simpl series at 1.
    pose proof (perform_entities call b1 self1) as Hfirst.
    destruct (series calls (backend (perform call b1 self1))
                (state (perform call b1 self1))) as [[tr1 b1'] after1] eqn:Hrest1.
    simpl List.filter.
    destruct (changes_entities call) eqn:Hchanges.
    - simpl series.
      pose proof (perform_entities call b2 self2) as Hsecond.
      destruct (series (List.filter changes_entities calls)
                  (backend (perform call b2 self2))
                  (state (perform call b2 self2))) as [[tr2 b2'] after2] eqn:Hrest2.
      simpl.
      specialize (IH (backend (perform call b1 self1)) (backend (perform call b2 self2))
                     (state (perform call b1 self1)) (state (perform call b2 self2))).
      rewrite Hrest1, Hrest2 in IH. apply IH.
      rewrite Hfirst, Hsecond. by destruct call; rewrite ?Hsame.
    - simpl.
      specialize (IH (backend (perform call b1 self1)) b2
                     (state (perform call b1 self1)) self2).
      rewrite Hrest1 in IH. apply IH.
      rewrite Hfirst. by destruct call. }
  assert (Hhub : forall calls b1 b2 self1 self2,
            ControlUnit._active_hm_hub_entities self1
            = ControlUnit._active_hm_hub_entities self2 ->
            ControlUnit._active_hm_hub_entities (series calls b1 self1).2
            = ControlUnit._active_hm_hub_entities
                (series (List.filter changes_hub_entities calls) b2 self2).2).
  { clear. induction calls as [|call calls IH]; intros b1 b2 self1 self2 Hsame;
      [done|].
    simpl series at 1.
    pose proof (perform_hub_entities call b1 self1) as Hfirst.
    destruct (series calls (backend (perform call b1 self1))
                (state (perform call b1 self1))) as [[tr1 b1'] after1] eqn:Hrest1.
    simpl List.filter.
    destruct (changes_hub_entities call) eqn:Hchanges.
    - simpl series.
      pose proof (perform_hub_entities call b2 self2) as Hsecond.
      destruct (series (List.filter changes_hub_entities calls)
                  (backend (perform call b2 self2))
                  (state (perform call b2 self2))) as [[tr2 b2'] after2] eqn:Hrest2.
      simpl.
      specialize (IH (backend (perform call b1 self1)) (backend (perform call b2 self2))
                     (state (perform call b1 self1)) (state (perform call b2 self2))).
      rewrite Hrest1, Hrest2 in IH. apply IH.
      rewrite Hfirst, Hsecond. by destruct call; rewrite ?Hsame.
    - simpl.
      specialize (IH (backend (perform call b1 self1)) b2
                     (state (perform call b1 self1)) self2).
      rewrite Hrest1 in IH. apply IH.
      rewrite Hfirst. by destruct call. }
  split_and!.
  - by apply Hentities.
  - by apply Hhub.
  - intros Hnone. rewrite (Hentities calls b b self self eq_refl), Hnone. done.
  - intros Hnone. rewrite (Hhub calls b b self self eq_refl), Hnone. done.
Qed.

End ActiveEntitiesOverTime.

(** ** Discovery and registration of hub entities *)

Section HubDiscovery.
Context `{Backend} `{!BackendData}.

Lemma active_hub_unique_ids_spec (self : ControlUnit.t) (uid : string) :
  uid ∈ active_hub_unique_ids self
  <-> exists entity_id active,
        ControlUnit._active_hm_hub_entities self !! entity_id = Some active
        /\ HubEntity.unique_identifier active = uid.
Proof.
  unfold active_hub_unique_ids. rewrite list_elem_of_fmap. split.
  - intros (active & -> & Hin). apply list_elem_of_fmap in Hin as ([k a] & -> & Hin).
    apply elem_of_map_to_list in Hin. by exists k, a.
  - intros (k & a & Hk & <-). exists a. split; [done|].
    apply list_elem_of_fmap. exists (k, a). split; [done|].
    by apply elem_of_map_to_list.
Qed.

Lemma is_new_hub_insert (self : ControlUnit.t) (entity_id : string)
    (hm_hub_entity hub_entity : HubEntity.t) :
  ControlUnit._active_hm_hub_entities self !! entity_id = None ->
  is_new_hub (ControlUnit.set__active_hm_hub_entities
                (<[entity_id := hm_hub_entity]>
                   (ControlUnit._active_hm_hub_entities self)) self)
             hub_entity
  <-> is_new_hub self hub_entity
      /\ HubEntity.unique_identifier hub_entity
         <> HubEntity.unique_identifier hm_hub_entity.
Proof.
  intros Hfresh. unfold is_new_hub. rewrite !active_hub_unique_ids_spec. simpl.
  split.
  - intros Hnew. split.
    + intros (k & active & Hk & Huid). apply Hnew. exists k, active.
      split; [|done]. rewrite lookup_insert_ne; [done|]. intros <-. congruence.
    + intros Heq. apply Hnew. exists entity_id, hm_hub_entity.
      by rewrite lookup_insert_eq.
  - intros [Hnew Hne] (k & active & Hk & Huid).
    destruct (decide (k = entity_id)) as [->|Hother].
    + rewrite lookup_insert_eq in Hk. injection Hk as <-. congruence.
    + rewrite lookup_insert_ne in Hk by done. apply Hnew. by exists k, active.
Qed.

(** X18: the two ways to ask for the new hub entities of a platform. When
    [async_get_new_hm_hub_entities] returns for the program entities and
    the system variable entities of the hub, it has under each of its keys
    exactly the list that [async_get_new_hm_hub_entities_by_platform]
    returns for that platform, and for a platform that is no key the
    by-platform query returns the empty list. *)
Theorem new_hub_entities_two_ways (platform : HmPlatform) (b : BState)
    (self : ControlUnit.t) (central : CentralUnit.t) (hub : HmHub.t)
    (hm_hub_entities : gmap HmPlatform (list HubEntity.t)) :
  BaseControlUnit._central (ControlUnit.base self) = Some central ->
  CentralUnit_hub central b = Some hub ->
  result (ControlUnit.async_get_new_hm_hub_entities
            (HmHub_program_entities hub b ++ HmHub_sysvar_entities hub b) b self)
  = Py.Ok hm_hub_entities ->
  exists listed,
    result (ControlUnit.async_get_new_hm_hub_entities_by_platform platform b self)
    = Py.Ok listed
    /\ hm_hub_entities !! platform
       = (if decide (platform ∈ AVAILABLE_HM_HUB_PLATFORMS) then Some listed else None)
    /\ (platform ∉ AVAILABLE_HM_HUB_PLATFORMS -> listed = []).
Proof.
  intros Hcentral Hhub Hok.
  set (entities := HmHub_program_entities hub b ++ HmHub_sysvar_entities hub b) in *.
  destruct (new_hub_entities_outcome b self entities)
    as [(Hall & d & Hrun & Hd)|(pre & bad & post & _ & _ & _ & Hrun)];
    rewrite Hrun in Hok; [|done].
  injection Hok as <-.
  exists (filter (is_new_hub_listed self platform) entities).
  rewrite new_hub_entities_by_platform_outcome, Hcentral, Hhub.
  split_and!; [done | by rewrite Hd |].
  intros Hother. clear -Hall Hother.
  induction Hall as [|hub_entity entities Hcan _ IH]; [done|].
  rewrite filter_cons_False; [exact IH|].
  intros [Hnew Heq]. apply Hother. rewrite <- Heq. by apply Hcan.
Qed.

(** X19: registering a hub entity under a fresh id, and what follows. In
    what [async_get_new_hm_hub_entities_by_platform] returns, the hub
    entities with the unique identifier of the registered one are gone and
    nothing else changes; where it raised it still raises. A list that
    [async_get_new_hm_hub_entities] could file before, it can still file.
    Removing the id again restores the control unit. *)
Theorem register_hub_round_trip (b : BState) (self : ControlUnit.t)
    (entity_id : string) (hm_hub_entity : HubEntity.t) :
  ControlUnit._active_hm_hub_entities self !! entity_id = None ->
  let registered :=
    state (ControlUnit.async_add_hm_hub_entity entity_id hm_hub_entity b self) in
  (forall b' platform,
     result (ControlUnit.async_get_new_hm_hub_entities_by_platform platform b' registered)
     = match result (ControlUnit.async_get_new_hm_hub_entities_by_platform
                       platform b' self) with
       | Py.Ok listed =>
           Py.Ok (filter (fun e => HubEntity.unique_identifier e
                                   <> HubEntity.unique_identifier hm_hub_entity)
                         listed)
       | Py.Raise e => Py.Raise e
       end)
  /\ (forall b' new_hub_entities,
        (exists before,
            result (ControlUnit.async_get_new_hm_hub_entities new_hub_entities b' self)
            = Py.Ok before) ->
        exists after,
          result (ControlUnit.async_get_new_hm_hub_entities new_hub_entities b'
                    registered)
          = Py.Ok after)
  /\ (forall b',
        ControlUnit.async_remove_hm_hub_entity entity_id b' registered
        = mk_outcome _ _ [] b' self (Py.Ok tt)).
Proof.
  intros Hfresh registered. subst registered. rewrite add_hm_hub_entity_outcome.
  simpl state.
  set (registered := ControlUnit.set__active_hm_hub_entities _ self).
  assert (Hnew : forall hub_entity,
            is_new_hub registered hub_entity
            <-> is_new_hub self hub_entity
                /\ HubEntity.unique_identifier hub_entity
                   <> HubEntity.unique_identifier hm_hub_entity)
    by (intros hub_entity; by apply is_new_hub_insert).
  split_and!.
  - intros b' platform. rewrite !new_hub_entities_by_platform_outcome.
    change (ControlUnit.base registered) with (ControlUnit.base self).
    destruct (BaseControlUnit._central (ControlUnit.base self)) as [central|];
      [|done].
    destruct (CentralUnit_hub central b') as [hub|]; [|done].
    simpl. f_equal. rewrite list_filter_filter. apply list_filter_iff.
    intros hub_entity. unfold is_new_hub_listed. rewrite Hnew. tauto.
  - intros b' new_hub_entities [before Hbefore].
    destruct (new_hub_entities_outcome b' self new_hub_entities)
      as [(Hall & _)|(pre & bad & post & _ & _ & _ & Hrun)];
      [|by rewrite Hrun in Hbefore].
    destruct (new_hub_entities_outcome b' registered new_hub_entities)
      as [(_ & after & -> & _)|(pre & bad & post & -> & _ & Hbad & _)];
      [by exists after|].
    exfalso. apply Hbad. intros [Hbadnew _]%Hnew.
    apply Forall_app in Hall as [_ Hall]. apply Forall_cons in Hall as [Hcan _].
    by apply Hcan.
  - intros b'. rewrite remove_hm_hub_entity_outcome. simpl.
    rewrite lookup_insert_eq, delete_insert_id by done.
    by destruct self.
Qed.

End HubDiscovery.

(** An instance: the hub of the central unit and the platform of its
    program entity. *)
Lemma new_hub_entities_two_ways_witness :
  exists hm_hub_entities listed,
    result (@ControlUnit.async_get_new_hm_hub_entities sample.reliable
              sample_entities.data
              [ sample_entities.program; sample_entities.sysvar ] 0%nat
              sample_entities.connected_unit)
    = Py.Ok hm_hub_entities
    /\ result (@ControlUnit.async_get_new_hm_hub_entities_by_platform sample.reliable
                 sample_entities.data "hub_button" 0%nat
                 sample_entities.connected_unit)
       = Py.Ok listed
    /\ hm_hub_entities !! "hub_button" = Some listed.
Proof.
  edestruct (@new_hub_entities_two_ways sample.reliable sample_entities.data
               "hub_button" 0%nat sample_entities.connected_unit sample.central
               sample.hub)
    as (listed & Hlisted & Hkey & _); [reflexivity | reflexivity | reflexivity |].
  eexists _, listed. split; [|split; [exact Hlisted | exact Hkey]].
  reflexivity.
Defined.

(** An instance: the system variable entity registered in a control unit
    without active hub entities. *)
Lemma register_hub_round_trip_witness :
  @ControlUnit.async_remove_hm_hub_entity sample.reliable "sensor.sysvar" 1%nat
    (state (@ControlUnit.async_add_hm_hub_entity sample.reliable "sensor.sysvar"
              sample_entities.sysvar 0%nat sample.control_unit))
  = @mk_outcome sample.reliable _ _ [] 1%nat sample.control_unit (Py.Ok tt).
Proof.
  destruct (@register_hub_round_trip sample.reliable sample_entities.data 0%nat
              sample.control_unit "sensor.sysvar" sample_entities.sysvar)
    as (_ & _ & Hremove).
  - apply lookup_empty.
  - apply Hremove.
Defined.

(** ** The callback for device related events *)

Section HaEventCallback.
Context `{Backend} `{!BackendEvents} `{!Formatting}.

Lemma getitem_has_key (event_data : Py.mapping) (key : string) :
  Py.getitem event_data key
  = if has_key event_data key then Py.Ok (Py.get event_data key)
    else Py.Raise (Py.KeyError key).
Proof.
  unfold Py.getitem, has_key, Py.get. by destruct (Py.lookup event_data key).
Qed.

(** X20: the callback [_async_callback_ha_event] has no effect: it logs
    nothing, awaits nothing and leaves the control unit as it is, and so do
    the two notification stubs it calls. All a caller can observe is a
    [KeyError]: the callback reads the keys of the event data in a fixed
    order that depends on the event type only ([address] for an impulse or
    a keypress; [address], [interface_id], [parameter], [value] for a device
    event; [interface_id], [type], [value] for an interface event; none for
    any other event type), raises [KeyError] for the first of them that is
    missing, and returns when none is missing. *)
Theorem ha_event_callback_key_errors (hm_event_type : HmEventType)
    (event_data : Py.mapping) (b : BState) (self : ControlUnit.t) :
  ControlUnit._async_callback_ha_event hm_event_type event_data b self
  = mk_outcome _ _ [] b self
      match first_missing event_data (keys_read hm_event_type) with
      | Some key => Py.Raise (Py.KeyError key)
      | None => Py.Ok tt
      end
  /\ (forall identifier title message,
        ControlUnit._async_create_persistent_notification identifier title message
          b self
        = mk_outcome _ _ [] b self (Py.Ok tt))
  /\ (forall identifier,
        ControlUnit._async_dismiss_persistent_notification identifier b self
        = mk_outcome _ _ [] b self (Py.Ok tt)).
Proof.
  split; [|by split].
  unfold ControlUnit._async_callback_ha_event, keys_read, first_missing.
  destruct (bool_decide (hm_event_type = HmEventType_IMPULSE)
            || bool_decide (hm_event_type = HmEventType_KEYPRESS)).
  { simpl List.find. rewrite getitem_has_key.
    by destruct (has_key event_data ATTR_ADDRESS). }
  destruct (bool_decide (hm_event_type = HmEventType_DEVICE)).
  { simpl List.find. rewrite !getitem_has_key.
    destruct (has_key event_data ATTR_ADDRESS); [|done].
    rewrite bind_lift_Ok. cbv zeta.
    destruct (has_key event_data ATTR_INTERFACE_ID); [|done].
    rewrite bind_lift_Ok.
    destruct (has_key event_data ATTR_PARAMETER); [|done].
    rewrite bind_lift_Ok.
    destruct (has_key event_data ATTR_VALUE); [|done].
    rewrite bind_lift_Ok. simpl negb. cbv iota.
    by destruct (Py.eq_str _ _ || Py.eq_str _ _). }
  destruct (bool_decide (hm_event_type = HmEventType_INTERFACE)); [|done].
  simpl List.find. rewrite !getitem_has_key.
  destruct (has_key event_data ATTR_INTERFACE_ID); [|done].
  rewrite bind_lift_Ok.
  destruct (has_key event_data ATTR_TYPE); [|done].
  rewrite bind_lift_Ok.
  destruct (has_key event_data ATTR_VALUE); [|done].
  rewrite bind_lift_Ok. simpl negb. cbv iota.
  erewrite bind_silent.
  - destruct (eq_HmInterfaceEventType_CALLBACK _); [|done].
    cbv zeta. by destruct (Builtins.truthy _).
  - destruct (eq_HmInterfaceEventType_PROXY _); [|done].
    cbv zeta. by destruct (Builtins.truthy _).
Qed.

End HaEventCallback.

(** ** [hahmmqtt/__init__.py]: the topic of an entity *)

Section Topic.
Context `{Formatting}.

(** A text without the separator ends at the first separator. *)
Lemma split_at_slash (a a' r r' : string) :
  has_slash a = false -> has_slash a' = false ->
  String.append a (String "/" r) = String.append a' (String "/" r') ->
  a = a' /\ r = r'.
Proof.
  revert a'. induction a as [|c a IH]; intros [|c' a'] Ha Ha' Heq; simpl in *.
  - by injection Heq as <-.
  - injection Heq as <- _. by rewrite Ascii.eqb_refl in Ha'.
  - injection Heq as -> _. by rewrite Ascii.eqb_refl in Ha.
  - injection Heq as <- Heq.
    apply orb_false_iff in Ha as [_ Ha]. apply orb_false_iff in Ha' as [_ Ha'].
    destruct (IH a' Ha Ha' Heq) as [-> ->]. done.
Qed.

Lemma split_slash_part (a r : string) :
  has_slash a = false ->
  split_slash (String.append a (String "/" r)) = a :: split_slash r.
Proof.
  intros Ha. induction a as [|c a IH]; simpl in *; [done|].
  apply orb_false_iff in Ha as [Hc Ha]. by rewrite Hc, IH.
Qed.

Lemma split_slash_whole (a : string) :
  has_slash a = false -> split_slash a = [ a ].
Proof.
  intros Ha. induction a as [|c a IH]; simpl in *; [done|].
  apply orb_false_iff in Ha as [Hc Ha]. by rewrite Hc, IH.
Qed.

(** X21: the topic of an entity is "hahm", the device address, the channel
    number and the parameter, in this order and separated by "/": as long as
    the texts of the device address and of the channel number hold no "/",
    splitting the topic at "/" gives back "hahm", the text of the device
    address, the text of the channel number and then the parts of the
    parameter (the parameter itself when it holds no "/"). So the topic
    tells entities apart: two such entities have the same topic exactly
    when their three texts are the same. *)
Theorem topic_tells_entities_apart (entity entity' : GenericEntity.t) :
  has_slash (format_value (GenericEntity.device_address entity)) = false ->
  has_slash (format_value (GenericEntity.device_address entity')) = false ->
  has_slash (format_value (GenericEntity.channel_no entity)) = false ->
  has_slash (format_value (GenericEntity.channel_no entity')) = false ->
  split_slash (generticEntityTopic entity)
  = "hahm"
    :: format_value (GenericEntity.device_address entity)
    :: format_value (GenericEntity.channel_no entity)
    :: split_slash (format_value (GenericEntity.parameter entity))
  /\ (has_slash (format_value (GenericEntity.parameter entity)) = false ->
      split_slash (generticEntityTopic entity)
      = [ "hahm";
          format_value (GenericEntity.device_address entity);
          format_value (GenericEntity.channel_no entity);
          format_value (GenericEntity.parameter entity) ])
  /\ (generticEntityTopic entity = generticEntityTopic entity'
      <-> format_value (GenericEntity.device_address entity)
          = format_value (GenericEntity.device_address entity')
          /\ format_value (GenericEntity.channel_no entity)
             = format_value (GenericEntity.channel_no entity')
          /\ format_value (GenericEntity.parameter entity)
             = format_value (GenericEntity.parameter entity')).
Proof.
  intros Ha Ha' Hc Hc'.
  assert (Hparts : split_slash (generticEntityTopic entity)
                   = "hahm"
                     :: format_value (GenericEntity.device_address entity)
                     :: format_value (GenericEntity.channel_no entity)
                     :: split_slash (format_value (GenericEntity.parameter entity))).
  { unfold generticEntityTopic.
    change (String.append "hahm/" ?x) with (String.append "hahm" (String "/" x)).
    rewrite (split_slash_part "hahm") by reflexivity.
    change (String.append "/" ?x) with (String "/" x).
    rewrite (split_slash_part _ _ Ha).
    change (String.append "/" ?x) with (String "/" x).
    by rewrite (split_slash_part _ _ Hc). }
  split_and!; [done | |].
  - intros Hp. by rewrite Hparts, (split_slash_whole _ Hp).
  - unfold generticEntityTopic. split.
    + intros Heq. simpl in Heq. injection Heq as Heq.
      apply split_at_slash in Heq as [Haddress Heq]; [|done|done].
      apply split_at_slash in Heq as [Hchannel Hparameter]; [|done|done].
      done.
    + by intros (-> & -> & ->).
Qed.

End Topic.

(** An instance: the same parameter on two channels of a device. *)
Lemma topic_tells_entities_apart_witness :
  @generticEntityTopic sample_format.formatting sample_format.state_of_channel_1
  = "hahm/VCU0000001/1/STATE"
  /\ split_slash
       (@generticEntityTopic sample_format.formatting sample_format.state_of_channel_1)
     = [ "hahm"; "VCU0000001"; "1"; "STATE" ]
  /\ @generticEntityTopic sample_format.formatting sample_format.state_of_channel_1
     <> @generticEntityTopic sample_format.formatting sample_format.state_of_channel_2.
Proof.
  split; [reflexivity|].
  destruct (@topic_tells_entities_apart sample_format.formatting
              sample_format.state_of_channel_1 sample_format.state_of_channel_2
              eq_refl eq_refl eq_refl eq_refl) as (_ & Hparts & Hiff).
  split; [exact (Hparts eq_refl)|].
  intros Heq. apply Hiff in Heq as (_ & Hchannel & _). discriminate Hchannel.
Defined.
